(** * lidar-service: berthing telemetry core and fake lidar simulator

    A shallow embedding of
      - app/api/endpoints/berthing_data.py   (module [BerthingData])
      - app/services/berthing_data_core.py   (module [BerthingDataCore])
      - app/api/endpoints/connection.py      (module [Connection])
      - app/services/fake_lidar.py           (module [FakeLidar])

    Python floats are embedded as exact rationals extended with the two
    infinities and NaN ([pyfloat]).  Every finite binary64 value is a
    rational, and the comparisons below follow IEEE-754 (NaN compares
    false with everything), so each statement quantified over [pyfloat]
    covers every float the code can see.  Subtraction and division are
    the exact ones: rounding error of the float arithmetic is not
    modelled. *)

From Stdlib Require Import ZArith QArith Qabs Qround Qfield Lia Lqa List Bool.
From Stdlib.Strings Require Import Byte.
From stdpp Require Import base option gmap strings list pretty.

Local Open Scope Z_scope.

(** ** Python numbers *)

Module PyNum.

Inductive pyfloat : Type :=
| Fin (q : Q)
| PInf
| NInf
| NaN.

Definition Qltb (a b : Q) : bool := (Qnum a * QDen b <? Qnum b * QDen a)%Z.
Definition Qleb (a b : Q) : bool := (Qnum a * QDen b <=? Qnum b * QDen a)%Z.
Definition Qeqb (a b : Q) : bool := (Qnum a * QDen b =? Qnum b * QDen a)%Z.

(** [x < y] on floats. *)
Definition flt (x y : pyfloat) : bool :=
  match x, y with
  | NaN, _ | _, NaN => false
  | Fin a, Fin b => Qltb a b
  | NInf, Fin _ | NInf, PInf | Fin _, PInf => true
  | _, _ => false
  end.

(** [x <= y] on floats. *)
Definition fle (x y : pyfloat) : bool :=
  match x, y with
  | NaN, _ | _, NaN => false
  | Fin a, Fin b => Qleb a b
  | NInf, _ | _, PInf => true
  | _, _ => false
  end.

(** [x > y] is [y < x]; [x >= y] is [y <= x]. *)
Definition fgt (x y : pyfloat) : bool := flt y x.
Definition fge (x y : pyfloat) : bool := fle y x.

(** [x == y] and [x != y] on floats. *)
Definition feq (x y : pyfloat) : bool :=
  match x, y with
  | Fin a, Fin b => Qeqb a b
  | PInf, PInf | NInf, NInf => true
  | _, _ => false
  end.
Definition fne (x y : pyfloat) : bool := negb (feq x y).

(** [abs(x)]. *)
Definition fabs (x : pyfloat) : pyfloat :=
  match x with
  | Fin q => Fin (Qabs q)
  | PInf | NInf => PInf
  | NaN => NaN
  end.

(** [x * y]. *)
Definition fmul (x y : pyfloat) : pyfloat :=
  let sign_mul (neg : bool) := if neg then NInf else PInf in
  match x, y with
  | NaN, _ | _, NaN => NaN
  | Fin a, Fin b => Fin (a * b)
  | Fin a, PInf | PInf, Fin a =>
      if Qeqb a 0 then NaN else sign_mul (Qltb a 0)
  | Fin a, NInf | NInf, Fin a =>
      if Qeqb a 0 then NaN else sign_mul (negb (Qltb a 0))
  | PInf, PInf | NInf, NInf => PInf
  | PInf, NInf | NInf, PInf => NInf
  end.

(** Nearest integer, ties to the even neighbour. *)
Definition round_half_even (q : Q) : Z :=
  let f := Qfloor q in
  match (q - inject_Z f ?= 1 # 2)%Q with
  | Lt => f
  | Gt => f + 1
  | Eq => if Z.even f then f else f + 1
  end.

(** [round(q, ndigits)] for a finite value and [ndigits >= 0]. *)
Definition Qround_nd (q : Q) (ndigits : nat) : Q :=
  let scale := inject_Z (10 ^ Z.of_nat ndigits) in
  Qred (inject_Z (round_half_even (q * scale)) / scale).

(** [round(x, ndigits)]: infinities and NaN are returned unchanged. *)
Definition round (x : pyfloat) (ndigits : nat) : pyfloat :=
  match x with
  | Fin q => Fin (Qround_nd q ndigits)
  | other => other
  end.

End PyNum.
Import PyNum.

(** ** Python exceptions and the results of fallible code *)

Module PyExn.

Inductive exn : Type :=
| ZeroDivisionError
| IndexError
| KeyError (key : string)
| StructError (msg : string)
| OSError (msg : string)
| Exception (msg : string).

(** [str(e)]. *)
Definition str (e : exn) : string :=
  match e with
  | ZeroDivisionError => "float division by zero"
  | IndexError => "list index out of range"
  | KeyError key => "'" ++ key ++ "'"
  | StructError msg | OSError msg | Exception msg => msg
  end%string.

(** A computation either returns a value or raises. *)
Inductive result (A : Type) : Type :=
| Returned (a : A)
| Raised (e : exn).
Arguments Returned {A} a.
Arguments Raised {A} e.

#[global] Instance result_bind : MBind result :=
  fun A B (k : A -> result B) (c : result A) =>
    match c with
    | Returned a => k a
    | Raised e => Raised e
    end.

(** [d[key]] on a dictionary entry that may be missing. *)
Definition getitem {A : Type} (key : string) (entry : option A) : result A :=
  match entry with
  | Some a => Returned a
  | None => Raised (KeyError key)
  end.

(** What a FastAPI handler hands back: a response body, nothing at all
    (the function runs off its end and returns [None]), or an
    [HTTPException]. *)
Inductive endpoint_result (A : Type) : Type :=
| Response (body : A)
| NoResponse
| HTTPException (status_code : Z) (detail : string).
Arguments Response {A} body.
Arguments NoResponse {A}.
Arguments HTTPException {A} status_code detail.

End PyExn.
Import PyExn.

(** ** The manager state the endpoints read

    [lidar_manager] is an ambient object of the service; the endpoints
    only read the attributes below.  Dictionaries are finite maps keyed
    by sensor id; a statistics dictionary is a record of optional
    entries, read with [.get(key, default)]. *)

Module LidarManager.

Record center_stats : Type := {
  stable_distance : option pyfloat;
  speed_mps : option pyfloat;
  speed_mm_s : option pyfloat;
  instant_speed : option pyfloat;
  sa_averaged_speed : option pyfloat;
  trend_speed : option pyfloat;
  speed_precision_mm_s : option pyfloat;
  is_vessel_moving : option bool;
  movement_phase : option string;
  speed_confidence : option pyfloat
}.

(** The empty dictionary [{}]. *)
Definition no_stats : center_stats :=
  {| stable_distance := None; speed_mps := None; speed_mm_s := None;
     instant_speed := None; sa_averaged_speed := None; trend_speed := None;
     speed_precision_mm_s := None; is_vessel_moving := None;
     movement_phase := None; speed_confidence := None |}.

Record sync_data : Type := {
  sd_timestamp : option pyfloat;
  sd_center_stats : option center_stats
}.

Definition no_sync_data : sync_data :=
  {| sd_timestamp := None; sd_center_stats := None |}.

Record lidar_manager : Type := {
  sensors : gset string;
  stream_active : gmap string bool;
  sensor_sync_data : gmap string sync_data;
  berthing_mode_sensors : list string;
  berthing_mode_center_stats : gmap string center_stats;
  berthing_mode_active : bool;
  sync_coordinator_active : bool;
  (** each calculator is represented by its [distance_history]:
      (timestamp, distance) pairs, oldest first *)
  vessel_speed_calculators : gmap string (list (Q * Q))
}.

End LidarManager.
Import LidarManager.

(** ** berthing_data.py *)

Module BerthingData.

(** A per-sensor entry of the summary: keys "distance", "speed_mm_s",
    "is_moving", "phase". *)
Record sensor_summary : Type := {
  ss_distance : pyfloat;
  ss_speed_mm_s : pyfloat;
  ss_is_moving : bool;
  ss_phase : string
}.

Record summary : Type := {
  summary_berthing_mode_active : bool;
  summary_sensors : gmap string sensor_summary;
  overall_status : string;
  min_distance : option pyfloat;
  max_speed_mm_s : pyfloat
}.

(** The local variables of [get_berthing_summary] that the loop over
    [berthing_mode_sensors] updates. *)
Record summary_locals : Type := {
  l_sensors : gmap string sensor_summary;
  l_any_moving : bool;
  l_min_distance : pyfloat;
  l_max_speed : pyfloat
}.

Definition summary_init : summary_locals :=
  {| l_sensors := ∅; l_any_moving := false;
     l_min_distance := PInf; l_max_speed := Fin 0 |}.

(** One iteration of the loop body. *)
Definition summary_step (mgr : lidar_manager) (st : summary_locals)
    (sensor_id : string) : summary_locals :=
  match berthing_mode_center_stats mgr !! sensor_id with
  | None => st
  | Some stats =>
      let distance := default (Fin 0) (stable_distance stats) in
      let speed := fabs (default (Fin 0) (speed_mps stats)) in
      let is_moving := default false (is_vessel_moving stats) in
      let phase := default "unknown"%string (movement_phase stats) in
      {| l_sensors :=
           <[sensor_id := {| ss_distance := round distance 3;
                             ss_speed_mm_s := round (fmul speed (Fin 1000)) 1;
                             ss_is_moving := is_moving;
                             ss_phase := phase |}]> (l_sensors st);
         l_any_moving := if is_moving then true else l_any_moving st;
         l_min_distance :=
           if flt distance (l_min_distance st) && fgt distance (Fin 0)
           then distance else l_min_distance st;
         l_max_speed :=
           if fgt speed (l_max_speed st) then speed else l_max_speed st |}
  end.

Definition summary_loop (mgr : lidar_manager) : summary_locals :=
  fold_left (summary_step mgr) (berthing_mode_sensors mgr) summary_init.

(** [get_berthing_summary].  Nothing in the body raises on these
    types, so the handler's [except] branch (HTTPException 500) is
    never taken and the summary is returned as it is. *)
Definition get_berthing_summary (mgr : lidar_manager) : summary :=
  let st := summary_loop mgr in
  let any_moving := l_any_moving st in
  let min_distance := l_min_distance st in
  let max_speed := l_max_speed st in
  {| summary_berthing_mode_active := berthing_mode_active mgr;
     summary_sensors := l_sensors st;
     overall_status :=
       if negb (berthing_mode_active mgr) then "inactive"
       else if any_moving then
         if flt min_distance (Fin 5) then "final_approach"
         else if flt min_distance (Fin 20) then "approaching"
         else "monitoring"
       else
         if flt min_distance (Fin 1) then "berthed"
         else "standby";
     min_distance :=
       if fne min_distance PInf then Some (round min_distance 3) else None;
     max_speed_mm_s := round (fmul max_speed (Fin 1000)) 1 |}.

(** *** get_berthing_history *)

(** An entry of "history": keys "timestamp", "distance", "speed",
    "speed_mm_s". *)
Record history_point : Type := {
  h_timestamp : Q;
  h_distance : Q;
  h_speed : Q;
  h_speed_mm_s : Q
}.

Record history_response : Type := {
  hr_sensor_id : string;
  history : list history_point;
  count : nat;
  oldest_timestamp : Q;
  latest_timestamp : Q
}.

(** [x / y] on floats: a zero divisor raises. *)
Definition div (x y : Q) : result Q :=
  if Qeqb y 0 then Raised ZeroDivisionError else Returned (x / y)%Q.

(** [l[start:]] for a Python integer [start]: a negative start counts
    from the end, and the bounds are clamped to the list. *)
Definition slice_from {A : Type} (l : list A) (start : Z) : list A :=
  let n := Z.of_nat (length l) in
  let lo := if start <? 0 then Z.max (start + n) 0 else Z.min start n in
  drop (Z.to_nat lo) l.

(** The loop [for i, (timestamp, distance) in enumerate(history)],
    started at index [i] on the remaining samples [rest]. *)
Fixpoint format_history (history : list (Q * Q)) (i : nat)
    (rest : list (Q * Q)) : result (list history_point) :=
  match rest with
  | [] => Returned []
  | (timestamp, distance) :: rest' =>
      speed ← (if (0 <? i)%nat then
                  match history !! (i - 1)%nat with
                  | Some (prev_t, prev_d) =>
                      let dt := (timestamp - prev_t)%Q in
                      if Qltb 0 dt then div (distance - prev_d)%Q dt
                      else Returned 0%Q
                  | None => Raised IndexError
                  end
                else Returned 0%Q);
      history_data ← format_history history (S i) rest';
      Returned ({| h_timestamp := timestamp;
                   h_distance := Qround_nd distance 3;
                   h_speed := Qround_nd speed 4;
                   h_speed_mm_s := Qround_nd (speed * 1000) 1 |}
                :: history_data)
  end.

(** [get_berthing_history]: the 404 raised for an unknown sensor
    passes through; any other exception of the body becomes an
    HTTPException 500 carrying its message. *)
Definition get_berthing_history (mgr : lidar_manager) (sensor_id : string)
    (limit : Z) : endpoint_result history_response :=
  match vessel_speed_calculators mgr !! sensor_id with
  | None =>
      HTTPException 404 ("No speed calculator found for sensor " ++ sensor_id)
  | Some distance_history =>
      let history := distance_history in
      let history :=
        if Z.of_nat (length history) >? limit
        then slice_from history (- limit) else history in
      match format_history history 0 history with
      | Raised e => HTTPException 500 (str e)
      | Returned history_data =>
          Response
            {| hr_sensor_id := sensor_id;
               history := history_data;
               count := length history_data;
               oldest_timestamp :=
                 match history_data with
                 | first :: _ => h_timestamp first
                 | [] => 0%Q
                 end;
               latest_timestamp :=
                 match last history_data with
                 | Some latest => h_timestamp latest
                 | None => 0%Q
                 end |}
      end
  end.

End BerthingData.

(** ** berthing_data_core.py *)

Module BerthingDataCore.

(** The dictionary returned for a streaming sensor (its "status" entry
    is the constant "active"). *)
Record sensor_view : Type := {
  sensor_id : string;
  timestamp : pyfloat;
  distance : pyfloat;
  distance_mm : pyfloat;
  speed : pyfloat;
  speed_mm_s : pyfloat;
  instant_speed : pyfloat;
  instant_speed_mm_s : pyfloat;
  sa_averaged_speed : pyfloat;
  sa_averaged_speed_mm_s : pyfloat;
  trend_speed : pyfloat;
  speed_precision_mm_s : pyfloat;
  is_moving : bool;
  direction : string;
  movement_phase : string;
  confidence : pyfloat;
  stable_distance : pyfloat
}.

(** The dictionaries that stand for one sensor, told apart by their
    "status" entry: "not_found", "stream_inactive", "active", "error". *)
Inductive sensor_data : Type :=
| NotFound (sensor_id message : string)
| StreamInactive (sensor_id message : string)
| Active (view : sensor_view)
| ErrorRecord (sensor_id message : string).

Definition status (d : sensor_data) : string :=
  match d with
  | NotFound _ _ => "not_found"
  | StreamInactive _ _ => "stream_inactive"
  | Active _ => "active"
  | ErrorRecord _ _ => "error"
  end.

Definition fetch_berthing_data_for_sensor (mgr : lidar_manager)
    (sensor_id : string) : sensor_data :=
  if negb (bool_decide (sensor_id ∈ sensors mgr)) then
    NotFound sensor_id ("Sensor " ++ sensor_id ++ " not found.")
  else if negb (default false (stream_active mgr !! sensor_id)) then
    StreamInactive sensor_id
      ("Data stream not active for sensor " ++ sensor_id ++ ".")
  else
    let sync_data := default no_sync_data (sensor_sync_data mgr !! sensor_id) in
    let center_stats := default no_stats (sd_center_stats sync_data) in
    let timestamp := default (Fin 0) (sd_timestamp sync_data) in
    let distance := default (Fin 0) (LidarManager.stable_distance center_stats) in
    let speed := default (Fin 0) (speed_mps center_stats) in
    let speed_mm_s := default (Fin 0) (LidarManager.speed_mm_s center_stats) in
    let instant_speed :=
      default (Fin 0) (LidarManager.instant_speed center_stats) in
    let sa_averaged_speed :=
      default (Fin 0) (LidarManager.sa_averaged_speed center_stats) in
    let trend_speed := default (Fin 0) (LidarManager.trend_speed center_stats) in
    let speed_precision_mm_s :=
      default (Fin 0) (LidarManager.speed_precision_mm_s center_stats) in
    let is_moving := default false (is_vessel_moving center_stats) in
    let movement_phase :=
      default "unknown"%string (LidarManager.movement_phase center_stats) in
    let confidence := default (Fin 0) (speed_confidence center_stats) in
    let direction :=
      if is_moving then
        if flt speed (Fin 0) then "approaching"
        else if fgt speed (Fin 0) then "departing"
        else "lateral"
      else "stationary" in
    Active
      {| sensor_id := sensor_id;
         timestamp := timestamp;
         distance := round distance 3;
         distance_mm := round (fmul distance (Fin 1000)) 0;
         speed := round speed 4;
         speed_mm_s := round speed_mm_s 1;
         instant_speed := round instant_speed 4;
         instant_speed_mm_s := round (fmul instant_speed (Fin 1000)) 1;
         sa_averaged_speed := round sa_averaged_speed 4;
         sa_averaged_speed_mm_s := round (fmul sa_averaged_speed (Fin 1000)) 1;
         trend_speed := round trend_speed 4;
         speed_precision_mm_s := round speed_precision_mm_s 3;
         is_moving := is_moving;
         direction := direction;
         movement_phase := movement_phase;
         confidence := round confidence 2;
         stable_distance := round distance 3 |}.

Record all_berthing_data : Type := {
  all_sensors : gmap string sensor_data;
  all_count : nat;
  all_berthing_mode_active : bool;
  synchronized : bool;
  _server_timestamp_utc : Q
}.

(** The body of [get_all_berthing_data_core], over the per-sensor
    fetch it awaits inside [try]; [now] is the reading of
    [time.time()]. *)
Definition get_all_with (fetch : string -> result sensor_data)
    (mgr : lidar_manager) (now : Q) : all_berthing_data :=
  let result :=
    fold_left
      (fun (result : gmap string sensor_data) sensor_id =>
         if default false (stream_active mgr !! sensor_id) then
           match fetch sensor_id with
           | Returned sensor_data => <[sensor_id := sensor_data]> result
           | Raised e =>
               <[sensor_id := ErrorRecord sensor_id (str e)]> result
           end
         else result)
      (berthing_mode_sensors mgr) ∅ in
  {| all_sensors := result;
     all_count := size result;
     all_berthing_mode_active := berthing_mode_active mgr;
     synchronized := sync_coordinator_active mgr;
     _server_timestamp_utc := now |}.

Definition get_all_berthing_data_core (mgr : lidar_manager) (now : Q)
    : all_berthing_data :=
  get_all_with
    (fun sensor_id => Returned (fetch_berthing_data_for_sensor mgr sensor_id))
    mgr now.

End BerthingDataCore.

(** ** berthing_data.py: the per-sensor endpoints *)

Module BerthingDataSensor.

Import BerthingDataCore.

(** [raw_data["message"]]: the active view has no such entry. *)
Definition message (d : sensor_data) : option string :=
  match d with
  | NotFound _ m | StreamInactive _ m | ErrorRecord _ m => Some m
  | Active _ => None
  end.

(** What [get_berthing_data] does: return the dictionary or raise an
    [HTTPException]. *)
Inductive handler_result (A : Type) : Type :=
| Return (a : A)
| RaiseHTTP (status_code : Z) (detail : string).
Arguments Return {A} a.
Arguments RaiseHTTP {A} status_code detail.

(** [get_berthing_data]. *)
Definition get_berthing_data (mgr : lidar_manager) (sensor_id : string)
    : handler_result sensor_data :=
  let raw_data := fetch_berthing_data_for_sensor mgr sensor_id in
  if String.eqb (status raw_data) "not_found" then
    match getitem "message" (message raw_data) with
    | Returned detail => RaiseHTTP 404 detail
    | Raised e => RaiseHTTP 500 (str e)
    end
  else if String.eqb (status raw_data) "stream_inactive" then
    match getitem "message" (message raw_data) with
    | Returned detail => RaiseHTTP 400 detail
    | Raised e => RaiseHTTP 500 (str e)
    end
  else Return raw_data.

(** An entry of the "sensors" dictionary of [get_all_berthing_data]:
    the dictionary of the sensor, or the bare error record
    [{"sensor_id": ..., "status": "error"}]. *)
Inductive sensor_entry : Type :=
| Data (sensor_data : sensor_data)
| BareError (sensor_id : string).

Record all_response : Type := {
  sensors_out : gmap string sensor_entry;
  count_out : nat;
  berthing_mode_active_out : bool;
  synchronized_out : bool
}.

(** [get_all_berthing_data]: the bare [except] around the per-sensor
    call also catches its [HTTPException]s.  Nothing else in the body
    raises, so the outer handler is never entered. *)
Definition get_all_berthing_data (mgr : lidar_manager) : all_response :=
  let result :=
    fold_left
      (fun (result : gmap string sensor_entry) sensor_id =>
         if default false (stream_active mgr !! sensor_id) then
           match get_berthing_data mgr sensor_id with
           | Return sensor_data => <[sensor_id := Data sensor_data]> result
           | RaiseHTTP _ _ => <[sensor_id := BareError sensor_id]> result
           end
         else result)
      (berthing_mode_sensors mgr) ∅ in
  {| sensors_out := result;
     count_out := size result;
     berthing_mode_active_out := berthing_mode_active mgr;
     synchronized_out := sync_coordinator_active mgr |}.

End BerthingDataSensor.

(** ** connection.py *)

Module Connection.

(** The dictionary [lidar_manager.get_berthing_mode_status()] and its
    siblings return; entries read with [result["key"]] raise [KeyError]
    when missing, the others are read with [.get]. *)
Record mode_result : Type := {
  active : option bool;
  sensor_ids : option (list string);
  connected_sensors : option (list string);
  streaming_sensors : option (list string);
  message : option string;
  center_stats : option (gmap string LidarManager.center_stats);
  synchronized : option bool;
  last_sync_timestamp : option pyfloat;
  sync_quality : option string
}.

Record BerthingModeResponse : Type := {
  r_berthing_mode_active : bool;
  r_sensor_ids : list string;
  r_connected_sensors : list string;
  r_streaming_sensors : list string;
  r_message : string;
  r_center_stats : option (gmap string LidarManager.center_stats);
  r_synchronized : bool;
  r_last_sync_timestamp : option pyfloat;
  r_sync_quality : option string
}.

Record BerthingModeRequest : Type := {
  q_sensor_ids : list string;
  q_computer_ip : option string
}.

(** [berthing_mode_status]; [call] is the outcome of awaiting
    [lidar_manager.get_berthing_mode_status()]. *)
Definition berthing_mode_status (call : result mode_result)
    : endpoint_result BerthingModeResponse :=
  let body :=
    result ← call;
    active ← getitem "active" (active result);
    sensor_ids ← getitem "sensor_ids" (sensor_ids result);
    connected_sensors ← getitem "connected_sensors" (connected_sensors result);
    streaming_sensors ← getitem "streaming_sensors" (streaming_sensors result);
    message ← getitem "message" (message result);
    Returned
      {| r_berthing_mode_active := active;
         r_sensor_ids := sensor_ids;
         r_connected_sensors := connected_sensors;
         r_streaming_sensors := streaming_sensors;
         r_message := message;
         r_center_stats := center_stats result;
         r_synchronized := default false (synchronized result);
         r_last_sync_timestamp := last_sync_timestamp result;
         r_sync_quality := sync_quality result |} in
  match body with
  | Returned response => Response response
  | Raised e => NoResponse
  end.

(** [berthing_mode_off]; [call] is the outcome of awaiting
    [lidar_manager.disable_berthing_mode(sensor_ids=request.sensor_ids)]. *)
Definition berthing_mode_off (request : BerthingModeRequest)
    (call : result mode_result) : endpoint_result BerthingModeResponse :=
  let body :=
    result ← call;
    active ← getitem "active" (active result);
    connected_sensors ← getitem "connected_sensors" (connected_sensors result);
    streaming_sensors ← getitem "streaming_sensors" (streaming_sensors result);
    message ← getitem "message" (message result);
    Returned
      {| r_berthing_mode_active := active;
         r_sensor_ids := q_sensor_ids request;
         r_connected_sensors := connected_sensors;
         r_streaming_sensors := streaming_sensors;
         r_message := message;
         r_center_stats := None;
         r_synchronized := default false (synchronized result);
         r_last_sync_timestamp := last_sync_timestamp result;
         r_sync_quality := sync_quality result |} in
  match body with
  | Returned response => Response response
  | Raised e => HTTPException 500 (str e)
  end.

(** [berthing_mode_on]; [call] is the outcome of awaiting
    [lidar_manager.enable_berthing_mode(...)]. *)
Definition berthing_mode_on (request : BerthingModeRequest)
    (call : result mode_result) : endpoint_result BerthingModeResponse :=
  let body :=
    result ← call;
    active ← getitem "active" (active result);
    connected_sensors ← getitem "connected_sensors" (connected_sensors result);
    streaming_sensors ← getitem "streaming_sensors" (streaming_sensors result);
    message ← getitem "message" (message result);
    Returned
      {| r_berthing_mode_active := active;
         r_sensor_ids := q_sensor_ids request;
         r_connected_sensors := connected_sensors;
         r_streaming_sensors := streaming_sensors;
         r_message := message;
         r_center_stats := center_stats result;
         r_synchronized := default false (synchronized result);
         r_last_sync_timestamp := last_sync_timestamp result;
         r_sync_quality := sync_quality result |} in
  match body with
  | Returned response => Response response
  | Raised e => HTTPException 500 (str e)
  end.

(** *** disconnect_all_sensors *)

(** The "data" entry of an [OperationResponse]: one named count. *)
Record OperationResponse : Type := {
  success : bool;
  op_message : string;
  data : option (string * Z)
}.

(** The loop of [disconnect_all_sensors]; each element of [calls] is
    a sensor id of [list(lidar_manager.sensors.keys())] with what the
    awaited [lidar_manager.disconnect_sensor(sensor_id, force=True)]
    does for it. *)
Fixpoint disconnect_loop (calls : list (string * result bool))
    (disconnected : Z) : result Z :=
  match calls with
  | [] => Returned disconnected
  | (sensor_id, outcome) :: calls' =>
      ok ← outcome;
      disconnect_loop calls'
        (if ok : bool then disconnected + 1 else disconnected)
  end.

(** [disconnect_all_sensors]. *)
Definition disconnect_all_sensors (calls : list (string * result bool))
    : endpoint_result OperationResponse :=
  match disconnect_loop calls 0 with
  | Returned disconnected =>
      Response
        {| success := true;
           op_message := "Disconnected " ++ pretty disconnected ++ " sensors";
           data := Some ("disconnected_count"%string, disconnected) |}
  | Raised e => HTTPException 500 (str e)
  end.

End Connection.

(** ** fake_lidar.py *)

Module FakeLidar.

#[global] Instance byte_eq_decision : EqDecision byte := byte_eq_dec.

(** *** The operating system as the simulator sees it *)

Definition address : Type := string * Z.

Inductive thread_target : Type :=
| command_listener_target
| generate_fake_data_target.

Record socket_state : Type := {
  bound_to : option address;
  closed : bool
}.

(** Sockets and threads are numbered in creation order. [busy] holds
    the addresses some other process already occupies. *)
Record world : Type := {
  sockets : list socket_state;
  busy : gset address;
  threads : list thread_target
}.

(** [socket.socket(AF_INET, SOCK_DGRAM)]. *)
Definition socket_socket (w : world) : nat * world :=
  (length (sockets w),
   {| sockets := sockets w ++ [{| bound_to := None; closed := false |}];
      busy := busy w;
      threads := threads w |}).

Definition address_in_use (w : world) (addr : address) : bool :=
  bool_decide (addr ∈ busy w)
  || existsb (fun s => negb (closed s) && bool_decide (bound_to s = Some addr))
             (sockets w).

(** [sock.bind(addr)]: raises [OSError] when the address is taken, or
    when the socket is closed or already bound. *)
Definition socket_bind (w : world) (sock : nat) (addr : address)
    : result world :=
  match sockets w !! sock with
  | Some {| bound_to := None; closed := false |} =>
      if address_in_use w addr
      then Raised (OSError "Address already in use")
      else Returned
             {| sockets :=
                  <[sock := {| bound_to := Some addr; closed := false |}]>
                    (sockets w);
                busy := busy w;
                threads := threads w |}
  | Some {| bound_to := Some _; closed := false |} =>
      Raised (OSError "Invalid argument")
  | _ => Raised (OSError "Bad file descriptor")
  end.

(** [sock.close()]. *)
Definition socket_close (w : world) (sock : nat) : world :=
  {| sockets := alter (fun s => {| bound_to := bound_to s; closed := true |})
                      sock (sockets w);
     busy := busy w;
     threads := threads w |}.

(** [threading.Thread(target=..., daemon=True)] followed by [start()]. *)
Definition thread_start (w : world) (target : thread_target) : nat * world :=
  (length (threads w),
   {| sockets := sockets w; busy := busy w;
      threads := threads w ++ [target] |}).

(** *** FakeLidarSimulator

    The attributes that the modelled methods read or write; the
    constant attributes ([_deviceType], [_serial], [_firmware]) and the
    log lines guarded by [_showMessages] are left out. *)
Record simulator : Type := {
  _isConnected : bool;
  _isData : bool;
  _sensorIP : string;
  _dataPort : Z;
  _cmdPort : Z;
  _computerIP : string;
  _showMessages : bool;
  _dataSocket : option nat;
  _cmdSocket : option nat;
  _data_thread : option nat;
  _running : bool;
  _command_thread : option nat;
  _command_running : bool
}.

(** [__init__]. *)
Definition init (showMessages : bool) : simulator :=
  {| _isConnected := false; _isData := false; _sensorIP := "";
     _dataPort := -1; _cmdPort := -1; _computerIP := "";
     _showMessages := showMessages; _dataSocket := None; _cmdSocket := None;
     _data_thread := None; _running := false; _command_thread := None;
     _command_running := false |}.

(** [connect]: the result is the returned integer with the simulator
    and the world as the call leaves them. *)
Definition connect (self : simulator) (w : world)
    (computerIP sensorIP : string) (dataPort cmdPort : Z)
    : Z * simulator * world :=
  let '(dataSocket, w) := socket_socket w in
  let '(cmdSocket, w) := socket_socket w in
  let self :=
    {| _isConnected := _isConnected self; _isData := _isData self;
       _sensorIP := sensorIP; _dataPort := dataPort; _cmdPort := cmdPort;
       _computerIP := computerIP; _showMessages := _showMessages self;
       _dataSocket := Some dataSocket; _cmdSocket := Some cmdSocket;
       _data_thread := _data_thread self; _running := _running self;
       _command_thread := _command_thread self;
       _command_running := _command_running self |} in
  match socket_bind w dataSocket (computerIP, dataPort) with
  | Raised e => (0, self, w)
  | Returned w =>
      match socket_bind w cmdSocket (computerIP, 65000) with
      | Raised e => (0, self, w)
      | Returned w =>
          let '(command_thread, w) := thread_start w command_listener_target in
          (1,
           {| _isConnected := true; _isData := _isData self;
              _sensorIP := _sensorIP self; _dataPort := _dataPort self;
              _cmdPort := _cmdPort self; _computerIP := _computerIP self;
              _showMessages := _showMessages self;
              _dataSocket := _dataSocket self; _cmdSocket := _cmdSocket self;
              _data_thread := _data_thread self; _running := _running self;
              _command_thread := Some command_thread;
              _command_running := true |},
           w)
      end
  end.

(** [dataStart_RT_B]: the method returns [None] on every path, so the
    result is the simulator and the world it leaves. *)
Definition dataStart_RT_B (self : simulator) (w : world)
    : simulator * world :=
  if negb (_isConnected self) then (self, w)
  else
    let '(data_thread, w) := thread_start w generate_fake_data_target in
    ({| _isConnected := _isConnected self; _isData := true;
        _sensorIP := _sensorIP self; _dataPort := _dataPort self;
        _cmdPort := _cmdPort self; _computerIP := _computerIP self;
        _showMessages := _showMessages self;
        _dataSocket := _dataSocket self; _cmdSocket := _cmdSocket self;
        _data_thread := Some data_thread; _running := true;
        _command_thread := _command_thread self;
        _command_running := _command_running self |},
     w).

(** [dataStop]: clears both flags; the bounded [join] changes neither
    the simulator nor the world. *)
Definition dataStop (self : simulator) (w : world) : simulator * world :=
  ({| _isConnected := _isConnected self; _isData := false;
      _sensorIP := _sensorIP self; _dataPort := _dataPort self;
      _cmdPort := _cmdPort self; _computerIP := _computerIP self;
      _showMessages := _showMessages self;
      _dataSocket := _dataSocket self; _cmdSocket := _cmdSocket self;
      _data_thread := _data_thread self; _running := false;
      _command_thread := _command_thread self;
      _command_running := _command_running self |},
   w).

(** [disconnect]. *)
Definition disconnect (self : simulator) (w : world) : simulator * world :=
  let w := match _dataSocket self with
           | Some s => socket_close w s
           | None => w
           end in
  let w := match _cmdSocket self with
           | Some s => socket_close w s
           | None => w
           end in
  ({| _isConnected := false; _isData := false;
      _sensorIP := _sensorIP self; _dataPort := _dataPort self;
      _cmdPort := _cmdPort self; _computerIP := _computerIP self;
      _showMessages := _showMessages self;
      _dataSocket := _dataSocket self; _cmdSocket := _cmdSocket self;
      _data_thread := _data_thread self; _running := false;
      _command_thread := _command_thread self;
      _command_running := false |},
   w).

(** *** Command constants and the command listener *)

Definition _CMD_DATA_START : list byte :=
  [xaa; x01; x14; x00; x00; x00; x00; xb5; xed; x01; x01].
Definition _CMD_DATA_STOP : list byte :=
  [xaa; x01; x14; x00; x00; x00; x00; xb5; xed; x01; x00].

(** What one pass through [recvfrom(1024)] yields. *)
Inductive recv_event : Type :=
| Datagram (payload : list byte)
| Timeout
| RecvError (e : exn).

Inductive loop_control : Type := Continue | Break.

(** The two guards of the listener, on the received [data]. *)
Definition is_data_start (data : list byte) : bool :=
  (11 <=? length data)%nat
  && bool_decide (take 11 data = take 11 _CMD_DATA_START).
Definition is_data_stop (data : list byte) : bool :=
  (11 <=? length data)%nat
  && bool_decide (take 11 data = take 11 _CMD_DATA_STOP).

(** The body of the [while self._command_running] loop for one event. *)
Definition _command_listener_body (self : simulator) (w : world)
    (ev : recv_event) : loop_control * (simulator * world) :=
  match ev with
  | Datagram payload =>
      let data := take 1024 payload in
      if is_data_start data then (Continue, dataStart_RT_B self w)
      else if is_data_stop data then (Continue, dataStop self w)
      else (Continue, (self, w))
  | Timeout => (Continue, (self, w))
  | RecvError e => (Break, (self, w))
  end.

(** [_command_listener] run over the events the socket delivers. *)
Fixpoint _command_listener (self : simulator) (w : world)
    (events : list recv_event) : simulator * world :=
  match events with
  | [] => (self, w)
  | ev :: events' =>
      if _command_running self then
        match _command_listener_body self w ev with
        | (Continue, (self', w')) => _command_listener self' w' events'
        | (Break, sw) => sw
        end
      else (self, w)
  end.

(** *** struct.pack *)

Definition byte_of_Z (z : Z) : byte :=
  default x00 (Byte.of_N (Z.to_N (z mod 256))).

(** [width] bytes of [v], least significant first (two's complement
    for a negative [v]). *)
Fixpoint le_bytes (width : nat) (v : Z) : list byte :=
  match width with
  | O => []
  | S width' => byte_of_Z v :: le_bytes width' (v / 256)
  end.

(** Formats [B], [L], [Q]: unsigned, 1, 4 and 8 bytes. *)
Definition pack_unsigned (width : nat) (v : Z) : result (list byte) :=
  if (0 <=? v) && (v <? 2 ^ (8 * Z.of_nat width))
  then Returned (le_bytes width v)
  else Raised (StructError "argument out of range").

(** Format [i]: signed, 4 bytes. *)
Definition pack_signed (width : nat) (v : Z) : result (list byte) :=
  if (- 2 ^ (8 * Z.of_nat width - 1) <=? v)
     && (v <? 2 ^ (8 * Z.of_nat width - 1))
  then Returned (le_bytes width v)
  else Raised (StructError "argument out of range").

(** [struct.pack('<BBBBLBBQ', ...)]. *)
Definition pack_header (version slot_id lidar_id reserved status_code
    timestamp_type data_type timestamp : Z) : result (list byte) :=
  b_version ← pack_unsigned 1 version;
  b_slot_id ← pack_unsigned 1 slot_id;
  b_lidar_id ← pack_unsigned 1 lidar_id;
  b_reserved ← pack_unsigned 1 reserved;
  b_status_code ← pack_unsigned 4 status_code;
  b_timestamp_type ← pack_unsigned 1 timestamp_type;
  b_data_type ← pack_unsigned 1 data_type;
  b_timestamp ← pack_unsigned 8 timestamp;
  Returned (b_version ++ b_slot_id ++ b_lidar_id ++ b_reserved
            ++ b_status_code ++ b_timestamp_type ++ b_data_type
            ++ b_timestamp).

(** [struct.pack('<iiiB', x, y, z, intensity)]. *)
Definition pack_point (x y z intensity : Z) : result (list byte) :=
  b_x ← pack_signed 4 x;
  b_y ← pack_signed 4 y;
  b_z ← pack_signed 4 z;
  b_intensity ← pack_unsigned 1 intensity;
  Returned (b_x ++ b_y ++ b_z ++ b_intensity).

(** *** Fake points *)

(** [int(q)]: truncation towards zero. *)
Definition int (q : Q) : Z := if Qltb q 0 then Qceiling q else Qfloor q.

(** The values one call of [_generate_fake_point] obtains from
    [random] and [math]. *)
Record point_draws : Type := {
  uniform_far : Q;          (* random.uniform(-2.0, 3.0) *)
  uniform_near : Q;         (* random.uniform(-0.5, 1.0) *)
  uniform_radial : Q;       (* random.uniform(0, 0.09) *)
  cos_angle_offset : Q;     (* math.cos(random.uniform(0, 2 * math.pi)) *)
  sin_angle_offset : Q;     (* math.sin(the same angle) *)
  uniform_y : Q;            (* random.uniform(-0.5, 0.5) *)
  uniform_z : Q;            (* random.uniform(-0.5, 0.5) *)
  randint_center : Z;       (* random.randint(200, 255) *)
  randint_peripheral : Z    (* random.randint(10, 150) *)
}.

(** The contracts of [random.uniform], [random.randint], [math.cos]
    and [math.sin]. *)
Definition draws_in_range (d : point_draws) : Prop :=
  (-2 <= uniform_far d <= 3)%Q /\
  (-(1 # 2) <= uniform_near d <= 1)%Q /\
  (0 <= uniform_radial d <= 9 # 100)%Q /\
  (-1 <= cos_angle_offset d <= 1)%Q /\
  (-1 <= sin_angle_offset d <= 1)%Q /\
  (-(1 # 2) <= uniform_y d <= 1 # 2)%Q /\
  (-(1 # 2) <= uniform_z d <= 1 # 2)%Q /\
  200 <= randint_center d <= 255 /\
  10 <= randint_peripheral d <= 150.

Definition _generate_fake_point (d : point_draws) (point_idx : Z)
    (packet_count : Z) : Z * Z * Z * Z :=
  let distance := (5 + uniform_far d)%Q in
  let distance :=
    if packet_count mod 10 =? 0 then (2 + uniform_near d)%Q else distance in
  let x := int (distance * 1000) in
  if point_idx <? 50 then
    let radial_distance := uniform_radial d in
    let y := int (radial_distance * cos_angle_offset d * 1000) in
    let z := int (radial_distance * sin_angle_offset d * 1000) in
    let intensity := randint_center d in
    (x, y, z, intensity)
  else
    let y := int (uniform_y d * 1000) in
    let z := int (uniform_z d * 1000) in
    let intensity := randint_peripheral d in
    (x, y, z, intensity).

(** The loop [for i in range(100)] of [_create_fake_packet], over the
    indices still to visit; [points_data] is the accumulator. *)
Fixpoint pack_points (draws : nat -> point_draws) (packet_count : Z)
    (indices : list nat) (points_data : list byte) : result (list byte) :=
  match indices with
  | [] => Returned points_data
  | i :: indices' =>
      let '(x, y, z, intensity) :=
        _generate_fake_point (draws i) (Z.of_nat i) packet_count in
      point_data ← pack_point x y z intensity;
      pack_points draws packet_count indices' (points_data ++ point_data)
  end.

(** [_create_fake_packet]; [clock] is the reading of [time.time()] and
    [draws i] the random values of the [i]-th point. *)
Definition _create_fake_packet (clock : Q) (draws : nat -> point_draws)
    (packet_count : Z) : result (list byte) :=
  let version := 5 in
  let slot_id := 0 in
  let lidar_id := 0 in
  let reserved := 0 in
  let status_code := 0 in
  let timestamp_type := 0 in
  let data_type := 0 in
  let timestamp := int (clock * 1000000000) in
  header ← pack_header version slot_id lidar_id reserved status_code
                       timestamp_type data_type timestamp;
  points_data ← pack_points draws packet_count (seq 0 100) [];
  Returned (header ++ points_data).

(** *** The producer thread and the read-only accessors *)


(** [lidarStatusCodes] and [extrinsicParameters]. *)
Definition lidarStatusCodes : list Z := [0; 0; 0; 0; 0; 0; 0; 0].
Definition extrinsicParameters : list Q := [0; 0; 2; 0; 0; 0]%Q.

(** What the producer thread meets on one pass through its loop: the
    value of [self._running and self._isData] at the loop test (other
    threads write these flags), the clock, the random draws of the
    100 points, and whether [sendto] goes through. *)
Record producer_tick : Type := {
  tick_flags : bool;
  tick_clock : Q;
  tick_draws : nat -> point_draws;
  tick_sendto : result unit
}.

(** The loop of [_generate_fake_data] from a given [packet_count];
    the result lists the datagrams handed to [sendto], with their
    destination, in the order sent.  Any exception leaves the loop. *)
Fixpoint _generate_fake_data_from (self : simulator) (packet_count : Z)
    (ticks : list producer_tick) : list (address * list byte) :=
  match ticks with
  | [] => []
  | tick :: ticks' =>
      if tick_flags tick then
        match _create_fake_packet (tick_clock tick) (tick_draws tick)
                                  packet_count with
        | Raised e => []
        | Returned packet =>
            let target_addr := (_computerIP self, _dataPort self) in
            match tick_sendto tick with
            | Raised e => []
            | Returned _ =>
                (target_addr, packet)
                :: _generate_fake_data_from self (packet_count + 1) ticks'
            end
        end
      else []
  end.

(** [_generate_fake_data]: the loop started with [packet_count = 0]. *)
Definition _generate_fake_data (self : simulator)
    (ticks : list producer_tick) : list (address * list byte) :=
  _generate_fake_data_from self 0 ticks.

End FakeLidar.

(** ** Vocabulary of the statements *)

Module Spec.

(** The (distance, speed, is_moving) tuple the summary reads for one
    sensor's statistics. *)
Definition tuple_of (stats : center_stats) : pyfloat * pyfloat * bool :=
  (default (Fin 0) (stable_distance stats),
   default (Fin 0) (speed_mps stats),
   default false (is_vessel_moving stats)).

(** The tuples of the listed sensors that have statistics, in the
    order of the list. *)
Definition tuples_of (mgr : lidar_manager) (ids : list string)
    : list (pyfloat * pyfloat * bool) :=
  omap (fun sensor_id =>
          tuple_of <$> berthing_mode_center_stats mgr !! sensor_id) ids.

Definition sensor_tuples (mgr : lidar_manager)
    : list (pyfloat * pyfloat * bool) :=
  tuples_of mgr (berthing_mode_sensors mgr).

Definition t_distance (t : pyfloat * pyfloat * bool) : pyfloat := t.1.1.
Definition t_is_moving (t : pyfloat * pyfloat * bool) : bool := t.2.

(** OR of the is_moving flags. *)
Definition any_moving (tuples : list (pyfloat * pyfloat * bool)) : bool :=
  existsb t_is_moving tuples.

Definition positive (x : pyfloat) : Prop := flt (Fin 0) x = true.

(** [m] is the minimum over the strictly positive distances. *)
Definition is_min_positive (m : pyfloat)
    (tuples : list (pyfloat * pyfloat * bool)) : Prop :=
  (exists t, t ∈ tuples /\ t_distance t = m) /\
  positive m /\
  forall t, t ∈ tuples -> positive (t_distance t) ->
            fle m (t_distance t) = true.

(** The update of the running minimum by one tuple, as the loop of
    [get_berthing_summary] performs it. *)
Definition min_update (m : pyfloat) (t : pyfloat * pyfloat * bool) : pyfloat :=
  if flt (t_distance t) m && fgt (t_distance t) (Fin 0)
  then t_distance t else m.

(** Statistics holding only the three entries of a tuple. *)
Definition stats_of (distance speed : Q) (moving : bool) : center_stats :=
  {| stable_distance := Some (Fin distance); speed_mps := Some (Fin speed);
     LidarManager.speed_mm_s := None; instant_speed := None;
     sa_averaged_speed := None; trend_speed := None;
     speed_precision_mm_s := None; is_vessel_moving := Some moving;
     movement_phase := None; speed_confidence := None |}.

(** A manager in berthing mode whose listed sensors are exactly the
    given (id, statistics) pairs. *)
Definition berth_of (active : bool) (entries : list (string * center_stats))
    : lidar_manager :=
  {| sensors := list_to_set entries.*1;
     stream_active := list_to_map ((fun e => (e.1, true)) <$> entries);
     sensor_sync_data := ∅;
     berthing_mode_sensors := entries.*1;
     berthing_mode_center_stats := list_to_map entries;
     berthing_mode_active := active;
     sync_coordinator_active := false;
     vessel_speed_calculators := ∅ |}.

(** The scenario of two sensors: one without a valid reading
    (distance 0, speed 0), one at 15.0 m, +0.1 m/s, moving. *)
Definition two_sensor_scenario (first_moving swapped : bool)
    : lidar_manager :=
  let silent := ("lidar_1"%string, stats_of 0 0 first_moving) in
  let tracking := ("lidar_2"%string, stats_of 15 (1 # 10) true) in
  berth_of true (if swapped then [tracking; silent] else [silent; tracking]).

(** One sensor flagged as moving whose reading was lost
    (distance 0). *)
Definition moving_without_reading : lidar_manager :=
  berth_of true [("lidar_1"%string, stats_of 0 (-(2 # 10)) true)].

(** A manager where [sensor_id] is connected and streaming with the
    given synchronised statistics. *)
Definition streaming_sensor (sensor_id : string) (stats : center_stats)
    : lidar_manager :=
  {| sensors := {[sensor_id]};
     stream_active := {[sensor_id := true]};
     sensor_sync_data :=
       {[sensor_id := {| sd_timestamp := Some (Fin 1700000000);
                         sd_center_stats := Some stats |}]};
     berthing_mode_sensors := [sensor_id];
     berthing_mode_center_stats := {[sensor_id := stats]};
     berthing_mode_active := true;
     sync_coordinator_active := false;
     vessel_speed_calculators := ∅ |}.

(** The statistics [fetch_berthing_data_for_sensor] reads for a
    sensor. *)
Definition synced_stats (mgr : lidar_manager) (sensor_id : string)
    : center_stats :=
  default no_stats
    (sd_center_stats (default no_sync_data (sensor_sync_data mgr !! sensor_id))).

(** *** Distance histories *)

(** The speed of sample [i] of a history as the claim words it: 0 for
    the first sample, otherwise (d_i - d_{i-1}) / (t_i - t_{i-1}) when
    t_i - t_{i-1} > 0 and 0 otherwise. *)
Definition speed_formula (history : list (Q * Q)) (i : nat) : Q :=
  match i with
  | O => 0
  | S j =>
      match history !! j, history !! S j with
      | Some (t0, d0), Some (t1, d1) =>
          if Qltb 0 (t1 - t0) then ((d1 - d0) / (t1 - t0))%Q else 0
      | _, _ => 0
      end
  end.

(** The entry that presents sample [i] of [history]. *)
Definition entry_of (history : list (Q * Q)) (i : nat) (sample : Q * Q)
    : BerthingData.history_point :=
  {| BerthingData.h_timestamp := sample.1;
     BerthingData.h_distance := Qround_nd sample.2 3;
     BerthingData.h_speed := Qround_nd (speed_formula history i) 4;
     BerthingData.h_speed_mm_s :=
       Qround_nd (speed_formula history i * 1000) 1 |}.

Fixpoint entries_from (history : list (Q * Q)) (i : nat)
    (rest : list (Q * Q)) : list BerthingData.history_point :=
  match rest with
  | [] => []
  | sample :: rest' =>
      entry_of history i sample :: entries_from history (S i) rest'
  end.

(** The most recent [k] samples, oldest first. *)
Definition most_recent (k : nat) (history : list (Q * Q)) : list (Q * Q) :=
  drop (length history - k) history.

(** A manager whose only speed calculator belongs to "lidar_1". *)
Definition with_history (history : list (Q * Q)) : lidar_manager :=
  {| sensors := {["lidar_1"%string]};
     stream_active := {["lidar_1"%string := true]};
     sensor_sync_data := ∅;
     berthing_mode_sensors := ["lidar_1"%string];
     berthing_mode_center_stats := ∅;
     berthing_mode_active := true;
     sync_coordinator_active := false;
     vessel_speed_calculators := {["lidar_1"%string := history]} |}.

(** One metre gained in three seconds. *)
Definition slow_departure : list (Q * Q) := [(0, 0); (3, 1)]%Q.

(** Four samples, the last two sharing a timestamp. *)
Definition four_samples : list (Q * Q) :=
  [(10, 20); (11, 19 + (1 # 2)); (12, 19); (12, 18 + (1 # 2))]%Q.

(** *** Fake lidar sessions *)

Definition empty_world : FakeLidar.world :=
  {| FakeLidar.sockets := []; FakeLidar.busy := ∅; FakeLidar.threads := [] |}.

(** A world where another process holds the data port 56001. *)
Definition busy_world : FakeLidar.world :=
  {| FakeLidar.sockets := [];
     FakeLidar.busy := {[("127.0.0.1"%string, 56001)]};
     FakeLidar.threads := [] |}.

(** A fresh simulator after a successful [connect]. *)
Definition connected_idle : FakeLidar.simulator * FakeLidar.world :=
  let '(_, self, w) :=
    FakeLidar.connect (FakeLidar.init false) empty_world
      "127.0.0.1" "127.0.0.1" 56001 56000 in
  (self, w).

(** The same session after one [dataStart_RT_B]. *)
Definition streaming : FakeLidar.simulator * FakeLidar.world :=
  FakeLidar.dataStart_RT_B connected_idle.1 connected_idle.2.

(** The session is in the streaming state. *)
Definition is_streaming (self : FakeLidar.simulator) : Prop :=
  FakeLidar._isConnected self = true /\
  FakeLidar._isData self = true /\
  FakeLidar._running self = true.

(** Whether both [bind] calls of [connect] go through in world [w]. *)
Definition binds_succeed (w : FakeLidar.world) (computerIP : string)
    (dataPort : Z) : bool :=
  let '(dataSocket, w) := FakeLidar.socket_socket w in
  let '(cmdSocket, w) := FakeLidar.socket_socket w in
  match FakeLidar.socket_bind w dataSocket (computerIP, dataPort) with
  | Raised _ => false
  | Returned w =>
      match FakeLidar.socket_bind w cmdSocket (computerIP, 65000) with
      | Raised _ => false
      | Returned _ => true
      end
  end.

(** The sockets a call opened: those of [w'] that [w] did not have. *)
Definition opened_sockets (w w' : FakeLidar.world)
    : list FakeLidar.socket_state :=
  drop (length (FakeLidar.sockets w)) (FakeLidar.sockets w').

(** *** Measurement frames *)

(** The 18 header bytes for the fixed field values of
    [_create_fake_packet]: version 5, slot id 0, device id 0, reserved
    0, 32-bit status code 0, timestamp kind 0, data kind 0, 64-bit
    timestamp. *)
Definition header_of (timestamp : Z) : list byte :=
  [x05] ++ [x00] ++ [x00] ++ [x00] ++ FakeLidar.le_bytes 4 0
  ++ [x00] ++ [x00] ++ FakeLidar.le_bytes 8 timestamp.

(** The 13 bytes of one point: x, y, z on 4 bytes each, intensity on
    one. *)
Definition point_record (d : FakeLidar.point_draws)
    (point_idx packet_count : Z) : list byte :=
  let '(x, y, z, intensity) :=
    FakeLidar._generate_fake_point d point_idx packet_count in
  FakeLidar.le_bytes 4 x ++ FakeLidar.le_bytes 4 y
  ++ FakeLidar.le_bytes 4 z ++ FakeLidar.le_bytes 1 intensity.

(** The unsigned value of a little-endian byte string. *)
Definition decode_le (bs : list byte) : Z :=
  fold_right (fun b acc => Z.of_N (Byte.to_N b) + 256 * acc) 0 bs.

(** Draws for a point 5.5 m away, slightly off the axis. *)
Definition steady_draws : FakeLidar.point_draws :=
  {| FakeLidar.uniform_far := 1 # 2;
     FakeLidar.uniform_near := 1 # 4;
     FakeLidar.uniform_radial := 5 # 100;
     FakeLidar.cos_angle_offset := 3 # 5;
     FakeLidar.sin_angle_offset := -(4 # 5);
     FakeLidar.uniform_y := 1 # 10;
     FakeLidar.uniform_z := -(3 # 10);
     FakeLidar.randint_center := 230;
     FakeLidar.randint_peripheral := 80 |}.

End Spec.

(** ** Further vocabulary *)

Module Vocab.



(** The fields fit the formats [i], [i], [i], [B]. *)
Definition point_in_range (x y z intensity : Z) : Prop :=
  (- 2 ^ 31 <= x < 2 ^ 31) /\ (- 2 ^ 31 <= y < 2 ^ 31)
  /\ (- 2 ^ 31 <= z < 2 ^ 31) /\ (0 <= intensity < 256).

(** A tick on which the producer sends: the flags are set and
    [sendto] goes through. *)
Definition tick_sends (tick : FakeLidar.producer_tick) : Prop :=
  FakeLidar.tick_flags tick = true /\
  FakeLidar.tick_sendto tick = Returned tt.

(** A tick with the given flags and send outcome, half past
    1700000000 s, with the steady draws. *)
Definition steady_tick (flags : bool) (sendto : result unit)
    : FakeLidar.producer_tick :=
  {| FakeLidar.tick_flags := flags;
     FakeLidar.tick_clock := 3400000001 # 2;
     FakeLidar.tick_draws := fun _ => Spec.steady_draws;
     FakeLidar.tick_sendto := sendto |}.

(** A socket as [socket.socket] returns it, and as [close] leaves
    it. *)
Definition fresh : FakeLidar.socket_state :=
  {| FakeLidar.bound_to := None; FakeLidar.closed := false |}.
Definition close_state (s : FakeLidar.socket_state) : FakeLidar.socket_state :=
  {| FakeLidar.bound_to := FakeLidar.bound_to s; FakeLidar.closed := true |}.

(** The session holds descriptor [fd] as its data or command
    socket. *)
Definition owns (self : FakeLidar.simulator) (fd : nat) : bool :=
  bool_decide (FakeLidar._dataSocket self = Some fd)
  || bool_decide (FakeLidar._cmdSocket self = Some fd).

(** An event is a timeout. *)
Definition is_timeout (ev : FakeLidar.recv_event) : bool :=
  match ev with
  | FakeLidar.Timeout => true
  | _ => false
  end.

(** The |speed| values the summary loop meets, in order. *)
Definition abs_speeds (mgr : lidar_manager) (ids : list string)
    : list pyfloat :=
  (fun t => fabs t.1.2) <$> Spec.tuples_of mgr ids.

(** The listed sensors that have an entry in a dictionary. *)
Definition listed_with {A : Type} (m : gmap string A) (ids : list string)
    : list string :=
  filter (fun sensor_id => is_Some (m !! sensor_id)) ids.

(** The listed sensors whose stream is active. *)
Definition listed_streaming (mgr : lidar_manager) : list string :=
  filter (fun sensor_id => stream_active mgr !! sensor_id = Some true)
         (berthing_mode_sensors mgr).

(** A manager listing two sensors with an active stream, of which only
    "lidar_1" is connected. *)
Definition half_connected : lidar_manager :=
  {| sensors := {["lidar_1"%string]};
     stream_active := {["lidar_1"%string := true; "lidar_2"%string := true]};
     sensor_sync_data := ∅;
     berthing_mode_sensors := ["lidar_1"; "lidar_2"]%string;
     berthing_mode_center_stats := ∅;
     berthing_mode_active := true;
     sync_coordinator_active := false;
     vessel_speed_calculators := ∅ |}.

(** The entry of the summary's "sensors" dictionary for one
    sensor's statistics. *)
Definition summary_entry (stats : center_stats)
    : BerthingData.sensor_summary :=
  {| BerthingData.ss_distance :=
       round (default (Fin 0) (stable_distance stats)) 3;
     BerthingData.ss_speed_mm_s :=
       round (fmul (fabs (default (Fin 0) (speed_mps stats))) (Fin 1000)) 1;
     BerthingData.ss_is_moving := default false (is_vessel_moving stats);
     BerthingData.ss_phase :=
       default "unknown"%string (LidarManager.movement_phase stats) |}.

(** The update of the running maximum by one |speed|. *)
Definition max_update (m : pyfloat) (v : pyfloat) : pyfloat :=
  if fgt v m then v else m.

(** A tick on which the producer sends a frame: it sends, the clock
    is non-negative with nanoseconds on 64 bits, and the draws are in
    range. *)
Definition tick_healthy (tick : FakeLidar.producer_tick) : Prop :=
  tick_sends tick /\
  (0 <= FakeLidar.tick_clock tick * 1000000000)%Q /\
  (FakeLidar.tick_clock tick * 1000000000 < inject_Z (2 ^ 64))%Q /\
  (forall i, (i < 100)%nat ->
             FakeLidar.draws_in_range (FakeLidar.tick_draws tick i)).

(** The dictionary holds the five entries the status endpoint reads
    with [result["key"]]. *)
Definition has_required_keys (d : Connection.mode_result) : Prop :=
  is_Some (Connection.active d) /\
  is_Some (Connection.sensor_ids d) /\
  is_Some (Connection.connected_sensors d) /\
  is_Some (Connection.streaming_sensors d) /\
  is_Some (Connection.message d).

(** A status dictionary with every entry but "message". *)
Definition status_without_message : Connection.mode_result :=
  {| Connection.active := Some true;
     Connection.sensor_ids := Some ["lidar_1"%string];
     Connection.connected_sensors := Some ["lidar_1"%string];
     Connection.streaming_sensors := Some [];
     Connection.message := None;
     Connection.center_stats := None;
     Connection.synchronized := None;
     Connection.last_sync_timestamp := None;
     Connection.sync_quality := None |}.

(** The awaited call returned [True]. *)
Definition returned_true (outcome : result bool) : bool :=
  match outcome with
  | Returned true => true
  | _ => false
  end.

(** How many of the calls returned [True]. *)
Fixpoint count_true (calls : list (string * result bool)) : Z :=
  match calls with
  | [] => 0
  | (_, outcome) :: calls' =>
      (if returned_true outcome then 1 else 0) + count_true calls'
  end.

(** No awaited call raised. *)
Definition none_raised (calls : list (string * result bool)) : Prop :=
  Forall (fun call => exists ok, call.2 = Returned ok) calls.

(** Two passes that send, and the same followed by a pass that finds
    the flags cleared. *)
Definition two_ticks : list FakeLidar.producer_tick :=
  [steady_tick true (Returned tt); steady_tick true (Returned tt)].
Definition three_ticks : list FakeLidar.producer_tick :=
  two_ticks ++ [steady_tick false (Returned tt)].

(** Two disconnect calls: one sensor disconnected, one unknown. *)
Definition two_calls : list (string * result bool) :=
  [("lidar_1"%string, Returned true); ("lidar_2"%string, Returned false)].

End Vocab.

(** * Proofs *)

Section PyNumFacts.

Lemma Qltb_lt (a b : Q) : Qltb a b = true <-> (a < b)%Q.
Proof. unfold Qltb, Qlt. apply Z.ltb_lt. Qed.

Lemma Qleb_le (a b : Q) : Qleb a b = true <-> (a <= b)%Q.
Proof. unfold Qleb, Qle. apply Z.leb_le. Qed.

Lemma Qeqb_eq (a b : Q) : Qeqb a b = true <-> (a == b)%Q.
Proof. unfold Qeqb, Qeq. apply Z.eqb_eq. Qed.

Lemma Qltb_ge (a b : Q) : Qltb a b = false <-> (b <= a)%Q.
Proof. unfold Qltb, Qle. rewrite Z.ltb_ge. reflexivity. Qed.

Lemma flt_fle_trans (a b c : pyfloat) :
  flt a b = true -> fle b c = true -> fle a c = true.
Proof.
  destruct a as [x| | |], b as [y| | |], c as [z| | |];
    simpl; try discriminate; try reflexivity.
  rewrite Qltb_lt, !Qleb_le. intros H1 H2.
  apply Qlt_le_weak. eapply Qlt_le_trans; eassumption.
Qed.

Lemma fle_refl_positive (d : pyfloat) :
  Spec.positive d -> fle d d = true.
Proof.
  unfold Spec.positive.
  destruct d as [x| | |]; simpl; try discriminate; try reflexivity.
  intros _. apply Qleb_le, Qle_refl.
Qed.

Lemma flt_false_fle (d m : pyfloat) :
  flt d m = false -> Spec.positive d ->
  m = PInf \/ Spec.positive m -> fle m d = true.
Proof.
  unfold Spec.positive.
  destruct d as [x| | |], m as [y| | |]; simpl;
    intros H1 H2 [H3|H3]; try discriminate; try reflexivity.
  apply Qleb_le. apply Qltb_ge in H1. exact H1.
Qed.

Lemma fle_PInf_inv (d : pyfloat) : fle PInf d = true -> d = PInf.
Proof. destruct d; simpl; intros; try discriminate; reflexivity. Qed.

Lemma fne_PInf_positive_min (m : pyfloat) :
  fne m PInf = false -> m = PInf.
Proof. destruct m; simpl; intros; try discriminate; reflexivity. Qed.

End PyNumFacts.

(** ** get_berthing_summary *)

Section Summary.

Import BerthingData.

Variable mgr : lidar_manager.

Lemma summary_fold_min (ids : list string) (st : summary_locals) :
  l_min_distance (fold_left (summary_step mgr) ids st)
  = fold_left Spec.min_update (Spec.tuples_of mgr ids) (l_min_distance st).
Proof.
  revert st. induction ids as [|sid ids IH]; intros st; [reflexivity|].
  cbn [fold_left]. rewrite IH. unfold Spec.tuples_of. cbn [omap list_omap].
  unfold summary_step.
  destruct (berthing_mode_center_stats mgr !! sid) as [stats|];
    reflexivity.
Qed.

Lemma summary_fold_moving (ids : list string) (st : summary_locals) :
  l_any_moving (fold_left (summary_step mgr) ids st)
  = l_any_moving st || Spec.any_moving (Spec.tuples_of mgr ids).
Proof.
  revert st. induction ids as [|sid ids IH]; intros st.
  - simpl. now rewrite orb_false_r.
  - cbn [fold_left]. rewrite IH. unfold Spec.tuples_of.
    cbn [omap list_omap]. unfold summary_step at 1.
    destruct (berthing_mode_center_stats mgr !! sid) as [stats|];
      [|reflexivity].
    cbn. unfold Spec.t_is_moving at 1. cbn.
    destruct (default false (is_vessel_moving stats)), (l_any_moving st);
      reflexivity.
Qed.

End Summary.

(** The running minimum keeps the loop invariant: it is either still
    the sentinel or a positive distance already seen, and it is below
    every positive distance already seen. *)
Lemma min_update_invariant (seen rest : list (pyfloat * pyfloat * bool))
    (m : pyfloat) :
  (m = PInf \/
   (exists t, t ∈ seen /\ Spec.t_distance t = m) /\ Spec.positive m) ->
  (forall t, t ∈ seen -> Spec.positive (Spec.t_distance t) ->
             fle m (Spec.t_distance t) = true) ->
  let m' := fold_left Spec.min_update rest m in
  (m' = PInf \/
   (exists t, t ∈ seen ++ rest /\ Spec.t_distance t = m')
   /\ Spec.positive m') /\
  (forall t, t ∈ seen ++ rest -> Spec.positive (Spec.t_distance t) ->
             fle m' (Spec.t_distance t) = true).
Proof.
  revert seen m. induction rest as [|t rest IH]; intros seen m Hm Hle; cbn.
  - rewrite app_nil_r. split; assumption.
  - assert (Hcons : seen ++ t :: rest = (seen ++ [t]) ++ rest)
      by (rewrite <- app_assoc; reflexivity).
    rewrite Hcons. apply IH; unfold Spec.min_update, fgt.
    + destruct (flt (Spec.t_distance t) m) eqn:Hlt;
        destruct (flt (Fin 0) (Spec.t_distance t)) eqn:Hpos; cbn.
      * right. split; [|exact Hpos].
        exists t. split; [|reflexivity]. apply elem_of_app. right.
        apply list_elem_of_singleton. reflexivity.
      * destruct Hm as [Hm|[[u [Hu1 Hu2]] Hp]]; [left; exact Hm|right].
        split; [|exact Hp]. exists u. split; [|exact Hu2].
        apply elem_of_app. left. exact Hu1.
      * destruct Hm as [Hm|[[u [Hu1 Hu2]] Hp]]; [left; exact Hm|right].
        split; [|exact Hp]. exists u. split; [|exact Hu2].
        apply elem_of_app. left. exact Hu1.
      * destruct Hm as [Hm|[[u [Hu1 Hu2]] Hp]]; [left; exact Hm|right].
        split; [|exact Hp]. exists u. split; [|exact Hu2].
        apply elem_of_app. left. exact Hu1.
    + intros u Hu Hupos. apply elem_of_app in Hu.
      destruct Hu as [Hu|Hu].
      * destruct (flt (Spec.t_distance t) m) eqn:Hlt;
          destruct (flt (Fin 0) (Spec.t_distance t)) eqn:Hpos; cbn;
          try (apply Hle; assumption).
        eapply flt_fle_trans; [exact Hlt|]. apply Hle; assumption.
      * apply list_elem_of_singleton in Hu. subst u.
        rewrite Hupos. rewrite andb_true_r.
        destruct (flt (Spec.t_distance t) m) eqn:Hlt.
        -- apply fle_refl_positive. exact Hupos.
        -- apply flt_false_fle; [exact Hlt|exact Hupos|].
           destruct Hm as [Hm|[_ Hp]]; [left|right]; assumption.
Qed.

Lemma min_update_is_min (tuples : list (pyfloat * pyfloat * bool)) :
  (exists t, t ∈ tuples /\ Spec.positive (Spec.t_distance t)) ->
  Spec.is_min_positive (fold_left Spec.min_update tuples PInf) tuples.
Proof.
  intros [t [Ht Hpos]].
  destruct (min_update_invariant [] tuples PInf) as [Hm Hle].
  { left. reflexivity. }
  { intros u Hu. apply not_elem_of_nil in Hu. destruct Hu. }
  cbn in Hm, Hle. unfold Spec.is_min_positive.
  destruct Hm as [Hm|[Hex Hp]].
  - pose proof (Hle t Ht Hpos) as Hinf. rewrite Hm in Hinf.
    apply fle_PInf_inv in Hinf. rewrite Hm.
    split; [|split].
    + exists t. split; assumption.
    + reflexivity.
    + intros u Hu Hupos. rewrite <- Hm. apply Hle; assumption.
  - split; [exact Hex|]. split; [exact Hp|exact Hle].
Qed.

Lemma min_update_no_positive (tuples : list (pyfloat * pyfloat * bool))
    (m : pyfloat) :
  (forall t, t ∈ tuples -> flt (Fin 0) (Spec.t_distance t) = false) ->
  fold_left Spec.min_update tuples m = m.
Proof.
  revert m. induction tuples as [|t tuples IH]; intros m H; [reflexivity|].
  cbn [fold_left]. unfold Spec.min_update at 2. unfold fgt.
  rewrite (H t) by (left). rewrite andb_false_r.
  apply IH. intros u Hu. apply H. right. exact Hu.
Qed.

Lemma fle_flt_false (a b : pyfloat) : fle a b = true -> flt b a = false.
Proof.
  destruct a as [x| | |], b as [y| | |]; simpl;
    try discriminate; try reflexivity.
  rewrite Qleb_le, Qltb_ge. trivial.
Qed.

Lemma summary_min_distance (mgr : lidar_manager) :
  BerthingData.l_min_distance (BerthingData.summary_loop mgr)
  = fold_left Spec.min_update (Spec.sensor_tuples mgr) PInf.
Proof. unfold BerthingData.summary_loop. now rewrite summary_fold_min. Qed.

Lemma summary_any_moving (mgr : lidar_manager) :
  BerthingData.l_any_moving (BerthingData.summary_loop mgr)
  = Spec.any_moving (Spec.sensor_tuples mgr).
Proof. unfold BerthingData.summary_loop. now rewrite summary_fold_moving. Qed.

(** C1. With berthing mode inactive the status is "inactive".  With it
    active and some sensor reporting a positive distance, the local
    [min_distance] the status is computed from is the minimum [m] over
    the strictly positive distances, [any_moving] is the OR of the
    is_moving flags, and the status is: moving and m < 5 gives
    "final_approach"; moving and 5 <= m < 20 gives "approaching";
    moving and m >= 20 gives "monitoring"; not moving and m < 1 gives
    "berthed"; not moving and m >= 1 gives "standby".  For the two
    sensors (0, 0) and (15.0, +0.1, moving) the reported min_distance
    is 15.0 and the status is "approaching". *)
Theorem aggregate_status_classification :
  (forall mgr,
     berthing_mode_active mgr = false ->
     BerthingData.overall_status (BerthingData.get_berthing_summary mgr)
     = "inactive"%string) /\
  (forall mgr,
     berthing_mode_active mgr = true ->
     (exists t, t ∈ Spec.sensor_tuples mgr
                /\ Spec.positive (Spec.t_distance t)) ->
     exists m,
       Spec.is_min_positive m (Spec.sensor_tuples mgr) /\
       BerthingData.l_min_distance (BerthingData.summary_loop mgr) = m /\
       let moving := Spec.any_moving (Spec.sensor_tuples mgr) in
       let status :=
         BerthingData.overall_status (BerthingData.get_berthing_summary mgr) in
       (moving = true -> flt m (Fin 5) = true ->
        status = "final_approach"%string) /\
       (moving = true -> fle (Fin 5) m = true -> flt m (Fin 20) = true ->
        status = "approaching"%string) /\
       (moving = true -> fle (Fin 20) m = true ->
        status = "monitoring"%string) /\
       (moving = false -> flt m (Fin 1) = true ->
        status = "berthed"%string) /\
       (moving = false -> fle (Fin 1) m = true ->
        status = "standby"%string)) /\
  (forall first_moving swapped,
     let s := BerthingData.get_berthing_summary
                (Spec.two_sensor_scenario first_moving swapped) in
     BerthingData.min_distance s = Some (Fin 15) /\
     BerthingData.overall_status s = "approaching"%string).
Proof.
  split; [|split].
  - intros mgr Hoff. unfold BerthingData.get_berthing_summary. cbn.
    rewrite Hoff. reflexivity.
  - intros mgr Hon Hex.
    exists (fold_left Spec.min_update (Spec.sensor_tuples mgr) PInf).
    split; [apply min_update_is_min; exact Hex|].
    split; [apply summary_min_distance|].
    unfold BerthingData.get_berthing_summary. cbn -[flt fle].
    rewrite Hon, summary_any_moving, summary_min_distance. cbn -[flt fle].
    set (m := fold_left Spec.min_update (Spec.sensor_tuples mgr) PInf).
    repeat split.
    + intros -> ->. reflexivity.
    + intros -> H5 ->. apply fle_flt_false in H5. rewrite H5. reflexivity.
    + intros -> H20.
      assert (H5 : fle (Fin 5) m = true).
      { eapply flt_fle_trans; [|exact H20]. reflexivity. }
      apply fle_flt_false in H5, H20. rewrite H5, H20. reflexivity.
    + intros -> ->. reflexivity.
    + intros -> H1. apply fle_flt_false in H1. rewrite H1. reflexivity.
  - intros [|] [|]; split; vm_compute; reflexivity.
Qed.

Lemma two_sensor_scenario_tuples :
  Spec.sensor_tuples (Spec.two_sensor_scenario false false)
  = [(Fin 0, Fin 0, false); (Fin 15, Fin (1 # 10), true)].
Proof. vm_compute. reflexivity. Qed.

Lemma aggregate_status_classification_witness :
  berthing_mode_active (Spec.two_sensor_scenario false false) = true /\
  (exists t, t ∈ Spec.sensor_tuples (Spec.two_sensor_scenario false false)
             /\ Spec.positive (Spec.t_distance t)) /\
  exists m,
    Spec.is_min_positive m
      (Spec.sensor_tuples (Spec.two_sensor_scenario false false)) /\
    BerthingData.l_min_distance
      (BerthingData.summary_loop (Spec.two_sensor_scenario false false)) = m.
Proof.
  assert (Hex : exists t,
             t ∈ Spec.sensor_tuples (Spec.two_sensor_scenario false false)
             /\ Spec.positive (Spec.t_distance t)).
  { exists (Fin 15, Fin (1 # 10), true). rewrite two_sensor_scenario_tuples.
    split; [|reflexivity]. right. left. }
  split; [reflexivity|]. split; [exact Hex|].
  destruct (proj1 (proj2 aggregate_status_classification)
              (Spec.two_sensor_scenario false false) eq_refl Hex)
    as [m [Hmin [Hloc _]]].
  exists m. split; assumption.
Defined.

(** C2 (as the code has it). With berthing mode active and no sensor
    reporting a strictly positive distance, the reported min_distance
    is None, and the status is "standby" when no sensor is moving and
    "monitoring" when some sensor is moving. *)
Theorem no_positive_distance_status (mgr : lidar_manager) :
  berthing_mode_active mgr = true ->
  (forall t, t ∈ Spec.sensor_tuples mgr ->
             flt (Fin 0) (Spec.t_distance t) = false) ->
  BerthingData.min_distance (BerthingData.get_berthing_summary mgr) = None /\
  BerthingData.overall_status (BerthingData.get_berthing_summary mgr)
  = (if Spec.any_moving (Spec.sensor_tuples mgr)
     then "monitoring" else "standby")%string.
Proof.
  intros Hon Hnone. unfold BerthingData.get_berthing_summary. cbn.
  rewrite Hon, summary_any_moving, summary_min_distance.
  rewrite min_update_no_positive by exact Hnone. cbn.
  split; reflexivity.
Qed.

Lemma moving_without_reading_tuples :
  Spec.sensor_tuples Spec.moving_without_reading
  = [(Fin 0, Fin (-(2 # 10)), true)].
Proof. vm_compute. reflexivity. Qed.

Lemma moving_without_reading_no_positive (t : pyfloat * pyfloat * bool) :
  t ∈ Spec.sensor_tuples Spec.moving_without_reading ->
  flt (Fin 0) (Spec.t_distance t) = false.
Proof.
  rewrite moving_without_reading_tuples. intros Ht.
  apply list_elem_of_singleton in Ht. subst t. reflexivity.
Qed.

Lemma no_positive_distance_status_witness :
  berthing_mode_active Spec.moving_without_reading = true /\
  BerthingData.min_distance
    (BerthingData.get_berthing_summary Spec.moving_without_reading) = None /\
  BerthingData.overall_status
    (BerthingData.get_berthing_summary Spec.moving_without_reading)
  = "monitoring"%string.
Proof.
  split; [reflexivity|].
  destruct (no_positive_distance_status Spec.moving_without_reading eq_refl
              moving_without_reading_no_positive) as [Hmin Hstatus].
  split; [exact Hmin|]. rewrite Hstatus.
  rewrite moving_without_reading_tuples. reflexivity.
Defined.

(** C2 as stated fails: berthing mode is active, no sensor reports a
    positive distance, and the status is not "standby". *)
Lemma no_positive_distance_not_standby :
  berthing_mode_active Spec.moving_without_reading = true /\
  (forall t, t ∈ Spec.sensor_tuples Spec.moving_without_reading ->
             flt (Fin 0) (Spec.t_distance t) = false) /\
  BerthingData.min_distance
    (BerthingData.get_berthing_summary Spec.moving_without_reading) = None /\
  BerthingData.overall_status
    (BerthingData.get_berthing_summary Spec.moving_without_reading)
  <> "standby"%string.
Proof.
  split; [reflexivity|]. split; [exact moving_without_reading_no_positive|].
  split; [vm_compute; reflexivity|]. vm_compute. discriminate.
Qed.

(** ** fetch_berthing_data_for_sensor *)

Lemma feq_zero_not_lt (x : pyfloat) :
  feq x (Fin 0) = true -> flt x (Fin 0) = false /\ fgt x (Fin 0) = false.
Proof.
  destruct x as [q| | |]; simpl; try discriminate.
  unfold fgt. simpl. rewrite Qeqb_eq, !Qltb_ge. intros H.
  rewrite H. split; apply Qle_refl.
Qed.

Lemma flt_asym (a b : pyfloat) : flt a b = true -> flt b a = false.
Proof.
  destruct a as [x| | |], b as [y| | |]; simpl;
    try discriminate; try reflexivity.
  rewrite Qltb_lt, Qltb_ge. apply Qlt_le_weak.
Qed.

(** C5. For a known sensor whose stream is active, the function
    returns the "active" view, and its direction is classified from
    the speed_mps and is_vessel_moving statistics it reads: not moving
    gives "stationary"; moving with speed < 0 gives "approaching";
    moving with speed > 0 gives "departing"; moving with speed exactly
    0 gives "lateral". *)
Theorem direction_classification (mgr : lidar_manager) (sensor_id : string) :
  sensor_id ∈ sensors mgr ->
  stream_active mgr !! sensor_id = Some true ->
  exists view,
    BerthingDataCore.fetch_berthing_data_for_sensor mgr sensor_id
    = BerthingDataCore.Active view /\
    let stats := Spec.synced_stats mgr sensor_id in
    let speed := default (Fin 0) (speed_mps stats) in
    let moving := default false (is_vessel_moving stats) in
    let direction := BerthingDataCore.direction view in
    BerthingDataCore.is_moving view = moving /\
    (moving = false -> direction = "stationary"%string) /\
    (moving = true -> flt speed (Fin 0) = true ->
     direction = "approaching"%string) /\
    (moving = true -> fgt speed (Fin 0) = true ->
     direction = "departing"%string) /\
    (moving = true -> feq speed (Fin 0) = true ->
     direction = "lateral"%string).
Proof.
  intros Hknown Hstream.
  unfold BerthingDataCore.fetch_berthing_data_for_sensor.
  rewrite (bool_decide_eq_true_2 _ Hknown), Hstream. cbn [negb default].
  eexists. split; [reflexivity|].
  cbn -[flt fgt feq]. fold (Spec.synced_stats mgr sensor_id).
  set (stats := Spec.synced_stats mgr sensor_id).
  split; [reflexivity|]. repeat split.
  - intros ->. reflexivity.
  - intros -> ->. reflexivity.
  - intros -> Hgt. pose proof (flt_asym _ _ Hgt) as Hlt.
    unfold fgt in *. rewrite Hlt, Hgt. reflexivity.
  - intros -> Hz. apply feq_zero_not_lt in Hz as [Hlt Hgt].
    rewrite Hlt, Hgt. reflexivity.
Qed.

Lemma direction_classification_witness :
  "lidar_1"%string
    ∈ sensors (Spec.streaming_sensor "lidar_1"
                 (Spec.stats_of (4 + (1 # 2)) (-(6 # 10)) true)) /\
  exists view,
    BerthingDataCore.fetch_berthing_data_for_sensor
      (Spec.streaming_sensor "lidar_1"
         (Spec.stats_of (4 + (1 # 2)) (-(6 # 10)) true)) "lidar_1"
    = BerthingDataCore.Active view /\
    BerthingDataCore.direction view = "approaching"%string.
Proof.
  assert (Hin : "lidar_1"%string
                  ∈ sensors (Spec.streaming_sensor "lidar_1"
                     (Spec.stats_of (4 + (1 # 2)) (-(6 # 10)) true))).
  { cbn. apply elem_of_singleton. reflexivity. }
  split; [exact Hin|].
  destruct (direction_classification
              (Spec.streaming_sensor "lidar_1"
                 (Spec.stats_of (4 + (1 # 2)) (-(6 # 10)) true))
              "lidar_1" Hin eq_refl)
    as [view [Hview [_ [_ [Happroach _]]]]].
  exists view. split; [exact Hview|].
  apply Happroach; reflexivity.
Defined.

(** ** get_berthing_history *)

Section History.

Import BerthingData.

Lemma Qltb_pos_nonzero (dt : Q) : Qltb 0 dt = true -> Qeqb dt 0 = false.
Proof.
  unfold Qltb, Qeqb. cbn. rewrite Z.ltb_lt, Z.eqb_neq. lia.
Qed.

(** The guard [dt > 0] keeps the divisor away from zero. *)
Lemma div_guarded (x dt : Q) :
  Qltb 0 dt = true -> div x dt = Returned (x / dt)%Q.
Proof. intros H. unfold div. now rewrite (Qltb_pos_nonzero dt H). Qed.

(** The loop never raises and presents the samples one by one. *)
Lemma format_history_from (history rest : list (Q * Q)) (i : nat) :
  drop i history = rest ->
  format_history history i rest
  = Returned (Spec.entries_from history i rest).
Proof.
  revert i. induction rest as [|[timestamp distance] rest IH]; intros i Hdrop.
  - reflexivity.
  - assert (Hi : history !! i = Some (timestamp, distance)).
    { rewrite <- (Nat.add_0_r i), <- lookup_drop, Hdrop. reflexivity. }
    assert (Hrest : drop (S i) history = rest).
    { rewrite (drop_S _ _ _ Hi) in Hdrop. congruence. }
    cbn [format_history Spec.entries_from]. rewrite (IH (S i) Hrest).
    destruct i as [|j].
    + reflexivity.
    + change (0 <? S j)%nat with true. cbn iota.
      replace (S j - 1)%nat with j by lia.
      destruct (lookup_lt_is_Some_2 history j) as [[prev_t prev_d] Hj].
      { apply lookup_lt_Some in Hi. lia. }
      rewrite Hj. unfold Spec.entry_of, Spec.speed_formula.
      rewrite Hj, Hi. cbn [fst snd].
      destruct (Qltb 0 (timestamp - prev_t)) eqn:Hdt.
      * rewrite (div_guarded _ _ Hdt). reflexivity.
      * reflexivity.
Qed.

Lemma entries_from_length (history rest : list (Q * Q)) (i : nat) :
  length (Spec.entries_from history i rest) = length rest.
Proof.
  revert i. induction rest as [|s rest IH]; intros i; cbn; [|rewrite IH];
    reflexivity.
Qed.

Lemma entries_from_lookup (history rest : list (Q * Q)) (i k : nat) :
  Spec.entries_from history i rest !! k
  = Spec.entry_of history (i + k) <$> rest !! k.
Proof.
  revert i k. induction rest as [|s rest IH]; intros i k; [reflexivity|].
  destruct k as [|k]; cbn.
  - now rewrite Nat.add_0_r.
  - rewrite IH. now rewrite Nat.add_succ_r.
Qed.

Lemma entries_from_timestamps (history rest : list (Q * Q)) (i : nat) :
  h_timestamp <$> Spec.entries_from history i rest = fst <$> rest.
Proof.
  revert i. induction rest as [|s rest IH]; intros i; cbn; [|rewrite IH];
    reflexivity.
Qed.

Lemma entries_from_distances (history rest : list (Q * Q)) (i : nat) :
  h_distance <$> Spec.entries_from history i rest
  = (fun s => Qround_nd s.2 3) <$> rest.
Proof.
  revert i. induction rest as [|s rest IH]; intros i; cbn; [|rewrite IH];
    reflexivity.
Qed.

(** The samples the endpoint keeps: a suffix of the history. *)
Lemma kept_is_drop (h : list (Q * Q)) (limit : Z) :
  exists k,
    (if Z.of_nat (length h) >? limit then slice_from h (- limit) else h)
    = drop k h.
Proof.
  destruct (Z.of_nat (length h) >? limit).
  - unfold slice_from. eexists. reflexivity.
  - exists 0%nat. reflexivity.
Qed.

(** For a positive limit the kept samples are the most recent
    [min limit n]. *)
Lemma kept_positive_limit (h : list (Q * Q)) (limit : Z) :
  0 < limit ->
  (if Z.of_nat (length h) >? limit then slice_from h (- limit) else h)
  = Spec.most_recent (Nat.min (Z.to_nat limit) (length h)) h.
Proof.
  intros Hpos. unfold Spec.most_recent.
  destruct (Z.gtb_spec (Z.of_nat (length h)) limit) as [Hgt|Hle].
  - unfold slice_from.
    replace (- limit <? 0) with true by (symmetry; apply Z.ltb_lt; lia).
    f_equal. lia.
  - replace (length h - Nat.min (Z.to_nat limit) (length h))%nat
      with 0%nat by lia.
    reflexivity.
Qed.

Lemma get_berthing_history_response (mgr : lidar_manager)
    (sensor_id : string) (limit : Z) (h : list (Q * Q)) :
  vessel_speed_calculators mgr !! sensor_id = Some h ->
  let kept :=
    if Z.of_nat (length h) >? limit then slice_from h (- limit) else h in
  let history_data := Spec.entries_from kept 0 kept in
  get_berthing_history mgr sensor_id limit
  = Response
      {| hr_sensor_id := sensor_id;
         history := history_data;
         count := length history_data;
         oldest_timestamp :=
           match history_data with
           | first :: _ => h_timestamp first
           | [] => 0%Q
           end;
         latest_timestamp :=
           match last history_data with
           | Some latest => h_timestamp latest
           | None => 0%Q
           end |}.
Proof.
  intros Hcalc. unfold get_berthing_history. rewrite Hcalc. cbn zeta.
  rewrite format_history_from by apply drop_0. reflexivity.
Qed.

End History.

(** C8 (as the code has it). For a sensor with a speed calculator the
    endpoint always answers (no division by zero, whatever the
    timestamps), its entries present a suffix of the distance history,
    and the speed of entry i is the value 0 for the first entry, and
    otherwise (d_i - d_{i-1}) / (t_i - t_{i-1}) when t_i - t_{i-1} > 0
    and 0 otherwise, rounded to 4 decimal places.  The first entry's
    speed is 0, and a history of zero or one samples yields no nonzero
    speed. *)
Theorem history_speed_guarded (mgr : lidar_manager) (sensor_id : string)
    (limit : Z) (h : list (Q * Q)) :
  vessel_speed_calculators mgr !! sensor_id = Some h ->
  exists kept r,
    kept `suffix_of` h /\
    BerthingData.get_berthing_history mgr sensor_id limit = Response r /\
    length (BerthingData.history r) = length kept /\
    (forall i e,
       BerthingData.history r !! i = Some e ->
       BerthingData.h_speed e = Qround_nd (Spec.speed_formula kept i) 4) /\
    (forall e,
       BerthingData.history r !! 0%nat = Some e ->
       BerthingData.h_speed e = 0%Q) /\
    ((length h <= 1)%nat ->
     forall e, e ∈ BerthingData.history r -> BerthingData.h_speed e = 0%Q).
Proof.
  intros Hcalc.
  pose proof (get_berthing_history_response mgr sensor_id limit h Hcalc)
    as Hresp. cbn zeta in Hresp.
  destruct (kept_is_drop h limit) as [k Hk].
  set (kept := if Z.of_nat (length h) >? limit
               then BerthingData.slice_from h (- limit) else h) in *.
  assert (Hlookup : forall i e,
             Spec.entries_from kept 0 kept !! i = Some e ->
             BerthingData.h_speed e
             = Qround_nd (Spec.speed_formula kept i) 4).
  { intros i e He. rewrite entries_from_lookup in He.
    destruct (kept !! i) as [s|]; [|discriminate].
    cbn in He. injection He as <-. reflexivity. }
  eexists kept, _. split; [rewrite Hk; apply suffix_drop|].
  split; [exact Hresp|]. cbn [BerthingData.history].
  split; [apply entries_from_length|].
  split; [exact Hlookup|].
  split.
  - intros e He. rewrite (Hlookup _ _ He). reflexivity.
  - intros Hshort e He. apply list_elem_of_lookup in He as [i He].
    assert (Hi : (i < length kept)%nat).
    { apply lookup_lt_Some in He. now rewrite entries_from_length in He. }
    assert (Hlen : (length kept <= length h)%nat).
    { rewrite Hk, length_drop. lia. }
    assert (i = 0%nat) as -> by lia.
    rewrite (Hlookup _ _ He). reflexivity.
Qed.

Lemma history_speed_guarded_witness :
  vessel_speed_calculators (Spec.with_history Spec.four_samples)
    !! "lidar_1"%string = Some Spec.four_samples /\
  exists kept r,
    kept `suffix_of` Spec.four_samples /\
    BerthingData.get_berthing_history
      (Spec.with_history Spec.four_samples) "lidar_1" 100 = Response r /\
    length (BerthingData.history r) = length kept.
Proof.
  split; [reflexivity|].
  destruct (history_speed_guarded (Spec.with_history Spec.four_samples)
              "lidar_1" 100 Spec.four_samples eq_refl)
    as [kept [r [Hsuffix [Hresp [Hlen _]]]]].
  exists kept, r. split; [exact Hsuffix|]. split; assumption.
Defined.

(** C8 as stated fails: for the history (0 s, 0 m), (3 s, 1 m) the
    second returned entry's speed is 0.3333, not (1 - 0) / (3 - 0). *)
Lemma history_speed_is_rounded :
  exists r e,
    BerthingData.get_berthing_history
      (Spec.with_history Spec.slow_departure) "lidar_1" 100 = Response r /\
    BerthingData.history r !! 1%nat = Some e /\
    (Spec.speed_formula Spec.slow_departure 1 == 1 # 3)%Q /\
    BerthingData.h_speed e = (3333 # 10000)%Q /\
    ~ (BerthingData.h_speed e == Spec.speed_formula Spec.slow_departure 1)%Q.
Proof.
  eexists _, _. split; [vm_compute; reflexivity|].
  split; [reflexivity|]. split; [reflexivity|]. split; [reflexivity|].
  vm_compute. discriminate.
Qed.

(** C10. For a sensor with a speed calculator holding n samples and a
    positive limit L, the endpoint returns exactly min(L, n) entries;
    they present the most recent min(L, n) samples in chronological
    order (same timestamps, distances rounded to 3 decimal places);
    count is the number of entries; oldest_timestamp and
    latest_timestamp are the first and last returned entries'
    timestamps, or 0 when there is no entry. *)
Theorem history_limit (mgr : lidar_manager) (sensor_id : string)
    (limit : Z) (h : list (Q * Q)) :
  vessel_speed_calculators mgr !! sensor_id = Some h ->
  0 < limit ->
  exists r,
    BerthingData.get_berthing_history mgr sensor_id limit = Response r /\
    let k := Nat.min (Z.to_nat limit) (length h) in
    let recent := Spec.most_recent k h in
    length recent = k /\
    length (BerthingData.history r) = k /\
    BerthingData.h_timestamp <$> BerthingData.history r = fst <$> recent /\
    BerthingData.h_distance <$> BerthingData.history r
    = (fun s => Qround_nd s.2 3) <$> recent /\
    BerthingData.count r = length (BerthingData.history r) /\
    BerthingData.oldest_timestamp r
    = from_option BerthingData.h_timestamp 0%Q
        (head (BerthingData.history r)) /\
    BerthingData.latest_timestamp r
    = from_option BerthingData.h_timestamp 0%Q
        (last (BerthingData.history r)).
Proof.
  intros Hcalc Hpos.
  pose proof (get_berthing_history_response mgr sensor_id limit h Hcalc)
    as Hresp. cbn zeta in Hresp.
  rewrite (kept_positive_limit h limit Hpos) in Hresp.
  eexists. split; [exact Hresp|]. cbn zeta.
  cbn [BerthingData.history BerthingData.count BerthingData.oldest_timestamp
       BerthingData.latest_timestamp].
  set (k := Nat.min (Z.to_nat limit) (length h)).
  assert (Hk : length (Spec.most_recent k h) = k).
  { unfold Spec.most_recent. rewrite length_drop. lia. }
  split; [exact Hk|].
  split; [rewrite entries_from_length; exact Hk|].
  split; [apply entries_from_timestamps|].
  split; [apply entries_from_distances|].
  split; [reflexivity|].
  split.
  - destruct (Spec.entries_from _ 0 _); reflexivity.
  - destruct (last (Spec.entries_from _ 0 _)); reflexivity.
Qed.

Lemma history_limit_witness :
  vessel_speed_calculators (Spec.with_history Spec.four_samples)
    !! "lidar_1"%string = Some Spec.four_samples /\
  0 < 3 /\
  exists r,
    BerthingData.get_berthing_history
      (Spec.with_history Spec.four_samples) "lidar_1" 3 = Response r /\
    length (BerthingData.history r) = 3%nat /\
    BerthingData.h_timestamp <$> BerthingData.history r = [11; 12; 12]%Q.
Proof.
  split; [reflexivity|]. split; [reflexivity|].
  destruct (history_limit (Spec.with_history Spec.four_samples)
              "lidar_1" 3 Spec.four_samples eq_refl eq_refl)
    as [r [Hresp [_ [Hlen [Hts _]]]]].
  exists r. split; [exact Hresp|]. split; [exact Hlen|exact Hts].
Defined.

(** ** The fake lidar's command listener *)

Section CommandListener.

Import FakeLidar.

Lemma received_prefix (payload : list byte) :
  take 11 (take 1024 payload) = take 11 payload.
Proof. rewrite take_take. reflexivity. Qed.

Lemma received_long_enough (payload : list byte) :
  (11 <=? length (take 1024 payload))%nat = (11 <=? length payload)%nat.
Proof.
  rewrite length_take.
  destruct (Nat.leb_spec 11 (length payload)) as [H|H];
    [apply Nat.leb_le|apply Nat.leb_gt]; lia.
Qed.

Lemma prefix_needs_length (payload constant : list byte) :
  length constant = 11%nat ->
  take 11 payload = constant -> (11 <= length payload)%nat.
Proof.
  intros Hlen Heq. apply (f_equal length) in Heq.
  rewrite length_take, Hlen in Heq. lia.
Qed.

Lemma is_data_start_iff (payload : list byte) :
  is_data_start (take 1024 payload) = true
  <-> (11 <= length payload)%nat /\ take 11 payload = _CMD_DATA_START.
Proof.
  unfold is_data_start.
  rewrite received_long_enough, received_prefix, andb_true_iff,
    Nat.leb_le, bool_decide_eq_true.
  reflexivity.
Qed.

Lemma is_data_stop_iff (payload : list byte) :
  is_data_stop (take 1024 payload) = true
  <-> take 11 payload = _CMD_DATA_STOP.
Proof.
  unfold is_data_stop.
  rewrite received_long_enough, received_prefix, andb_true_iff,
    Nat.leb_le, bool_decide_eq_true.
  change (take 11 _CMD_DATA_STOP) with _CMD_DATA_STOP.
  split; [intros [_ H]; exact H|].
  intros H. split; [|exact H].
  eapply prefix_needs_length; [|exact H]. reflexivity.
Qed.

Lemma start_stop_exclusive (payload : list byte) :
  is_data_start (take 1024 payload) = true ->
  is_data_stop (take 1024 payload) = false.
Proof.
  rewrite is_data_start_iff. intros [_ Hstart].
  apply not_true_is_false. rewrite is_data_stop_iff, Hstart.
  discriminate.
Qed.

(** C3. A received datagram is taken for a start command exactly when
    it has at least 11 bytes and its first 11 bytes are the start
    constant, and then [dataStart_RT_B] is invoked; for a stop command
    exactly when its first 11 bytes are the stop constant, and then
    [dataStop] is invoked; any other datagram leaves the simulator and
    the world as they were, and the loop goes on.  Bytes after the
    11th never change the outcome. *)
Theorem command_recognition (self : simulator) (w : world)
    (payload : list byte) :
  let data := take 1024 payload in
  (is_data_start data = true
   <-> (11 <= length payload)%nat /\ take 11 payload = _CMD_DATA_START) /\
  (is_data_start data = false /\ is_data_stop data = true
   <-> take 11 payload = _CMD_DATA_STOP) /\
  ((11 <= length payload)%nat /\ take 11 payload = _CMD_DATA_START ->
   _command_listener_body self w (Datagram payload)
   = (Continue, dataStart_RT_B self w)) /\
  (take 11 payload = _CMD_DATA_STOP ->
   _command_listener_body self w (Datagram payload)
   = (Continue, dataStop self w)) /\
  (take 11 payload <> _CMD_DATA_START ->
   take 11 payload <> _CMD_DATA_STOP ->
   _command_listener_body self w (Datagram payload)
   = (Continue, (self, w))) /\
  (forall trailing,
     (11 <= length payload)%nat ->
     _command_listener_body self w (Datagram (payload ++ trailing))
     = _command_listener_body self w (Datagram payload)).
Proof.
  cbn zeta. split; [apply is_data_start_iff|].
  split.
  { split.
    - intros [_ H]. apply is_data_stop_iff. exact H.
    - intros H. split; [|apply is_data_stop_iff; exact H].
      apply not_true_is_false. rewrite is_data_start_iff, H.
      intros [_ Habs]. discriminate. }
  split.
  { intros H. apply is_data_start_iff in H.
    unfold _command_listener_body. rewrite H. reflexivity. }
  split.
  { intros H. unfold _command_listener_body.
    destruct (is_data_start (take 1024 payload)) eqn:Hstart.
    - apply start_stop_exclusive in Hstart.
      apply is_data_stop_iff in H. congruence.
    - apply is_data_stop_iff in H. rewrite H. reflexivity. }
  split.
  { intros Hstart Hstop. unfold _command_listener_body.
    destruct (is_data_start (take 1024 payload)) eqn:H1.
    - apply is_data_start_iff in H1 as [_ H1]. contradiction.
    - destruct (is_data_stop (take 1024 payload)) eqn:H2; [|reflexivity].
      apply is_data_stop_iff in H2. contradiction. }
  intros trailing Hlen.
  assert (Hprefix : take 11 (payload ++ trailing) = take 11 payload)
    by (apply take_app_le; exact Hlen).
  assert (Hstart : is_data_start (take 1024 (payload ++ trailing))
                   = is_data_start (take 1024 payload)).
  { apply eq_true_iff_eq. rewrite !is_data_start_iff, Hprefix, length_app.
    split; intros [H1 H2]; (split; [lia|exact H2]). }
  assert (Hstop : is_data_stop (take 1024 (payload ++ trailing))
                  = is_data_stop (take 1024 payload)).
  { apply eq_true_iff_eq. rewrite !is_data_stop_iff, Hprefix. reflexivity. }
  unfold _command_listener_body. rewrite Hstart, Hstop. reflexivity.
Qed.

End CommandListener.

Lemma command_recognition_witness :
  ((11 <= length (FakeLidar._CMD_DATA_START ++ [x2a; x00]))%nat /\
   take 11 (FakeLidar._CMD_DATA_START ++ [x2a; x00])
   = FakeLidar._CMD_DATA_START) /\
  FakeLidar._command_listener_body
    Spec.connected_idle.1 Spec.connected_idle.2
    (FakeLidar.Datagram (FakeLidar._CMD_DATA_START ++ [x2a; x00]))
  = (FakeLidar.Continue,
     FakeLidar.dataStart_RT_B Spec.connected_idle.1 Spec.connected_idle.2).
Proof.
  assert (H : (11 <= length (FakeLidar._CMD_DATA_START ++ [x2a; x00]))%nat /\
              take 11 (FakeLidar._CMD_DATA_START ++ [x2a; x00])
              = FakeLidar._CMD_DATA_START).
  { split; [cbn; lia|reflexivity]. }
  split; [exact H|].
  apply (proj1 (proj2 (proj2
           (command_recognition Spec.connected_idle.1 Spec.connected_idle.2
              (FakeLidar._CMD_DATA_START ++ [x2a; x00]))))).
  exact H.
Defined.

(** ** The fake lidar's session *)

Section Session.

Import FakeLidar.

(** C6 (as the code has it). [dataStart_RT_B] invoked on a session
    that is already streaming reports nothing: the session stays in
    the streaming state, and the sockets, the connection parameters
    and the command listener are untouched. *)
Theorem start_while_streaming (self : simulator) (w : world) :
  Spec.is_streaming self ->
  let '(self', w') := dataStart_RT_B self w in
  Spec.is_streaming self' /\
  sockets w' = sockets w /\
  busy w' = busy w /\
  _dataSocket self' = _dataSocket self /\
  _cmdSocket self' = _cmdSocket self /\
  _command_thread self' = _command_thread self /\
  _command_running self' = _command_running self /\
  (_computerIP self', _sensorIP self', _dataPort self', _cmdPort self')
  = (_computerIP self, _sensorIP self, _dataPort self, _cmdPort self).
Proof.
  intros [Hconn [Hdata Hrun]]. unfold dataStart_RT_B. rewrite Hconn.
  cbn. unfold Spec.is_streaming. cbn. repeat split; assumption.
Qed.

Lemma streaming_is_streaming : Spec.is_streaming Spec.streaming.1.
Proof. repeat split. Qed.

Lemma start_while_streaming_witness :
  Spec.is_streaming Spec.streaming.1 /\
  Spec.is_streaming
    (dataStart_RT_B Spec.streaming.1 Spec.streaming.2).1.
Proof.
  split; [exact streaming_is_streaming|].
  pose proof (start_while_streaming Spec.streaming.1 Spec.streaming.2
                streaming_is_streaming) as H.
  destruct (dataStart_RT_B Spec.streaming.1 Spec.streaming.2)
    as [self' w'].
  exact (proj1 H).
Defined.

(** C6 as stated fails: on a streaming session the call changes the
    session (a second producer thread is started and replaces
    [_data_thread]), and nothing is reported. *)
Lemma start_while_streaming_spawns :
  Spec.is_streaming Spec.streaming.1 /\
  threads Spec.streaming.2
  = [command_listener_target; generate_fake_data_target] /\
  threads (dataStart_RT_B Spec.streaming.1 Spec.streaming.2).2
  = [command_listener_target; generate_fake_data_target;
     generate_fake_data_target] /\
  _data_thread Spec.streaming.1 = Some 1%nat /\
  _data_thread (dataStart_RT_B Spec.streaming.1 Spec.streaming.2).1
  = Some 2%nat /\
  dataStart_RT_B Spec.streaming.1 Spec.streaming.2 <> Spec.streaming.
Proof.
  split; [exact streaming_is_streaming|].
  split; [reflexivity|]. split; [reflexivity|].
  split; [reflexivity|]. split; [reflexivity|].
  intros H. apply (f_equal (fun sw => length (threads sw.2))) in H.
  vm_compute in H. discriminate.
Qed.

(** C7 (as the code has it). When one of the two [bind] calls of
    [connect] fails, [connect] returns 0, [_isConnected] keeps its
    value (so a disconnected session remains disconnected), the
    listener flag and thread of the session are unchanged, and no
    thread is started. *)
Theorem connect_bind_failure (self : simulator) (w : world)
    (computerIP sensorIP : string) (dataPort cmdPort : Z) :
  Spec.binds_succeed w computerIP dataPort = false ->
  let '(code, self', w') :=
    connect self w computerIP sensorIP dataPort cmdPort in
  code = 0 /\
  _isConnected self' = _isConnected self /\
  (_isConnected self = false -> _isConnected self' = false) /\
  _command_running self' = _command_running self /\
  _command_thread self' = _command_thread self /\
  threads w' = threads w.
Proof.
  unfold Spec.binds_succeed, connect. cbn [socket_socket].
  set (w2 := {| sockets := _; busy := _; threads := _ |}).
  assert (Hthreads : forall s a w3,
             socket_bind w2 s a = Returned w3 -> threads w3 = threads w).
  { intros s a w3. unfold socket_bind.
    destruct (sockets w2 !! s) as [[[addr|] [|]]|]; try discriminate.
    destruct (address_in_use w2 a); [discriminate|].
    intros [= <-]. reflexivity. }
  destruct (socket_bind w2 (length (sockets w)) (computerIP, dataPort))
    as [w3|e] eqn:Hdata.
  - destruct (socket_bind w3 _ (computerIP, 65000)) as [w4|e] eqn:Hcmd;
      [discriminate|].
    intros _. cbn. repeat split; try tauto.
    apply (Hthreads _ _ _ Hdata).
  - intros _. cbn. repeat split; tauto.
Qed.

Lemma connect_bind_failure_witness :
  Spec.binds_succeed Spec.empty_world "127.0.0.1" 65000 = false /\
  (connect (init false) Spec.empty_world
     "127.0.0.1" "127.0.0.1" 65000 56000).1.1 = 0.
Proof.
  split; [reflexivity|].
  pose proof (connect_bind_failure (init false) Spec.empty_world
                "127.0.0.1" "127.0.0.1" 65000 56000 eq_refl) as H.
  destruct (connect (init false) Spec.empty_world
              "127.0.0.1" "127.0.0.1" 65000 56000) as [[code self'] w'].
  exact (proj1 H).
Defined.

(** C7 as stated fails: with the data port held by another process
    the first [bind] fails and [connect] returns 0, yet both sockets
    it opened are still open when it returns. *)
Lemma connect_leaves_sockets_open :
  Spec.binds_succeed Spec.busy_world "127.0.0.1" 56001 = false /\
  (connect (init false) Spec.busy_world
     "127.0.0.1" "127.0.0.1" 56001 56000).1.1 = 0 /\
  Spec.opened_sockets Spec.busy_world
    (connect (init false) Spec.busy_world
       "127.0.0.1" "127.0.0.1" 56001 56000).2
  = [{| bound_to := None; closed := false |};
     {| bound_to := None; closed := false |}] /\
  ~ Forall (fun s => closed s = true)
      (Spec.opened_sockets Spec.busy_world
         (connect (init false) Spec.busy_world
            "127.0.0.1" "127.0.0.1" 56001 56000).2).
Proof.
  split; [vm_compute; reflexivity|]. split; [vm_compute; reflexivity|].
  assert (Hopen : Spec.opened_sockets Spec.busy_world
            (connect (init false) Spec.busy_world
               "127.0.0.1" "127.0.0.1" 56001 56000).2
          = [{| bound_to := None; closed := false |};
             {| bound_to := None; closed := false |}])
    by (vm_compute; reflexivity).
  split; [exact Hopen|]. rewrite Hopen. intros H.
  apply Forall_cons_1 in H as [H _]. discriminate.
Qed.

End Session.

(** ** Failure reports of the query operations *)

Section FailureReports.

(** C9. When awaiting the manager raises, [berthing_mode_status]
    logs and falls off its end: the caller gets no response at all,
    where the sibling endpoints raise an HTTPException with status 500
    and the message of the exception. *)
Theorem berthing_mode_status_swallows_exception (e : exn) :
  Connection.berthing_mode_status (Raised e) = NoResponse /\
  (forall request,
     Connection.berthing_mode_off request (Raised e)
     = HTTPException 500 (str e)) /\
  (forall request,
     Connection.berthing_mode_on request (Raised e)
     = HTTPException 500 (str e)).
Proof. repeat split. Qed.

Lemma all_sensors_fold (fetch : string -> result BerthingDataCore.sensor_data)
    (active : gmap string bool) (ids : list string)
    (acc : gmap string BerthingDataCore.sensor_data) (sensor_id : string) :
  fold_left
    (fun (result : gmap string BerthingDataCore.sensor_data) sensor_id =>
       if default false (active !! sensor_id) then
         match fetch sensor_id with
         | Returned sensor_data => <[sensor_id := sensor_data]> result
         | Raised e =>
             <[sensor_id := BerthingDataCore.ErrorRecord sensor_id (str e)]>
               result
         end
       else result) ids acc !! sensor_id
  = if bool_decide (sensor_id ∈ ids) && default false (active !! sensor_id)
    then Some match fetch sensor_id with
              | Returned sensor_data => sensor_data
              | Raised e => BerthingDataCore.ErrorRecord sensor_id (str e)
              end
    else acc !! sensor_id.
Proof.
  revert acc. induction ids as [|sid ids IH]; intros acc; [reflexivity|].
  cbn [fold_left]. rewrite IH.
  destruct (decide (sensor_id = sid)) as [->|Hne].
  - rewrite (bool_decide_eq_true_2 (sid ∈ sid :: ids)) by left.
    destruct (default false (active !! sid)); cbn.
    + rewrite andb_true_r.
      destruct (bool_decide (sid ∈ ids)); [reflexivity|].
      destruct (fetch sid); apply lookup_insert_eq.
    + rewrite andb_false_r. reflexivity.
  - assert (Hmem : bool_decide (sensor_id ∈ sid :: ids)
                   = bool_decide (sensor_id ∈ ids)).
    { apply bool_decide_ext. rewrite elem_of_cons. tauto. }
    rewrite Hmem.
    destruct (bool_decide (sensor_id ∈ ids) &&
              default false (active !! sensor_id)); [reflexivity|].
    destruct (default false (active !! sid)); [|reflexivity].
    destruct (fetch sid); apply lookup_insert_ne; congruence.
Qed.

(** In [get_all_berthing_data_core] a sensor whose fetch raises gets a
    structured error record, and every other listed streaming sensor
    still gets the entry its own fetch produces. *)
Lemma get_all_isolates_failures
    (fetch : string -> result BerthingDataCore.sensor_data)
    (mgr : lidar_manager) (now : Q) (sensor_id : string) :
  sensor_id ∈ berthing_mode_sensors mgr ->
  stream_active mgr !! sensor_id = Some true ->
  BerthingDataCore.all_sensors (BerthingDataCore.get_all_with fetch mgr now)
    !! sensor_id
  = Some match fetch sensor_id with
         | Returned sensor_data => sensor_data
         | Raised e => BerthingDataCore.ErrorRecord sensor_id (str e)
         end.
Proof.
  intros Hin Hactive. unfold BerthingDataCore.get_all_with.
  cbn [BerthingDataCore.all_sensors].
  rewrite all_sensors_fold, Hactive, (bool_decide_eq_true_2 _ Hin).
  reflexivity.
Qed.

End FailureReports.

(** ** Measurement frames of the fake lidar *)

Section FakePacket.

Import FakeLidar.

Lemma le_bytes_length (width : nat) (v : Z) :
  length (le_bytes width v) = width.
Proof.
  revert v. induction width as [|width IH]; intros v; cbn;
    [|rewrite IH]; reflexivity.
Qed.

Lemma byte_of_Z_value (z : Z) : Z.of_N (Byte.to_N (byte_of_Z z)) = z mod 256.
Proof.
  unfold byte_of_Z.
  assert (Hrange : 0 <= z mod 256 < 256) by (apply Z.mod_pos_bound; lia).
  destruct (Byte.of_N (Z.to_N (z mod 256))) as [b|] eqn:Hb.
  - apply Byte.to_of_N in Hb. cbn. rewrite Hb. lia.
  - apply Byte.of_N_None_iff in Hb. lia.
Qed.

(** [le_bytes] writes the value modulo [256 ^ width], least
    significant byte first. *)
Lemma le_bytes_decode (width : nat) (v : Z) :
  Spec.decode_le (le_bytes width v) = v mod 256 ^ Z.of_nat width.
Proof.
  revert v. induction width as [|width IH]; intros v.
  - cbn. now rewrite Z.mod_1_r.
  - cbn [le_bytes Spec.decode_le fold_right].
    fold (Spec.decode_le (le_bytes width (v / 256))).
    rewrite IH, byte_of_Z_value, Nat2Z.inj_succ, Z.pow_succ_r by lia.
    rewrite Z.rem_mul_r by lia. reflexivity.
Qed.

Lemma pack_unsigned_ok (width : nat) (v : Z) :
  0 <= v < 2 ^ (8 * Z.of_nat width) ->
  pack_unsigned width v = Returned (le_bytes width v).
Proof.
  intros [Hlo Hhi]. unfold pack_unsigned.
  apply Z.leb_le in Hlo. apply Z.ltb_lt in Hhi. now rewrite Hlo, Hhi.
Qed.

Lemma pack_signed_ok (width : nat) (v : Z) :
  - 2 ^ (8 * Z.of_nat width - 1) <= v < 2 ^ (8 * Z.of_nat width - 1) ->
  pack_signed width v = Returned (le_bytes width v).
Proof.
  intros [Hlo Hhi]. unfold pack_signed.
  apply Z.leb_le in Hlo. apply Z.ltb_lt in Hhi. now rewrite Hlo, Hhi.
Qed.

Lemma int_bounds (q : Q) (lo hi : Z) :
  (inject_Z lo <= q <= inject_Z hi)%Q -> lo <= int q <= hi.
Proof.
  intros [Hlo Hhi]. unfold int.
  assert (H1 : lo <= Qfloor q).
  { rewrite <- (Qfloor_Z lo). apply Qfloor_resp_le. exact Hlo. }
  assert (H2 : Qceiling q <= hi).
  { rewrite <- (Qceiling_Z hi). apply Qceiling_resp_le. exact Hhi. }
  assert (H3 : Qfloor q <= Qceiling q).
  { rewrite Zle_Qle. eapply Qle_trans; [apply Qfloor_le|apply Qle_ceiling]. }
  destruct (Qltb q 0); lia.
Qed.

Lemma int_nonneg_lt (q : Q) (hi : Z) :
  (0 <= q)%Q -> (q < inject_Z hi)%Q -> 0 <= int q < hi.
Proof.
  intros Hlo Hhi. unfold int.
  assert (Hsign : Qltb q 0 = false) by (apply Qltb_ge; exact Hlo).
  rewrite Hsign. split.
  - rewrite <- (Qfloor_Z 0). apply Qfloor_resp_le. exact Hlo.
  - rewrite Zlt_Qlt. eapply Qle_lt_trans; [apply Qfloor_le|exact Hhi].
Qed.

(** The generated coordinates fit the formats they are packed with. *)
Lemma fake_point_ranges (d : point_draws) (point_idx packet_count : Z) :
  draws_in_range d ->
  let '(x, y, z, intensity) :=
    _generate_fake_point d point_idx packet_count in
  1500 <= x <= 8000 /\ -500 <= y <= 500 /\ -500 <= z <= 500
  /\ 10 <= intensity <= 255.
Proof.
  intros (Hfar & Hnear & Hrad & Hcos & Hsin & Hy & Hz & Hc & Hp).
  unfold _generate_fake_point.
  assert (Hx : 1500 <=
               int ((if packet_count mod 10 =? 0
                     then 2 + uniform_near d else 5 + uniform_far d) * 1000)
               <= 8000).
  { apply int_bounds. change (inject_Z 1500) with 1500%Q.
    change (inject_Z 8000) with 8000%Q.
    destruct (packet_count mod 10 =? 0); lra. }
  destruct (point_idx <? 50).
  - split; [exact Hx|]. split; [|split].
    + apply int_bounds. change (inject_Z (-500)) with (-500)%Q.
      change (inject_Z 500) with 500%Q. nra.
    + apply int_bounds. change (inject_Z (-500)) with (-500)%Q.
      change (inject_Z 500) with 500%Q. nra.
    + lia.
  - split; [exact Hx|]. split; [|split].
    + apply int_bounds. change (inject_Z (-500)) with (-500)%Q.
      change (inject_Z 500) with 500%Q. lra.
    + apply int_bounds. change (inject_Z (-500)) with (-500)%Q.
      change (inject_Z 500) with 500%Q. lra.
    + lia.
Qed.

Lemma pack_fake_point (d : point_draws) (point_idx packet_count : Z) :
  draws_in_range d ->
  (let '(x, y, z, intensity) :=
     _generate_fake_point d point_idx packet_count in
   pack_point x y z intensity)
  = Returned (Spec.point_record d point_idx packet_count).
Proof.
  intros Hd. pose proof (fake_point_ranges d point_idx packet_count Hd) as H.
  unfold Spec.point_record.
  destruct (_generate_fake_point d point_idx packet_count)
    as [[[x y] z] intensity].
  destruct H as (Hx & Hy & Hz & Hi). unfold pack_point.
  rewrite !pack_signed_ok by (cbn; lia).
  rewrite pack_unsigned_ok by (cbn; lia). reflexivity.
Qed.

Lemma point_record_length (d : point_draws) (point_idx packet_count : Z) :
  length (Spec.point_record d point_idx packet_count) = 13%nat.
Proof.
  unfold Spec.point_record.
  destruct (_generate_fake_point d point_idx packet_count)
    as [[[x y] z] intensity].
  rewrite !length_app, !le_bytes_length. reflexivity.
Qed.

Lemma pack_points_ok (draws : nat -> point_draws) (packet_count : Z)
    (indices : list nat) (points_data : list byte) :
  (forall i, i ∈ indices -> draws_in_range (draws i)) ->
  pack_points draws packet_count indices points_data
  = Returned
      (points_data
       ++ concat ((fun i => Spec.point_record (draws i) (Z.of_nat i)
                              packet_count) <$> indices)).
Proof.
  revert points_data.
  induction indices as [|i indices IH]; intros points_data Hd.
  - cbn. now rewrite app_nil_r.
  - cbn [pack_points fmap list_fmap concat].
    pose proof (pack_fake_point (draws i) (Z.of_nat i) packet_count
                  (Hd i ltac:(left))) as Hpoint.
    destruct (_generate_fake_point (draws i) (Z.of_nat i) packet_count)
      as [[[x y] z] intensity].
    rewrite Hpoint. cbn [mbind result_bind].
    rewrite IH by (intros j Hj; apply Hd; right; exact Hj).
    now rewrite <- app_assoc.
Qed.

Lemma concat_length_uniform (records : list (list byte)) (n : nat) :
  Forall (fun r => length r = n) records ->
  length (concat records) = (length records * n)%nat.
Proof.
  induction 1 as [|r records Hr _ IH]; [reflexivity|].
  cbn. rewrite length_app, IH, Hr. reflexivity.
Qed.

(** C4. Whatever the packet count, the frame is the 18 header bytes
    (version, slot id, device id, reserved on one byte each, the
    status code on 4, timestamp kind and data kind on one each, the
    nanosecond timestamp on 8, little-endian) followed by 100 point
    records of 13 bytes (x, y, z on 4 bytes each, intensity on one),
    1318 bytes in all, with no count field.  The clock is taken to
    read a non-negative time whose nanoseconds fit 64 bits, and the
    random draws to respect the ranges they are asked for. *)
Theorem fake_packet_layout (clock : Q) (draws : nat -> point_draws)
    (packet_count : Z) :
  (0 <= clock * 1000000000)%Q ->
  (clock * 1000000000 < inject_Z (2 ^ 64))%Q ->
  (forall i, (i < 100)%nat -> draws_in_range (draws i)) ->
  let timestamp := int (clock * 1000000000) in
  let header := Spec.header_of timestamp in
  let records :=
    (fun i => Spec.point_record (draws i) (Z.of_nat i) packet_count)
      <$> seq 0 100 in
  _create_fake_packet clock draws packet_count
  = Returned (header ++ concat records) /\
  length header = 18%nat /\
  Spec.decode_le (drop 10 header) = timestamp /\
  length records = 100%nat /\
  Forall (fun r => length r = 13%nat) records /\
  length (header ++ concat records) = 1318%nat.
Proof.
  intros Hclock0 Hclock64 Hdraws. cbn zeta.
  pose proof (int_nonneg_lt _ _ Hclock0 Hclock64) as Hts.
  set (timestamp := int (clock * 1000000000)) in *.
  assert (Hrecords :
            Forall (fun r => length r = 13%nat)
              ((fun i => Spec.point_record (draws i) (Z.of_nat i)
                           packet_count) <$> seq 0 100)).
  { apply Forall_fmap, Forall_forall. intros i _.
    apply point_record_length. }
  assert (Hheader : length (Spec.header_of timestamp) = 18%nat).
  { unfold Spec.header_of. rewrite !length_app, !le_bytes_length.
    reflexivity. }
  split; [|split; [exact Hheader|split; [|split; [|split]]]].
  - unfold _create_fake_packet, pack_header.
    fold timestamp.
    rewrite !(pack_unsigned_ok 1) by (cbn; lia).
    rewrite (pack_unsigned_ok 4) by (cbn; lia).
    rewrite (pack_unsigned_ok 8) by (cbn; lia).
    cbn [mbind result_bind].
    rewrite pack_points_ok.
    + reflexivity.
    + intros i Hi. apply Hdraws. apply elem_of_seq in Hi. lia.
  - change (drop 10 (Spec.header_of timestamp)) with (le_bytes 8 timestamp).
    rewrite le_bytes_decode. apply Z.mod_small.
    change (256 ^ Z.of_nat 8) with (2 ^ 64). exact Hts.
  - rewrite length_fmap, length_seq. reflexivity.
  - exact Hrecords.
  - rewrite length_app, Hheader,
      (concat_length_uniform _ 13 Hrecords), length_fmap, length_seq.
    reflexivity.
Qed.

End FakePacket.

Lemma steady_draws_in_range : FakeLidar.draws_in_range Spec.steady_draws.
Proof.
  unfold FakeLidar.draws_in_range, Spec.steady_draws; cbn.
  repeat split; try lia; try (unfold Qle; cbn; lia).
Qed.

Lemma fake_packet_layout_witness :
  (0 <= (3400000001 # 2) * 1000000000)%Q /\
  ((3400000001 # 2) * 1000000000 < inject_Z (2 ^ 64))%Q /\
  (forall i : nat, (i < 100)%nat ->
     FakeLidar.draws_in_range ((fun _ => Spec.steady_draws) i)) /\
  exists packet,
    FakeLidar._create_fake_packet (3400000001 # 2)
      (fun _ => Spec.steady_draws) 7 = Returned packet /\
    length packet = 1318%nat.
Proof.
  assert (H0 : (0 <= (3400000001 # 2) * 1000000000)%Q)
    by (unfold Qle; cbn; lia).
  assert (H64 : ((3400000001 # 2) * 1000000000 < inject_Z (2 ^ 64))%Q)
    by reflexivity.
  assert (Hd : forall i : nat, (i < 100)%nat ->
             FakeLidar.draws_in_range ((fun _ => Spec.steady_draws) i))
    by (intros i _; exact steady_draws_in_range).
  split; [exact H0|]. split; [exact H64|]. split; [exact Hd|].
  destruct (fake_packet_layout (3400000001 # 2)
              (fun _ => Spec.steady_draws) 7 H0 H64 Hd)
    as [Hpacket [_ [_ [_ [_ Hlen]]]]].
  eexists. split; [exact Hpacket|exact Hlen].
Defined.

(** ** Further properties of the fake lidar's session *)

Section SessionLifecycle.

Import FakeLidar.

Lemma address_in_use_sockets (w w' : world) (addr : address) (extra : list socket_state) :
  busy w' = busy w -> sockets w' = sockets w ++ extra ->
  address_in_use w' addr
  = address_in_use w addr
    || existsb (fun s => negb (closed s) && bool_decide (bound_to s = Some addr)) extra.
Proof.
  intros Hb Hs. unfold address_in_use. rewrite Hb, Hs, existsb_app.
  now rewrite orb_assoc.
Qed.

Lemma connect_closed_form (self : simulator) (w : world)
    (computerIP sensorIP : string) (dataPort cmdPort : Z) :
  let n := length (sockets w) in
  let bound a := {| bound_to := Some a; closed := false |} in
  let opened l := {| sockets := sockets w ++ l; busy := busy w; threads := threads w |} in
  let self1 :=
    {| _isConnected := _isConnected self; _isData := _isData self;
       _sensorIP := sensorIP; _dataPort := dataPort; _cmdPort := cmdPort;
       _computerIP := computerIP; _showMessages := _showMessages self;
       _dataSocket := Some n; _cmdSocket := Some (S n);
       _data_thread := _data_thread self; _running := _running self;
       _command_thread := _command_thread self;
       _command_running := _command_running self |} in
  connect self w computerIP sensorIP dataPort cmdPort
  = if address_in_use w (computerIP, dataPort) then
      (0, self1, opened [Vocab.fresh; Vocab.fresh])
    else if address_in_use w (computerIP, 65000) || bool_decide (dataPort = 65000) then
      (0, self1, opened [bound (computerIP, dataPort); Vocab.fresh])
    else
      (1,
       {| _isConnected := true; _isData := _isData self;
          _sensorIP := sensorIP; _dataPort := dataPort; _cmdPort := cmdPort;
          _computerIP := computerIP; _showMessages := _showMessages self;
          _dataSocket := Some n; _cmdSocket := Some (S n);
          _data_thread := _data_thread self; _running := _running self;
          _command_thread := Some (length (threads w));
          _command_running := true |},
       {| sockets := sockets w ++ [bound (computerIP, dataPort); bound (computerIP, 65000)];
          busy := busy w;
          threads := threads w ++ [command_listener_target] |}).
Proof.
  cbn zeta. unfold connect. cbn -[socket_bind address_in_use thread_start].
  rewrite length_app. cbn [length]. rewrite Nat.add_1_r.
  rewrite <- app_assoc. cbn [app].
  set (n := length (sockets w)).
  unfold socket_bind at 1. cbn [sockets busy threads].
  rewrite lookup_app_r by (unfold n; lia).
  replace (n - length (sockets w))%nat with 0%nat by (unfold n; lia).
  cbn [lookup list_lookup].
  rewrite (address_in_use_sockets w _ _ [Vocab.fresh; Vocab.fresh]) by reflexivity.
  cbn [existsb Vocab.fresh closed bound_to negb andb]. 
  rewrite !bool_decide_eq_false_2 by discriminate. cbn [orb]. rewrite orb_false_r.
  destruct (address_in_use w (computerIP, dataPort)) eqn:Hd; [reflexivity|].
  rewrite insert_app_r_alt by (unfold n; lia).
  replace (n - length (sockets w))%nat with 0%nat by (unfold n; lia).
  cbn [insert list_insert].
  unfold socket_bind. cbn [sockets busy threads].
  rewrite lookup_app_r by (unfold n; lia).
  replace (S n - length (sockets w))%nat with 1%nat by (unfold n; lia).
  cbn [lookup list_lookup].
  rewrite (address_in_use_sockets w _ _ [ {| bound_to := Some (computerIP, dataPort); closed := false |}; Vocab.fresh]) by reflexivity.
  cbn [existsb Vocab.fresh closed bound_to negb andb].
  rewrite (bool_decide_eq_false_2 (None = _)) by discriminate. cbn [orb]. rewrite orb_false_r.
  assert (Hdec : forall (b : bool) (D1 : Decision (Some (computerIP, dataPort) = Some (computerIP, 65000))),
            b || @bool_decide _ D1 = b || bool_decide (dataPort = 65000)).
  { intros b D1. f_equal. apply bool_decide_ext.
    split; [intros [= ->]; reflexivity|intros ->; reflexivity]. }
  rewrite Hdec.
  destruct (address_in_use w (computerIP, 65000) || bool_decide (dataPort = 65000)); [reflexivity|].
  cbn [thread_start sockets busy threads]. 
  rewrite insert_app_r_alt by (unfold n; lia).
  replace (S n - length (sockets w))%nat with 1%nat by (unfold n; lia).
  reflexivity.
Qed.

Lemma socket_close_lookup (w : world) (fd k : nat) :
  sockets (socket_close w fd) !! k
  = (if decide (k = fd) then Vocab.close_state else id) <$> sockets w !! k.
Proof.
  unfold socket_close. cbn [sockets]. rewrite list_lookup_alter.
  destruct (decide (fd = k)), (decide (k = fd)); try congruence; subst;
    destruct (sockets w !! _); reflexivity.
Qed.

Lemma disconnect_sockets (self : simulator) (w : world) (k : nat) :
  sockets (disconnect self w).2 !! k
  = (if Vocab.owns self k then Vocab.close_state else id) <$> sockets w !! k.
Proof.
  unfold disconnect, Vocab.owns. cbn [snd].
  destruct (_dataSocket self) as [d|], (_cmdSocket self) as [c|];
    rewrite ?socket_close_lookup;
    repeat case_bool_decide; repeat case_decide; simplify_eq; cbn;
    repeat match goal with
           | |- context [sockets w !! ?i] =>
               destruct (sockets w !! i) as [[? ?]|]
           end;
    reflexivity.
Qed.

Lemma close_state_idemp (s : socket_state) :
  Vocab.close_state (Vocab.close_state s) = Vocab.close_state s.
Proof. reflexivity. Qed.

Lemma world_eq (w1 w2 : world) :
  sockets w1 = sockets w2 -> busy w1 = busy w2 -> threads w1 = threads w2 ->
  w1 = w2.
Proof. destruct w1, w2; cbn; intros; subst; reflexivity. Qed.

Lemma disconnect_busy_threads (self : simulator) (w : world) :
  busy (disconnect self w).2 = busy w /\
  threads (disconnect self w).2 = threads w.
Proof.
  unfold disconnect. cbn [snd].
  destruct (_dataSocket self), (_cmdSocket self); split; reflexivity.
Qed.

(** X4. [disconnect] is idempotent: a second call changes neither
    the session nor the world. *)
Theorem disconnect_idempotent (self : simulator) (w : world) :
  disconnect (disconnect self w).1 (disconnect self w).2 = disconnect self w.
Proof.
  apply injective_projections.
  - reflexivity.
  - apply world_eq.
    + apply list_eq. intros k. rewrite !disconnect_sockets.
      change (Vocab.owns (disconnect self w).1 k) with (Vocab.owns self k).
      destruct (Vocab.owns self k), (sockets w !! k); reflexivity.
    + apply (proj1 (disconnect_busy_threads _ _)).
    + apply (proj2 (disconnect_busy_threads _ _)).
Qed.

Lemma connect_ok_iff (self : simulator) (w : world)
    (computerIP sensorIP : string) (dataPort cmdPort : Z) :
  (connect self w computerIP sensorIP dataPort cmdPort).1.1 = 1
  <-> address_in_use w (computerIP, dataPort) = false
      /\ address_in_use w (computerIP, 65000) = false
      /\ dataPort <> 65000.
Proof.
  rewrite connect_closed_form. cbn zeta.
  destruct (address_in_use w (computerIP, dataPort));
    [cbn; split; [discriminate|intros [? _]; discriminate]|].
  destruct (address_in_use w (computerIP, 65000)); cbn;
    [split; [discriminate|intros [_ [? _]]; discriminate]|].
  case_bool_decide; cbn; split; try discriminate; try tauto.
Qed.

Lemma disconnect_after_connect (self : simulator) (w : world)
    (computerIP sensorIP : string) (dataPort cmdPort : Z) :
  (connect self w computerIP sensorIP dataPort cmdPort).1.1 = 1 ->
  let '(_, self1, w1) := connect self w computerIP sensorIP dataPort cmdPort in
  let w2 := (disconnect self1 w1).2 in
  sockets w2
  = sockets w ++ [ {| bound_to := Some (computerIP, dataPort); closed := true |};
                   {| bound_to := Some (computerIP, 65000); closed := true |} ]
  /\ busy w2 = busy w
  /\ threads w2 = threads w ++ [command_listener_target].
Proof.
  intros Hok. apply connect_ok_iff in Hok as (Hd & Hc & Hne).
  rewrite connect_closed_form. cbn zeta. rewrite Hd, Hc.
  rewrite bool_decide_eq_false_2 by exact Hne. cbn [orb].
  unfold disconnect. cbn -[alter].
  split; [|split; reflexivity].
  rewrite !alter_app_r_alt by lia.
  replace (length (sockets w) - length (sockets w))%nat with 0%nat by lia.
  replace (S (length (sockets w)) - length (sockets w))%nat with 1%nat by lia.
  reflexivity.
Qed.

(** X5. After a successful [connect] followed by [disconnect], a
    [connect] with the same parameters succeeds again: closing the
    sockets frees both addresses. *)
Theorem reconnect_after_disconnect (self : simulator) (w : world)
    (computerIP sensorIP : string) (dataPort cmdPort : Z) :
  (connect self w computerIP sensorIP dataPort cmdPort).1.1 = 1 ->
  let '(_, self1, w1) := connect self w computerIP sensorIP dataPort cmdPort in
  let '(self2, w2) := disconnect self1 w1 in
  (connect self2 w2 computerIP sensorIP dataPort cmdPort).1.1 = 1.
Proof.
  intros Hok. pose proof (disconnect_after_connect _ _ _ _ _ _ Hok) as H.
  pose proof (proj1 (connect_ok_iff _ _ _ _ _ _) Hok) as (Hd & Hc & Hne).
  destruct (connect self w computerIP sensorIP dataPort cmdPort) as [[code self1] w1].
  destruct (disconnect self1 w1) as [self2 w2]. cbn [snd] in H.
  destruct H as (Hs & Hb & Ht).
  apply connect_ok_iff. split; [|split; [|exact Hne]].
  - rewrite (address_in_use_sockets w w2 _ _ Hb Hs). rewrite Hd. reflexivity.
  - rewrite (address_in_use_sockets w w2 _ _ Hb Hs). rewrite Hc. reflexivity.
Qed.

Lemma reconnect_after_disconnect_witness :
  (connect (init false) Spec.empty_world
     "127.0.0.1" "127.0.0.1" 56001 56000).1.1 = 1 /\
  (connect
     (disconnect Spec.connected_idle.1 Spec.connected_idle.2).1
     (disconnect Spec.connected_idle.1 Spec.connected_idle.2).2
     "127.0.0.1" "127.0.0.1" 56001 56000).1.1 = 1.
Proof.
  assert (H : (connect (init false) Spec.empty_world
                 "127.0.0.1" "127.0.0.1" 56001 56000).1.1 = 1)
    by (vm_compute; reflexivity).
  pose proof (reconnect_after_disconnect (init false) Spec.empty_world
                "127.0.0.1" "127.0.0.1" 56001 56000 H) as P.
  unfold Spec.connected_idle.
  destruct (connect (init false) Spec.empty_world
              "127.0.0.1" "127.0.0.1" 56001 56000) as [[code self1] w1].
  cbn [fst snd].
  destruct (disconnect self1 w1) as [self2 w2].
  split; [exact H|exact P].
Defined.




(** X3. [disconnect] clears the four flags, closes exactly the
    sockets the session holds (keeping their recorded binding) and
    leaves every other socket, the busy addresses and the threads as
    they were. *)
Theorem disconnect_releases (self : simulator) (w : world) :
  let '(self', w') := disconnect self w in
  (_isConnected self', _isData self', _running self', _command_running self')
  = (false, false, false, false) /\
  length (sockets w') = length (sockets w) /\
  (forall fd s,
     sockets w !! fd = Some s ->
     sockets w' !! fd
     = Some (if Vocab.owns self fd then Vocab.close_state s else s)) /\
  busy w' = busy w /\ threads w' = threads w.
Proof.
  pose proof (disconnect_sockets self w) as Hs.
  pose proof (disconnect_busy_threads self w) as [Hb Ht].
  assert (Hflags : (_isConnected (disconnect self w).1,
                    _isData (disconnect self w).1,
                    _running (disconnect self w).1,
                    _command_running (disconnect self w).1)
                   = (false, false, false, false)) by reflexivity.
  destruct (disconnect self w) as [self' w']. cbn [fst snd] in *.
  split; [exact Hflags|]. split; [|split; [|split; assumption]].
  - apply Nat.le_antisymm.
    + destruct (decide (length (sockets w') <= length (sockets w))%nat) as [H|H]; [exact H|].
      exfalso. assert (Hlt : (length (sockets w) < length (sockets w'))%nat) by lia.
      apply lookup_lt_is_Some_2 in Hlt as [x Hx]. rewrite Hs in Hx.
      rewrite lookup_ge_None_2 in Hx by lia. discriminate.
    + destruct (decide (length (sockets w) <= length (sockets w'))%nat) as [H|H]; [exact H|].
      exfalso. assert (Hlt : (length (sockets w') < length (sockets w))%nat) by lia.
      apply lookup_lt_is_Some_2 in Hlt as [x Hx].
      pose proof (Hs (length (sockets w'))) as Hk. rewrite Hx in Hk.
      rewrite lookup_ge_None_2 in Hk by lia. discriminate.
  - intros fd s Hfd. rewrite Hs, Hfd. destruct (Vocab.owns self fd); reflexivity.
Qed.

Lemma disconnect_releases_witness :
  sockets Spec.connected_idle.2 !! 0%nat
  = Some {| bound_to := Some ("127.0.0.1"%string, 56001); closed := false |}
  /\
  sockets (disconnect Spec.connected_idle.1 Spec.connected_idle.2).2 !! 0%nat
  = Some {| bound_to := Some ("127.0.0.1"%string, 56001); closed := true |}.
Proof.
  assert (H : sockets Spec.connected_idle.2 !! 0%nat
              = Some {| bound_to := Some ("127.0.0.1"%string, 56001);
                        closed := false |})
    by (vm_compute; reflexivity).
  pose proof (disconnect_releases Spec.connected_idle.1 Spec.connected_idle.2)
    as P.
  destruct (disconnect Spec.connected_idle.1 Spec.connected_idle.2)
    as [self' w'].
  destruct P as (_ & _ & Pclose & _).
  split; [exact H|]. exact (Pclose 0%nat _ H).
Defined.

Lemma dataStart_preserves (self : simulator) (w : world) :
  let '(self', w') := dataStart_RT_B self w in
  _isConnected self' = _isConnected self /\
  _command_running self' = _command_running self /\
  _command_thread self' = _command_thread self /\
  _dataSocket self' = _dataSocket self /\
  _cmdSocket self' = _cmdSocket self /\
  sockets w' = sockets w /\ busy w' = busy w /\
  threads w `prefix_of` threads w'.
Proof.
  unfold dataStart_RT_B. destruct (_isConnected self) eqn:Hc; cbn.
  - repeat split; try assumption. apply prefix_app_r. reflexivity.
  - repeat split; try assumption; reflexivity.
Qed.

(** X7. Whatever the command listener receives, it never changes
    the connection flag, its own running flag and thread, the socket
    handles, the sockets or the busy addresses; it can only append
    threads. *)
Theorem listener_preserves (events : list recv_event) (self : simulator) (w : world) :
  let '(self', w') := _command_listener self w events in
  _isConnected self' = _isConnected self /\
  _command_running self' = _command_running self /\
  _command_thread self' = _command_thread self /\
  _dataSocket self' = _dataSocket self /\
  _cmdSocket self' = _cmdSocket self /\
  sockets w' = sockets w /\ busy w' = busy w /\
  threads w `prefix_of` threads w'.
Proof.
  revert self w. induction events as [|ev events IH]; intros self w.
  - cbn. repeat split; reflexivity.
  - cbn [_command_listener]. destruct (_command_running self) eqn:Hrun;
      [|repeat split; first [reflexivity|congruence]].
    assert (Hbody : let '(_, (self1, w1)) := _command_listener_body self w ev in
              _isConnected self1 = _isConnected self /\
              _command_running self1 = _command_running self /\
              _command_thread self1 = _command_thread self /\
              _dataSocket self1 = _dataSocket self /\
              _cmdSocket self1 = _cmdSocket self /\
              sockets w1 = sockets w /\ busy w1 = busy w /\
              threads w `prefix_of` threads w1).
    { unfold _command_listener_body. destruct ev as [payload| |e];
        try (repeat split; reflexivity).
      destruct (is_data_start (take 1024 payload)).
      - apply dataStart_preserves.
      - destruct (is_data_stop (take 1024 payload)); repeat split; reflexivity. }
    destruct (_command_listener_body self w ev) as [[|] [self1 w1]].
    + specialize (IH self1 w1).
      destruct (_command_listener self1 w1 events) as [self' w'].
      destruct Hbody as (H1 & H2 & H3 & H4 & H5 & H6 & H7 & H8).
      destruct IH as (I1 & I2 & I3 & I4 & I5 & I6 & I7 & I8).
      repeat split; try congruence. etrans; eassumption.
    + rewrite Hrun in Hbody. exact Hbody.
Qed.

Lemma listener_not_running (events : list recv_event) (self : simulator) (w : world) :
  _command_running self = false -> _command_listener self w events = (self, w).
Proof. intros H. destruct events; cbn; [|rewrite H]; reflexivity. Qed.

(** X8. Receive timeouts are transparent: removing them from the
    events the listener sees does not change where it ends. *)
Theorem listener_skips_timeouts (events : list recv_event) (self : simulator) (w : world) :
  _command_listener self w (filter (fun ev => Vocab.is_timeout ev = false) events)
  = _command_listener self w events.
Proof.
  revert self w. induction events as [|ev events IH]; intros self w; [reflexivity|].
  destruct ev as [payload| |e].
  - rewrite filter_cons_True by reflexivity. cbn [_command_listener].
    destruct (_command_running self); [|reflexivity].
    destruct (_command_listener_body self w (Datagram payload)) as [[|] [self1 w1]];
      [apply IH|reflexivity].
  - rewrite filter_cons_False by (cbn; discriminate). rewrite IH.
    cbn [_command_listener _command_listener_body].
    destruct (_command_running self) eqn:Hrun; [reflexivity|].
    apply listener_not_running. exact Hrun.
  - rewrite filter_cons_True by reflexivity. cbn [_command_listener].
    destruct (_command_running self); reflexivity.
Qed.

(** X9. On a running listener a start datagram has the effect of a
    direct [dataStart_RT_B], a stop datagram that of a direct
    [dataStop], and a start followed by a stop that of the two calls
    in sequence. *)
Theorem wire_commands_equal_direct_calls (self : simulator) (w : world)
    (start stop : list byte) :
  _command_running self = true ->
  (11 <= length start)%nat ->
  take 11 start = _CMD_DATA_START ->
  take 11 stop = _CMD_DATA_STOP ->
  _command_listener self w [Datagram start; Datagram stop]
  = dataStop (dataStart_RT_B self w).1 (dataStart_RT_B self w).2
  /\ _command_listener self w [Datagram start] = dataStart_RT_B self w
  /\ _command_listener self w [Datagram stop] = dataStop self w.
Proof.
  intros Hrun Hlen Hstart Hstop.
  assert (H1 : is_data_start (take 1024 start) = true)
    by (apply is_data_start_iff; split; assumption).
  assert (H2 : is_data_stop (take 1024 stop) = true)
    by (apply is_data_stop_iff; assumption).
  assert (H3 : is_data_start (take 1024 stop) = false).
  { apply not_true_is_false. rewrite is_data_start_iff, Hstop.
    intros [_ H]. discriminate. }
  assert (Hrun' : _command_running (dataStart_RT_B self w).1 = true).
  { unfold dataStart_RT_B. destruct (_isConnected self); cbn; exact Hrun. }
  split; [|split].
  - cbn [_command_listener _command_listener_body]. rewrite Hrun, H1.
    destruct (dataStart_RT_B self w) as [self1 w1]. cbn [fst snd] in *.
    rewrite Hrun', H3, H2. destruct (dataStop self1 w1). reflexivity.
  - cbn [_command_listener _command_listener_body]. rewrite Hrun, H1.
    destruct (dataStart_RT_B self w). reflexivity.
  - cbn [_command_listener _command_listener_body]. rewrite Hrun, H3, H2.
    destruct (dataStop self w). reflexivity.
Qed.

Lemma wire_commands_equal_direct_calls_witness :
  _command_running Spec.connected_idle.1 = true /\
  _command_listener Spec.connected_idle.1 Spec.connected_idle.2
    [Datagram (_CMD_DATA_START ++ [x2a]); Datagram _CMD_DATA_STOP]
  = dataStop
      (dataStart_RT_B Spec.connected_idle.1 Spec.connected_idle.2).1
      (dataStart_RT_B Spec.connected_idle.1 Spec.connected_idle.2).2.
Proof.
  split; [reflexivity|].
  apply (wire_commands_equal_direct_calls
           Spec.connected_idle.1 Spec.connected_idle.2
           (_CMD_DATA_START ++ [x2a]) _CMD_DATA_STOP);
    [reflexivity|cbn; lia|reflexivity|reflexivity].
Defined.


End SessionLifecycle.

(** ** Further properties of the measurement frames and their producer *)

Section Producer.

Import FakeLidar.


Lemma pack_signed_raises (v : Z) :
  ~ (- 2 ^ 31 <= v < 2 ^ 31) ->
  pack_signed 4 v = Raised (StructError "argument out of range").
Proof.
  intros H. unfold pack_signed.
  change (2 ^ (8 * Z.of_nat 4 - 1)) with (2 ^ 31).
  destruct (Z.leb_spec (- 2 ^ 31) v), (Z.ltb_spec v (2 ^ 31)); cbn;
    try reflexivity. lia.
Qed.

Lemma pack_unsigned_raises (width : nat) (v : Z) :
  ~ (0 <= v < 2 ^ (8 * Z.of_nat width)) ->
  pack_unsigned width v = Raised (StructError "argument out of range").
Proof.
  intros H. unfold pack_unsigned.
  destruct (Z.leb_spec 0 v), (Z.ltb_spec v (2 ^ (8 * Z.of_nat width))); cbn;
    try reflexivity. lia.
Qed.

Lemma pack_point_in_range (x y z intensity : Z) :
  Vocab.point_in_range x y z intensity ->
  pack_point x y z intensity
  = Returned (le_bytes 4 x ++ le_bytes 4 y ++ le_bytes 4 z
              ++ le_bytes 1 intensity).
Proof.
  intros (Hx & Hy & Hz & Hi). unfold pack_point.
  rewrite !pack_signed_ok by (cbn; lia).
  rewrite pack_unsigned_ok by (cbn; lia). reflexivity.
Qed.

Lemma pack_point_out_of_range (x y z intensity : Z) :
  ~ Vocab.point_in_range x y z intensity ->
  pack_point x y z intensity = Raised (StructError "argument out of range").
Proof.
  unfold Vocab.point_in_range. intros Hout. unfold pack_point.
  destruct (decide (- 2 ^ 31 <= x < 2 ^ 31)) as [Hx|Hx];
    [|rewrite (pack_signed_raises x Hx); reflexivity].
  rewrite (pack_signed_ok 4 x) by (cbn; lia). cbn [mbind result_bind].
  destruct (decide (- 2 ^ 31 <= y < 2 ^ 31)) as [Hy|Hy];
    [|rewrite (pack_signed_raises y Hy); reflexivity].
  rewrite (pack_signed_ok 4 y) by (cbn; lia). cbn [mbind result_bind].
  destruct (decide (- 2 ^ 31 <= z < 2 ^ 31)) as [Hz|Hz];
    [|rewrite (pack_signed_raises z Hz); reflexivity].
  rewrite (pack_signed_ok 4 z) by (cbn; lia). cbn [mbind result_bind].
  rewrite pack_unsigned_raises; [reflexivity|]. cbn. tauto.
Qed.


Lemma pack_point_length (x y z intensity : Z) (bs : list byte) :
  pack_point x y z intensity = Returned bs -> length bs = 13%nat.
Proof.
  intros H.
  destruct (decide (Vocab.point_in_range x y z intensity)) as [Hin|Hout].
  - rewrite (pack_point_in_range _ _ _ _ Hin) in H. injection H as Hbs.
    subst bs. reflexivity.
  - rewrite (pack_point_out_of_range _ _ _ _ Hout) in H. discriminate.
Qed.



Lemma pack_unsigned_length (width : nat) (v : Z) (bs : list byte) :
  pack_unsigned width v = Returned bs -> length bs = width.
Proof.
  unfold pack_unsigned.
  destruct ((0 <=? v) && (v <? 2 ^ (8 * Z.of_nat width))); [|discriminate].
  intros [= <-]. apply le_bytes_length.
Qed.

Lemma pack_points_length (draws : nat -> point_draws) (packet_count : Z)
    (indices : list nat) (points_data out : list byte) :
  pack_points draws packet_count indices points_data = Returned out ->
  length out = (length points_data + 13 * length indices)%nat.
Proof.
  revert points_data. induction indices as [|i indices IH]; intros points_data.
  - cbn. intros [= <-]. lia.
  - cbn [pack_points].
    destruct (_generate_fake_point (draws i) (Z.of_nat i) packet_count)
      as [[[x y] z] intensity].
    destruct (pack_point x y z intensity) as [bs|e] eqn:Hp; [|discriminate].
    cbn [mbind result_bind]. intros H. apply IH in H.
    rewrite H, length_app, (pack_point_length _ _ _ _ _ Hp). cbn [length]. lia.
Qed.

Lemma created_packet_length (clock : Q) (draws : nat -> point_draws)
    (packet_count : Z) (packet : list byte) :
  _create_fake_packet clock draws packet_count = Returned packet ->
  length packet = 1318%nat.
Proof.
  unfold _create_fake_packet, pack_header.
  rewrite !(pack_unsigned_ok 1) by (cbn; lia).
  rewrite (pack_unsigned_ok 4) by (cbn; lia).
  cbn [mbind result_bind].
  destruct (pack_unsigned 8 _) as [ts|e] eqn:Hts; [|discriminate].
  cbn [mbind result_bind].
  destruct (pack_points draws packet_count (seq 0 100) []) as [pts|e] eqn:Hpts;
    [|discriminate].
  cbn [mbind result_bind]. intros [= <-].
  apply pack_points_length in Hpts. apply pack_unsigned_length in Hts.
  cbn [app length le_bytes]. rewrite length_app, Hts, Hpts, length_seq.
  reflexivity.
Qed.

Lemma create_fake_packet_returns (clock : Q) (draws : nat -> point_draws)
    (packet_count : Z) :
  (0 <= clock * 1000000000)%Q ->
  (clock * 1000000000 < inject_Z (2 ^ 64))%Q ->
  (forall i, (i < 100)%nat -> draws_in_range (draws i)) ->
  exists packet,
    _create_fake_packet clock draws packet_count = Returned packet.
Proof.
  intros H0 H64 Hd. pose proof (int_nonneg_lt _ _ H0 H64) as Hts.
  unfold _create_fake_packet, pack_header.
  rewrite !(pack_unsigned_ok 1) by (cbn; lia).
  rewrite (pack_unsigned_ok 4) by (cbn; lia).
  rewrite (pack_unsigned_ok 8) by (cbn; lia).
  cbn [mbind result_bind]. rewrite pack_points_ok.
  - eexists. reflexivity.
  - intros i Hi. apply Hd. apply elem_of_seq in Hi. lia.
Qed.

(** X11. Every frame [_create_fake_packet] returns has 1318 bytes,
    whatever the clock, the draws and the packet count. *)
Theorem created_packet_always_1318 (clock : Q) (draws : nat -> point_draws)
    (packet_count : Z) (packet : list byte) :
  _create_fake_packet clock draws packet_count = Returned packet ->
  length packet = 1318%nat.
Proof.
  unfold _create_fake_packet, pack_header.
  rewrite !(pack_unsigned_ok 1) by (cbn; lia).
  rewrite (pack_unsigned_ok 4) by (cbn; lia).
  cbn [mbind result_bind].
  destruct (pack_unsigned 8 _) as [ts|e] eqn:Hts; [|discriminate].
  cbn [mbind result_bind].
  destruct (pack_points draws packet_count (seq 0 100) []) as [pts|e] eqn:Hpts;
    [|discriminate].
  cbn [mbind result_bind]. intros [= <-].
  apply pack_points_length in Hpts. apply pack_unsigned_length in Hts.
  cbn [app length le_bytes]. rewrite length_app, Hts, Hpts, length_seq.
  reflexivity.
Qed.

Lemma created_packet_always_1318_witness :
  exists packet,
    _create_fake_packet (3400000001 # 2) (fun _ => Spec.steady_draws) 10
    = Returned packet /\
    length packet = 1318%nat.
Proof.
  destruct (create_fake_packet_returns (3400000001 # 2)
              (fun _ => Spec.steady_draws) 10) as [packet Hpacket].
  - unfold Qle; cbn; lia.
  - reflexivity.
  - intros i _. exact steady_draws_in_range.
  - exists packet. split; [exact Hpacket|].
    exact (created_packet_always_1318 _ _ _ _ Hpacket).
Defined.

Lemma producer_lookup (self : simulator) (ticks : list producer_tick)
    (packet_count : Z) (k : nat) (addr : address) (packet : list byte) :
  _generate_fake_data_from self packet_count ticks !! k = Some (addr, packet) ->
  addr = (_computerIP self, _dataPort self) /\
  exists tick,
    ticks !! k = Some tick /\ Vocab.tick_sends tick /\
    _create_fake_packet (tick_clock tick) (tick_draws tick)
      (packet_count + Z.of_nat k) = Returned packet.
Proof.
  revert packet_count k. induction ticks as [|tick ticks IH]; intros pc k.
  - cbn. discriminate.
  - cbn [_generate_fake_data_from].
    destruct (tick_flags tick) eqn:Hf; [|discriminate].
    destruct (_create_fake_packet (tick_clock tick) (tick_draws tick) pc)
      as [pkt|e] eqn:Hpkt; [|discriminate].
    destruct (tick_sendto tick) as [[]|e] eqn:Hs; [|discriminate].
    destruct k as [|k].
    + cbn. intros [= <- <-]. split; [reflexivity|].
      exists tick. split; [reflexivity|]. split; [split; assumption|].
      rewrite Z.add_0_r. exact Hpkt.
    + cbn [lookup list_lookup]. intros H. apply IH in H as [Ha [t [Ht [Hsend Hp]]]].
      split; [exact Ha|]. exists t. split; [exact Ht|]. split; [exact Hsend|].
      rewrite <- Hp. f_equal. lia.
Qed.

Lemma producer_prefix_sends (self : simulator) (ticks : list producer_tick)
    (packet_count : Z) (k j : nat) :
  (k < length (_generate_fake_data_from self packet_count ticks))%nat ->
  (j <= k)%nat ->
  exists tick, ticks !! j = Some tick /\ Vocab.tick_sends tick.
Proof.
  intros Hk Hj.
  assert (Hlt : (j < length (_generate_fake_data_from self packet_count ticks))%nat) by lia.
  apply lookup_lt_is_Some_2 in Hlt as [[addr pkt] H].
  apply producer_lookup in H as [_ [tick [Ht [Hs _]]]].
  exists tick. split; assumption.
Qed.

(** X13. Every datagram the producer thread sends goes to
    (_computerIP, _dataPort), is a 1318-byte frame, and the k-th one
    is the frame built with packet_count k on the k-th pass; all
    passes up to it found the flags set and a working [sendto]. *)
Theorem producer_sent_datagrams (self : simulator)
    (ticks : list producer_tick) (k : nat) (addr : address)
    (packet : list byte) :
  _generate_fake_data self ticks !! k = Some (addr, packet) ->
  addr = (_computerIP self, _dataPort self) /\
  length packet = 1318%nat /\
  (exists tick,
     ticks !! k = Some tick /\
     _create_fake_packet (tick_clock tick) (tick_draws tick) (Z.of_nat k)
     = Returned packet) /\
  (forall j, (j <= k)%nat ->
     exists tick, ticks !! j = Some tick /\ Vocab.tick_sends tick).
Proof.
  unfold _generate_fake_data. intros H.
  pose proof (lookup_lt_Some _ _ _ H) as Hlt.
  pose proof (producer_lookup _ _ _ _ _ _ H) as [Ha [tick [Ht [Hs Hp]]]].
  rewrite Z.add_0_l in Hp.
  split; [exact Ha|]. split; [exact (created_packet_length _ _ _ _ Hp)|].
  split; [exists tick; split; assumption|].
  intros j Hj. eapply producer_prefix_sends; eassumption.
Qed.

Lemma producer_sent_datagrams_witness :
  exists addr packet,
    _generate_fake_data Spec.connected_idle.1 Vocab.two_ticks !! 1%nat
    = Some (addr, packet) /\
    addr = ("127.0.0.1"%string, 56001) /\
    length packet = 1318%nat.
Proof.
  destruct (_generate_fake_data Spec.connected_idle.1 Vocab.two_ticks
              !! 1%nat) as [[addr packet]|] eqn:Hsent.
  - exists addr, packet. split; [reflexivity|].
    destruct (producer_sent_datagrams _ _ _ _ _ Hsent) as (Haddr & Hlen & _).
    split; [exact Haddr|exact Hlen].
  - vm_compute in Hsent. discriminate.
Defined.

(** X14. Once a pass finds the flags cleared or [sendto] failing,
    the producer sends nothing further: at most k datagrams leave when
    pass k does not send. *)
Theorem producer_stops (self : simulator) (ticks : list producer_tick)
    (k : nat) (tick : producer_tick) :
  ticks !! k = Some tick ->
  ~ Vocab.tick_sends tick ->
  (length (_generate_fake_data self ticks) <= k)%nat.
Proof.
  intros Ht Hno. unfold _generate_fake_data.
  destruct (decide (length (_generate_fake_data_from self 0 ticks) <= k)%nat)
    as [H|H]; [exact H|].
  exfalso. apply Hno.
  destruct (producer_prefix_sends self ticks 0 k k) as [t [Ht' Hs]]; [lia|lia|].
  congruence.
Qed.

Lemma producer_stops_witness :
  Vocab.three_ticks !! 2%nat = Some (Vocab.steady_tick false (Returned tt)) /\
  ~ Vocab.tick_sends (Vocab.steady_tick false (Returned tt)) /\
  (length (_generate_fake_data Spec.connected_idle.1 Vocab.three_ticks)
   <= 2)%nat.
Proof.
  assert (Hno : ~ Vocab.tick_sends (Vocab.steady_tick false (Returned tt)))
    by (intros [Hflags _]; discriminate).
  split; [reflexivity|]. split; [exact Hno|].
  exact (producer_stops Spec.connected_idle.1 Vocab.three_ticks 2
           (Vocab.steady_tick false (Returned tt)) eq_refl Hno).
Defined.

(** X15. While the flags stay set, [sendto] works, the clock fits 64
    bits of nanoseconds and the draws are in range, the producer
    sends one datagram per pass. *)
Theorem producer_runs (self : simulator) (ticks : list producer_tick) :
  Forall Vocab.tick_healthy ticks ->
  length (_generate_fake_data self ticks) = length ticks.
Proof.
  unfold _generate_fake_data. generalize 0. intros pc H. revert pc.
  induction H as [|tick ticks [[Hf Hs] [H0 [H64 Hd]]] _ IH]; intros pc;
    [reflexivity|].
  cbn [_generate_fake_data_from]. rewrite Hf, Hs.
  destruct (create_fake_packet_returns (tick_clock tick) (tick_draws tick) pc
              H0 H64 Hd) as [pkt Hpkt].
  rewrite Hpkt. cbn [length]. rewrite IH. reflexivity.
Qed.

Lemma steady_tick_healthy :
  Vocab.tick_healthy (Vocab.steady_tick true (Returned tt)).
Proof.
  split; [split; reflexivity|]. split; [unfold Qle; cbn; lia|].
  split; [reflexivity|]. intros i _. exact steady_draws_in_range.
Qed.

Lemma producer_runs_witness :
  Forall Vocab.tick_healthy Vocab.two_ticks /\
  length (_generate_fake_data Spec.connected_idle.1 Vocab.two_ticks) = 2%nat.
Proof.
  assert (H : Forall Vocab.tick_healthy Vocab.two_ticks)
    by (unfold Vocab.two_ticks;
        repeat (apply Forall_cons_2; [exact steady_tick_healthy|]);
        apply Forall_nil_2).
  split; [exact H|].
  exact (producer_runs Spec.connected_idle.1 Vocab.two_ticks H).
Defined.

(** X12. With draws in range, a generated point lies 1.5 to 3 m
    away on every tenth packet and 3 to 8 m away otherwise; the first
    50 points of a packet stay within 90 mm of the axis with
    intensity 200..255, the others within 500 mm with intensity
    10..150. *)
Theorem fake_point_shape (d : point_draws) (point_idx packet_count : Z) :
  draws_in_range d ->
  let '(x, y, z, intensity) :=
    _generate_fake_point d point_idx packet_count in
  (packet_count mod 10 = 0 -> 1500 <= x <= 3000) /\
  (packet_count mod 10 <> 0 -> 3000 <= x <= 8000) /\
  (point_idx < 50 ->
   -90 <= y <= 90 /\ -90 <= z <= 90 /\ 200 <= intensity <= 255) /\
  (50 <= point_idx ->
   -500 <= y <= 500 /\ -500 <= z <= 500 /\ 10 <= intensity <= 150).
Proof.
  intros (Hfar & Hnear & Hrad & Hcos & Hsin & Hy & Hz & Hc & Hp).
  unfold _generate_fake_point.
  assert (Hx : (packet_count mod 10 = 0 ->
                1500 <= int ((if packet_count mod 10 =? 0
                              then 2 + uniform_near d else 5 + uniform_far d)
                             * 1000) <= 3000) /\
               (packet_count mod 10 <> 0 ->
                3000 <= int ((if packet_count mod 10 =? 0
                              then 2 + uniform_near d else 5 + uniform_far d)
                             * 1000) <= 8000)).
  { destruct (Z.eqb_spec (packet_count mod 10) 0) as [He|He]; split;
      intros H; try contradiction.
    - apply int_bounds. change (inject_Z 1500) with 1500%Q.
      change (inject_Z 3000) with 3000%Q. lra.
    - apply int_bounds. change (inject_Z 3000) with 3000%Q.
      change (inject_Z 8000) with 8000%Q. lra. }
  destruct Hx as [Hx1 Hx2].
  destruct (Z.ltb_spec point_idx 50) as [Hidx|Hidx].
  - split; [exact Hx1|]. split; [exact Hx2|]. split; [|intros; lia].
    intros _. split; [|split; [|lia]].
    + apply int_bounds. change (inject_Z (-90)) with (-90)%Q.
      change (inject_Z 90) with 90%Q. nra.
    + apply int_bounds. change (inject_Z (-90)) with (-90)%Q.
      change (inject_Z 90) with 90%Q. nra.
  - split; [exact Hx1|]. split; [exact Hx2|]. split; [intros; lia|].
    intros _. split; [|split; [|lia]].
    + apply int_bounds. change (inject_Z (-500)) with (-500)%Q.
      change (inject_Z 500) with 500%Q. lra.
    + apply int_bounds. change (inject_Z (-500)) with (-500)%Q.
      change (inject_Z 500) with 500%Q. lra.
Qed.

Lemma fake_point_shape_witness :
  draws_in_range Spec.steady_draws /\
  200 <= (_generate_fake_point Spec.steady_draws 3 7).2 <= 255.
Proof.
  split; [exact steady_draws_in_range|].
  pose proof (fake_point_shape Spec.steady_draws 3 7 steady_draws_in_range)
    as P.
  destruct (_generate_fake_point Spec.steady_draws 3 7)
    as [[[x y] z] intensity].
  destruct P as (_ & _ & Pcenter & _).
  exact (proj2 (proj2 (Pcenter ltac:(lia)))).
Defined.

End Producer.

(** ** Further properties of get_berthing_history *)

Section HistoryEdges.


Lemma kept_nonpositive_limit (h : list (Q * Q)) (limit : Z) :
  limit <= 0 ->
  (if Z.of_nat (length h) >? limit
   then BerthingData.slice_from h (- limit) else h)
  = drop (Z.to_nat (- limit)) h.
Proof.
  intros Hle.
  destruct (Z.gtb_spec (Z.of_nat (length h)) limit) as [Hgt|Hngt].
  - unfold BerthingData.slice_from.
    replace (- limit <? 0) with false by (symmetry; apply Z.ltb_ge; lia).
    destruct (Z.le_ge_cases (- limit) (Z.of_nat (length h))) as [H|H].
    + rewrite Z.min_l by lia. reflexivity.
    + rewrite Z.min_r by lia. rewrite Nat2Z.id.
      rewrite drop_all. symmetry. apply drop_ge. lia.
  - assert (Hlen : length h = 0%nat) by lia.
    destruct h; [|discriminate]. now rewrite drop_nil.
Qed.

(** X16. With a limit of 0 or below the endpoint does not return at
    most [limit] points: it drops the first -limit samples and
    returns all the others, so limit 0 returns the whole history. *)
Theorem history_nonpositive_limit (mgr : lidar_manager) (sensor_id : string)
    (limit : Z) (h : list (Q * Q)) :
  vessel_speed_calculators mgr !! sensor_id = Some h ->
  limit <= 0 ->
  exists r,
    BerthingData.get_berthing_history mgr sensor_id limit = Response r /\
    BerthingData.h_timestamp <$> BerthingData.history r
    = fst <$> drop (Z.to_nat (- limit)) h /\
    BerthingData.count r = (length h - Z.to_nat (- limit))%nat /\
    (limit = 0 -> BerthingData.count r = length h).
Proof.
  intros Hcalc Hle.
  pose proof (get_berthing_history_response mgr sensor_id limit h Hcalc)
    as Hresp. cbn zeta in Hresp.
  rewrite (kept_nonpositive_limit h limit Hle) in Hresp.
  eexists. split; [exact Hresp|].
  cbn [BerthingData.history BerthingData.count].
  split; [apply entries_from_timestamps|].
  rewrite entries_from_length, length_drop.
  split; [reflexivity|]. intros ->. cbn. lia.
Qed.

Lemma history_nonpositive_limit_witness :
  vessel_speed_calculators (Spec.with_history Spec.four_samples)
    !! "lidar_1"%string = Some Spec.four_samples /\
  -1 <= 0 /\
  exists r,
    BerthingData.get_berthing_history
      (Spec.with_history Spec.four_samples) "lidar_1" (-1) = Response r /\
    BerthingData.count r = 3%nat.
Proof.
  assert (Hle : -1 <= 0) by lia.
  split; [reflexivity|]. split; [exact Hle|].
  destruct (history_nonpositive_limit (Spec.with_history Spec.four_samples)
              "lidar_1" (-1) Spec.four_samples eq_refl Hle)
    as [r [Hresp [_ [Hcount _]]]].
  exists r. split; [exact Hresp|exact Hcount].
Defined.

(** X17. [get_berthing_history] answers 404 with the message naming
    the sensor exactly when the sensor has no speed calculator; it
    raises no other HTTPException and always answers. *)
Theorem history_never_500 (mgr : lidar_manager) (sensor_id : string)
    (limit : Z) :
  (vessel_speed_calculators mgr !! sensor_id = None ->
   BerthingData.get_berthing_history mgr sensor_id limit
   = HTTPException 404
       ("No speed calculator found for sensor " ++ sensor_id)) /\
  (forall status_code detail,
     BerthingData.get_berthing_history mgr sensor_id limit
     = HTTPException status_code detail ->
     status_code = 404 /\ vessel_speed_calculators mgr !! sensor_id = None) /\
  BerthingData.get_berthing_history mgr sensor_id limit <> NoResponse.
Proof.
  split; [|split].
  - intros H. unfold BerthingData.get_berthing_history. now rewrite H.
  - intros code detail H.
    destruct (vessel_speed_calculators mgr !! sensor_id) as [h|] eqn:Hc.
    + rewrite (get_berthing_history_response mgr sensor_id limit h Hc) in H.
      discriminate.
    + unfold BerthingData.get_berthing_history in H. rewrite Hc in H.
      injection H as <- _. split; reflexivity.
  - destruct (vessel_speed_calculators mgr !! sensor_id) as [h|] eqn:Hc.
    + rewrite (get_berthing_history_response mgr sensor_id limit h Hc).
      discriminate.
    + unfold BerthingData.get_berthing_history. rewrite Hc. discriminate.
Qed.

Lemma history_never_500_witness :
  vessel_speed_calculators (Spec.with_history Spec.four_samples)
    !! "lidar_9"%string = None /\
  BerthingData.get_berthing_history
    (Spec.with_history Spec.four_samples) "lidar_9" 100
  = HTTPException 404 "No speed calculator found for sensor lidar_9".
Proof.
  split; [reflexivity|].
  exact (proj1 (history_never_500 (Spec.with_history Spec.four_samples)
                  "lidar_9" 100) eq_refl).
Defined.
Lemma round_half_even_close (q : Q) :
  (Qabs (inject_Z (round_half_even q) - q) <= 1 # 2)%Q.
Proof.
  unfold round_half_even.
  pose proof (Qfloor_le q) as Hlo. pose proof (Qlt_floor q) as Hhi.
  rewrite inject_Z_plus in Hhi. change (inject_Z 1) with 1%Q in Hhi.
  apply Qabs_Qle_condition.
  destruct (q - inject_Z (Qfloor q) ?= 1 # 2)%Q eqn:Hc.
  - apply Qeq_alt in Hc. destruct (Z.even (Qfloor q)).
    + split; lra.
    + rewrite inject_Z_plus. change (inject_Z 1) with 1%Q. split; lra.
  - apply Qlt_alt in Hc. split; lra.
  - apply Qgt_alt in Hc. rewrite inject_Z_plus.
    change (inject_Z 1) with 1%Q. split; lra.
Qed.

Lemma Qround_nd_close (q : Q) (ndigits : nat) :
  (Qabs (Qround_nd q ndigits - q)
   <= (1 # 2) / inject_Z (10 ^ Z.of_nat ndigits))%Q.
Proof.
  unfold Qround_nd. rewrite Qred_correct.
  set (s := inject_Z (10 ^ Z.of_nat ndigits)).
  assert (Hs : (0 < s)%Q).
  { unfold s. change 0%Q with (inject_Z 0). rewrite <- Zlt_Qlt.
    apply Z.pow_pos_nonneg; lia. }
  pose proof (round_half_even_close (q * s)) as H.
  set (r := inject_Z (round_half_even (q * s))) in *.
  assert (Heq : (r / s - q == (r - q * s) / s)%Q) by (field; lra).
  rewrite Heq. unfold Qdiv. rewrite Qabs_Qmult.
  rewrite (Qabs_pos (/ s)) by (apply Qlt_le_weak, Qinv_lt_0_compat; exact Hs).
  apply Qmult_le_compat_r; [exact H|].
  apply Qlt_le_weak, Qinv_lt_0_compat. exact Hs.
Qed.

(** X18. Each returned entry keeps the timestamp of its sample; its
    distance is within 0.0005 m of the sample's, its speed within
    0.00005 m/s of the guarded quotient and its speed_mm_s within
    0.05 of a thousand times that quotient. *)
Theorem history_rounding_error (mgr : lidar_manager) (sensor_id : string)
    (limit : Z) (h : list (Q * Q)) :
  vessel_speed_calculators mgr !! sensor_id = Some h ->
  exists kept r,
    kept `suffix_of` h /\
    BerthingData.get_berthing_history mgr sensor_id limit = Response r /\
    forall i e,
      BerthingData.history r !! i = Some e ->
      exists t d,
        kept !! i = Some (t, d) /\
        BerthingData.h_timestamp e = t /\
        (Qabs (BerthingData.h_distance e - d) <= 1 # 2000)%Q /\
        (Qabs (BerthingData.h_speed e - Spec.speed_formula kept i)
         <= 1 # 20000)%Q /\
        (Qabs (BerthingData.h_speed_mm_s e
               - Spec.speed_formula kept i * 1000) <= 1 # 20)%Q.
Proof.
  intros Hcalc.
  pose proof (get_berthing_history_response mgr sensor_id limit h Hcalc)
    as Hresp. cbn zeta in Hresp.
  destruct (kept_is_drop h limit) as [k Hk].
  set (kept := if Z.of_nat (length h) >? limit
               then BerthingData.slice_from h (- limit) else h) in *.
  eexists kept, _. split; [rewrite Hk; apply suffix_drop|].
  split; [exact Hresp|]. cbn [BerthingData.history].
  intros i e He. rewrite entries_from_lookup in He.
  destruct (kept !! i) as [[t d]|]; [|discriminate].
  cbn [fmap option_fmap option_map] in He. injection He as <-. exists t, d.
  split; [reflexivity|]. split; [reflexivity|].
  unfold Spec.entry_of.
  cbn [BerthingData.h_distance BerthingData.h_speed
       BerthingData.h_speed_mm_s fst snd].
  split; [|split];
    (eapply Qle_trans; [apply Qround_nd_close|]; vm_compute; discriminate).
Qed.

Lemma history_rounding_error_witness :
  vessel_speed_calculators (Spec.with_history Spec.slow_departure)
    !! "lidar_1"%string = Some Spec.slow_departure /\
  exists kept r,
    kept `suffix_of` Spec.slow_departure /\
    BerthingData.get_berthing_history
      (Spec.with_history Spec.slow_departure) "lidar_1" 100 = Response r.
Proof.
  split; [reflexivity|].
  destruct (history_rounding_error (Spec.with_history Spec.slow_departure)
              "lidar_1" 100 Spec.slow_departure eq_refl)
    as [kept [r [Hsuffix [Hresp _]]]].
  exists kept, r. split; assumption.
Defined.

End HistoryEdges.

(** ** Further properties of get_berthing_summary *)

Section SummaryEntries.


Lemma summary_fold_sensors (mgr : lidar_manager) (ids : list string)
    (st : BerthingData.summary_locals) (sensor_id : string) :
  BerthingData.l_sensors (fold_left (BerthingData.summary_step mgr) ids st)
    !! sensor_id
  = if bool_decide (sensor_id ∈ ids)
       && bool_decide (is_Some (berthing_mode_center_stats mgr !! sensor_id))
    then Vocab.summary_entry <$> berthing_mode_center_stats mgr !! sensor_id
    else BerthingData.l_sensors st !! sensor_id.
Proof.
  revert st. induction ids as [|sid ids IH]; intros st; [reflexivity|].
  cbn [fold_left]. rewrite IH.
  destruct (decide (sensor_id = sid)) as [->|Hne].
  - rewrite (bool_decide_eq_true_2 (sid ∈ sid :: ids)) by left.
    unfold BerthingData.summary_step.
    destruct (berthing_mode_center_stats mgr !! sid) as [stats|] eqn:Hs.
    + rewrite (bool_decide_eq_true_2 (is_Some (Some stats))) by eauto.
      rewrite !andb_true_r. cbn [BerthingData.l_sensors].
      destruct (bool_decide (sid ∈ ids)); [reflexivity|].
      cbn. rewrite lookup_insert_eq. reflexivity.
    + rewrite (bool_decide_eq_false_2 (is_Some None))
        by (intros [? ?]; discriminate).
      rewrite !andb_false_r. reflexivity.
  - assert (Hmem : bool_decide (sensor_id ∈ sid :: ids)
                   = bool_decide (sensor_id ∈ ids)).
    { apply bool_decide_ext. rewrite elem_of_cons. tauto. }
    rewrite Hmem.
    destruct (bool_decide (sensor_id ∈ ids) && _); [reflexivity|].
    unfold BerthingData.summary_step.
    destruct (berthing_mode_center_stats mgr !! sid); [|reflexivity].
    cbn [BerthingData.l_sensors]. apply lookup_insert_ne. congruence.
Qed.

(** X19. The "sensors" dictionary of the summary has an entry
    exactly for the listed sensors that have centre statistics (a
    listed sensor without statistics is skipped), holding the rounded
    distance, the rounded |speed| in mm/s, the moving flag and the
    phase, with the defaults 0.0, 0.0, False and "unknown". *)
Theorem summary_sensor_entries (mgr : lidar_manager) (sensor_id : string) :
  BerthingData.summary_sensors (BerthingData.get_berthing_summary mgr)
    !! sensor_id
  = if bool_decide (sensor_id ∈ berthing_mode_sensors mgr)
    then Vocab.summary_entry <$> berthing_mode_center_stats mgr !! sensor_id
    else None.
Proof.
  unfold BerthingData.get_berthing_summary, BerthingData.summary_loop.
  cbn [BerthingData.summary_sensors]. rewrite summary_fold_sensors.
  destruct (bool_decide (sensor_id ∈ berthing_mode_sensors mgr));
    [|reflexivity].
  destruct (berthing_mode_center_stats mgr !! sensor_id); reflexivity.
Qed.

Lemma summary_fold_max (mgr : lidar_manager) (ids : list string)
    (st : BerthingData.summary_locals) :
  BerthingData.l_max_speed (fold_left (BerthingData.summary_step mgr) ids st)
  = fold_left Vocab.max_update (Vocab.abs_speeds mgr ids) (BerthingData.l_max_speed st).
Proof.
  revert st. induction ids as [|sid ids IH]; intros st; [reflexivity|].
  cbn [fold_left]. rewrite IH. unfold Vocab.abs_speeds, Spec.tuples_of.
  cbn [omap list_omap]. unfold BerthingData.summary_step.
  destruct (berthing_mode_center_stats mgr !! sid) as [stats|]; reflexivity.
Qed.

Lemma flt_false_fle_numbers (v m : pyfloat) :
  flt m v = false -> v <> NaN -> m <> NaN -> fle v m = true.
Proof.
  destruct v as [x| | |], m as [y| | |]; simpl; intros H1 H2 H3;
    try discriminate; try reflexivity; try congruence.
  apply Qleb_le. apply Qltb_ge in H1. exact H1.
Qed.

Lemma flt_not_nan (a b : pyfloat) : flt a b = true -> a <> NaN /\ b <> NaN.
Proof. destruct a, b; simpl; intros; try discriminate; split; discriminate. Qed.

Lemma fle_trans_l (a b c : pyfloat) :
  fle a b = true -> flt b c = true -> fle a c = true.
Proof.
  destruct a as [x| | |], b as [y| | |], c as [z| | |];
    simpl; try discriminate; try reflexivity.
  rewrite Qltb_lt, !Qleb_le. intros H1 H2.
  apply Qlt_le_weak. eapply Qle_lt_trans; eassumption.
Qed.

Lemma fle_refl_number (v : pyfloat) : v <> NaN -> fle v v = true.
Proof.
  destruct v as [x| | |]; simpl; try reflexivity; try congruence.
  intros _. apply Qleb_le, Qle_refl.
Qed.

Lemma max_update_invariant (rest seen : list pyfloat) (m : pyfloat) :
  m <> NaN -> fle (Fin 0) m = true ->
  (m = Fin 0 \/ m ∈ seen) ->
  (forall v, v ∈ seen -> v <> NaN -> fle v m = true) ->
  let m' := fold_left Vocab.max_update rest m in
  m' <> NaN /\ fle (Fin 0) m' = true /\
  (m' = Fin 0 \/ m' ∈ seen ++ rest) /\
  (forall v, v ∈ seen ++ rest -> v <> NaN -> fle v m' = true).
Proof.
  revert seen m. induction rest as [|v rest IH]; intros seen m Hn H0 Hm Hle.
  - cbn. rewrite app_nil_r. repeat split; assumption.
  - cbn [fold_left].
    assert (Hcons : seen ++ v :: rest = (seen ++ [v]) ++ rest)
      by (rewrite <- app_assoc; reflexivity).
    rewrite Hcons.
    assert (Hstep : Vocab.max_update m v = if flt m v then v else m) by reflexivity.
    rewrite Hstep. clear Hstep.
    destruct (flt m v) eqn:Hlt.
    + pose proof (flt_not_nan _ _ Hlt) as [_ Hv]. apply IH.
      * exact Hv.
      * eapply fle_trans_l; eassumption.
      * right. apply elem_of_app. right. apply list_elem_of_singleton. reflexivity.
      * intros u Hu Hun. apply elem_of_app in Hu as [Hu|Hu].
        -- eapply fle_trans_l; [apply Hle; assumption|exact Hlt].
        -- apply list_elem_of_singleton in Hu. subst u.
           apply fle_refl_number. exact Hv.
    + apply IH.
      * exact Hn.
      * exact H0.
      * destruct Hm as [Hm|Hm]; [left; exact Hm|right].
        apply elem_of_app. left. exact Hm.
      * intros u Hu Hun. apply elem_of_app in Hu as [Hu|Hu].
        -- apply Hle; assumption.
        -- apply list_elem_of_singleton in Hu. subst u.
           apply flt_false_fle_numbers; assumption.
Qed.

(** X20. max_speed_mm_s is round(1000 m, 1) where m is never NaN,
    is at least 0, is 0 or one of the |speed| values met, and is at
    least every |speed| that is a number: the largest absolute
    speed, NaN readings ignored. *)
Theorem summary_max_speed (mgr : lidar_manager) :
  let speeds := Vocab.abs_speeds mgr (berthing_mode_sensors mgr) in
  exists m,
    BerthingData.max_speed_mm_s (BerthingData.get_berthing_summary mgr)
    = round (fmul m (Fin 1000)) 1 /\
    m <> NaN /\
    fle (Fin 0) m = true /\
    (m = Fin 0 \/ m ∈ speeds) /\
    (forall v, v ∈ speeds -> v <> NaN -> fle v m = true).
Proof.
  cbn zeta.
  exists (BerthingData.l_max_speed (BerthingData.summary_loop mgr)).
  split; [reflexivity|].
  unfold BerthingData.summary_loop. rewrite summary_fold_max.
  apply (max_update_invariant _ [] (Fin 0)).
  - discriminate.
  - reflexivity.
  - left. reflexivity.
  - intros v Hv. apply not_elem_of_nil in Hv. destruct Hv.
Qed.

End SummaryEntries.

(** ** The per-sensor views and their listings *)

Section SensorViews.

Import BerthingDataCore.

Lemma fetch_cases (mgr : lidar_manager) (sensor_id : string) :
  ((sensor_id ∉ sensors mgr) /\
   fetch_berthing_data_for_sensor mgr sensor_id
   = NotFound sensor_id ("Sensor " ++ sensor_id ++ " not found.")) \/
  (sensor_id ∈ sensors mgr /\ stream_active mgr !! sensor_id <> Some true /\
   fetch_berthing_data_for_sensor mgr sensor_id
   = StreamInactive sensor_id
       ("Data stream not active for sensor " ++ sensor_id ++ ".")) \/
  (sensor_id ∈ sensors mgr /\ stream_active mgr !! sensor_id = Some true /\
   exists view, fetch_berthing_data_for_sensor mgr sensor_id = Active view
                /\ BerthingDataCore.sensor_id view = sensor_id).
Proof.
  unfold fetch_berthing_data_for_sensor.
  destruct (decide (sensor_id ∈ sensors mgr)) as [Hin|Hout].
  - rewrite (bool_decide_eq_true_2 _ Hin). cbn [negb]. right.
    destruct (stream_active mgr !! sensor_id) as [[|]|] eqn:Hs; cbn.
    + right. split; [exact Hin|]. split; [reflexivity|].
      eexists. split; reflexivity.
    + left. split; [exact Hin|]. split; [discriminate|reflexivity].
    + left. split; [exact Hin|]. split; [discriminate|reflexivity].
  - rewrite (bool_decide_eq_false_2 _ Hout). cbn [negb]. left.
    split; [exact Hout|reflexivity].
Qed.

Lemma get_berthing_data_cases (mgr : lidar_manager) (sensor_id : string) :
  (sensor_id ∉ sensors mgr ->
   BerthingDataSensor.get_berthing_data mgr sensor_id
   = BerthingDataSensor.RaiseHTTP 404
       ("Sensor " ++ sensor_id ++ " not found.")) /\
  (sensor_id ∈ sensors mgr -> stream_active mgr !! sensor_id <> Some true ->
   BerthingDataSensor.get_berthing_data mgr sensor_id
   = BerthingDataSensor.RaiseHTTP 400
       ("Data stream not active for sensor " ++ sensor_id ++ ".")) /\
  (sensor_id ∈ sensors mgr -> stream_active mgr !! sensor_id = Some true ->
   exists view,
     fetch_berthing_data_for_sensor mgr sensor_id = Active view /\
     BerthingDataSensor.get_berthing_data mgr sensor_id
     = BerthingDataSensor.Return (Active view)) /\
  (forall status_code detail,
     BerthingDataSensor.get_berthing_data mgr sensor_id
     = BerthingDataSensor.RaiseHTTP status_code detail ->
     status_code = 404 \/ status_code = 400).
Proof.
  unfold BerthingDataSensor.get_berthing_data.
  destruct (fetch_cases mgr sensor_id)
    as [[Hout ->]|[(Hin & Hs & ->)|(Hin & Hs & view & -> & _)]]; cbn.
  - repeat split; try (intros; contradiction).
    + intros c d [= <- _]. left. reflexivity.
  - repeat split; try (intros; contradiction).
    + intros c d [= <- _]. right. reflexivity.
  - repeat split; try (intros; contradiction).
    + intros _ _. exists view. split; reflexivity.
    + intros c d H. discriminate.
Qed.

(** X21. [get_berthing_data] raises 404 for a sensor the manager
    does not know, 400 for a known sensor whose stream is not active,
    and returns the active view otherwise; it raises no other
    status. *)
Theorem get_berthing_data_outcomes (mgr : lidar_manager) (sensor_id : string) :
  (sensor_id ∉ sensors mgr ->
   BerthingDataSensor.get_berthing_data mgr sensor_id
   = BerthingDataSensor.RaiseHTTP 404
       ("Sensor " ++ sensor_id ++ " not found.")) /\
  (sensor_id ∈ sensors mgr -> stream_active mgr !! sensor_id <> Some true ->
   BerthingDataSensor.get_berthing_data mgr sensor_id
   = BerthingDataSensor.RaiseHTTP 400
       ("Data stream not active for sensor " ++ sensor_id ++ ".")) /\
  (sensor_id ∈ sensors mgr -> stream_active mgr !! sensor_id = Some true ->
   exists view,
     fetch_berthing_data_for_sensor mgr sensor_id = Active view /\
     BerthingDataSensor.get_berthing_data mgr sensor_id
     = BerthingDataSensor.Return (Active view)) /\
  (forall status_code detail,
     BerthingDataSensor.get_berthing_data mgr sensor_id
     = BerthingDataSensor.RaiseHTTP status_code detail ->
     status_code = 404 \/ status_code = 400).
Proof.
  unfold BerthingDataSensor.get_berthing_data.
  destruct (fetch_cases mgr sensor_id)
    as [[Hout ->]|[(Hin & Hs & ->)|(Hin & Hs & view & -> & _)]]; cbn.
  - repeat split; try (intros; contradiction).
    + intros c d [= <- _]. left. reflexivity.
  - repeat split; try (intros; contradiction).
    + intros c d [= <- _]. right. reflexivity.
  - repeat split; try (intros; contradiction).
    + intros _ _. exists view. split; reflexivity.
    + intros c d H. discriminate.
Qed.

Lemma lidar_2_unknown : "lidar_2"%string ∉ sensors Vocab.half_connected.
Proof. cbn. apply not_elem_of_singleton. discriminate. Qed.

Lemma lidar_1_known : "lidar_1"%string ∈ sensors Vocab.half_connected.
Proof. cbn. apply elem_of_singleton. reflexivity. Qed.

Lemma get_berthing_data_outcomes_witness :
  ("lidar_2"%string ∉ sensors Vocab.half_connected) /\
  BerthingDataSensor.get_berthing_data Vocab.half_connected "lidar_2"
  = BerthingDataSensor.RaiseHTTP 404 "Sensor lidar_2 not found.".
Proof.
  split; [exact lidar_2_unknown|].
  exact (proj1 (get_berthing_data_outcomes Vocab.half_connected "lidar_2")
           lidar_2_unknown).
Defined.

Lemma endpoint_fold (mgr : lidar_manager) (ids : list string)
    (acc : gmap string BerthingDataSensor.sensor_entry) (sensor_id : string) :
  fold_left
    (fun (result : gmap string BerthingDataSensor.sensor_entry) sensor_id =>
       if default false (stream_active mgr !! sensor_id) then
         match BerthingDataSensor.get_berthing_data mgr sensor_id with
         | BerthingDataSensor.Return sensor_data =>
             <[sensor_id := BerthingDataSensor.Data sensor_data]> result
         | BerthingDataSensor.RaiseHTTP _ _ =>
             <[sensor_id := BerthingDataSensor.BareError sensor_id]> result
         end
       else result) ids acc !! sensor_id
  = if bool_decide (sensor_id ∈ ids)
       && default false (stream_active mgr !! sensor_id)
    then Some match BerthingDataSensor.get_berthing_data mgr sensor_id with
              | BerthingDataSensor.Return sensor_data =>
                  BerthingDataSensor.Data sensor_data
              | BerthingDataSensor.RaiseHTTP _ _ =>
                  BerthingDataSensor.BareError sensor_id
              end
    else acc !! sensor_id.
Proof.
  revert acc. induction ids as [|sid ids IH]; intros acc; [reflexivity|].
  cbn [fold_left]. rewrite IH.
  destruct (decide (sensor_id = sid)) as [->|Hne].
  - rewrite (bool_decide_eq_true_2 (sid ∈ sid :: ids)) by left.
    destruct (default false (stream_active mgr !! sid)); cbn.
    + rewrite andb_true_r.
      destruct (bool_decide (sid ∈ ids)); [reflexivity|].
      destruct (BerthingDataSensor.get_berthing_data mgr sid);
        apply lookup_insert_eq.
    + rewrite andb_false_r. reflexivity.
  - assert (Hmem : bool_decide (sensor_id ∈ sid :: ids)
                   = bool_decide (sensor_id ∈ ids)).
    { apply bool_decide_ext. rewrite elem_of_cons. tauto. }
    rewrite Hmem.
    destruct (bool_decide (sensor_id ∈ ids) &&
              default false (stream_active mgr !! sensor_id)); [reflexivity|].
    destruct (default false (stream_active mgr !! sid)); [|reflexivity].
    destruct (BerthingDataSensor.get_berthing_data mgr sid);
      apply lookup_insert_ne; congruence.
Qed.

Lemma core_sensors_lookup
    (fetch : string -> result sensor_data) (mgr : lidar_manager) (now : Q)
    (sensor_id : string) :
  all_sensors (get_all_with fetch mgr now) !! sensor_id
  = if bool_decide (sensor_id ∈ berthing_mode_sensors mgr)
       && default false (stream_active mgr !! sensor_id)
    then Some match fetch sensor_id with
              | Returned sensor_data => sensor_data
              | Raised e => ErrorRecord sensor_id (str e)
              end
    else None.
Proof.
  unfold get_all_with. cbn [all_sensors]. rewrite all_sensors_fold.
  reflexivity.
Qed.

Lemma endpoint_sensors_lookup (mgr : lidar_manager) (sensor_id : string) :
  BerthingDataSensor.sensors_out
    (BerthingDataSensor.get_all_berthing_data mgr) !! sensor_id
  = if bool_decide (sensor_id ∈ berthing_mode_sensors mgr)
       && default false (stream_active mgr !! sensor_id)
    then Some match BerthingDataSensor.get_berthing_data mgr sensor_id with
              | BerthingDataSensor.Return sensor_data =>
                  BerthingDataSensor.Data sensor_data
              | BerthingDataSensor.RaiseHTTP _ _ =>
                  BerthingDataSensor.BareError sensor_id
              end
    else None.
Proof.
  unfold BerthingDataSensor.get_all_berthing_data.
  cbn [BerthingDataSensor.sensors_out]. rewrite endpoint_fold. reflexivity.
Qed.

Lemma default_false_Some_true (o : option bool) :
  default false o = true <-> o = Some true.
Proof. destruct o as [[|]|]; cbn; split; congruence. Qed.

(** X22. [get_all_berthing_data] and [get_all_berthing_data_core]
    have entries for the same sensors (those listed with an active
    stream) and agree on every known sensor; for a listed streaming
    sensor the manager does not know, the core reports the
    "not_found" record while the endpoint reports the bare error
    record. *)
Theorem endpoint_and_core_entries (mgr : lidar_manager) (now : Q)
    (sensor_id : string) :
  let listed_streaming :=
    sensor_id ∈ berthing_mode_sensors mgr /\
    stream_active mgr !! sensor_id = Some true in
  let core := all_sensors (get_all_berthing_data_core mgr now) in
  let endpoint :=
    BerthingDataSensor.sensors_out
      (BerthingDataSensor.get_all_berthing_data mgr) in
  (~ listed_streaming ->
   core !! sensor_id = None /\ endpoint !! sensor_id = None) /\
  (listed_streaming -> sensor_id ∈ sensors mgr ->
   exists view,
     core !! sensor_id = Some (Active view) /\
     endpoint !! sensor_id
     = Some (BerthingDataSensor.Data (Active view))) /\
  (listed_streaming -> sensor_id ∉ sensors mgr ->
   core !! sensor_id
   = Some (NotFound sensor_id ("Sensor " ++ sensor_id ++ " not found.")) /\
   endpoint !! sensor_id = Some (BerthingDataSensor.BareError sensor_id)).
Proof.
  cbn zeta. unfold get_all_berthing_data_core.
  rewrite core_sensors_lookup, endpoint_sensors_lookup.
  pose proof (get_berthing_data_cases mgr sensor_id)
    as (H404 & _ & Hok & _).
  split; [|split].
  - intros Hnot.
    destruct (decide (sensor_id ∈ berthing_mode_sensors mgr)) as [Hin|Hout].
    + rewrite (bool_decide_eq_true_2 _ Hin). cbn [andb].
      destruct (default false (stream_active mgr !! sensor_id)) eqn:Hs.
      * apply default_false_Some_true in Hs. exfalso. apply Hnot.
        split; assumption.
      * split; reflexivity.
    + rewrite (bool_decide_eq_false_2 _ Hout). split; reflexivity.
  - intros [Hin Hs] Hknown.
    rewrite (bool_decide_eq_true_2 _ Hin), Hs. cbn [andb default].
    destruct (Hok Hknown Hs) as [view [Hf Hg]]. exists view.
    rewrite Hf, Hg. split; reflexivity.
  - intros [Hin Hs] Hunknown.
    rewrite (bool_decide_eq_true_2 _ Hin), Hs. cbn [andb default].
    rewrite (H404 Hunknown).
    destruct (fetch_cases mgr sensor_id)
      as [[_ ->]|[(Hin' & _)|(Hin' & _)]]; try contradiction.
    split; reflexivity.
Qed.

Lemma endpoint_and_core_entries_witness :
  ("lidar_2"%string ∈ berthing_mode_sensors Vocab.half_connected /\
   stream_active Vocab.half_connected !! "lidar_2"%string = Some true) /\
  ("lidar_2"%string ∉ sensors Vocab.half_connected) /\
  all_sensors (get_all_berthing_data_core Vocab.half_connected 0)
    !! "lidar_2"%string
  = Some (NotFound "lidar_2" "Sensor lidar_2 not found.") /\
  BerthingDataSensor.sensors_out
    (BerthingDataSensor.get_all_berthing_data Vocab.half_connected)
    !! "lidar_2"%string
  = Some (BerthingDataSensor.BareError "lidar_2").
Proof.
  assert (H : "lidar_2"%string ∈ berthing_mode_sensors Vocab.half_connected /\
              stream_active Vocab.half_connected !! "lidar_2"%string
              = Some true).
  { split; [right; left|vm_compute; reflexivity]. }
  split; [exact H|]. split; [exact lidar_2_unknown|].
  exact (proj2 (proj2 (endpoint_and_core_entries Vocab.half_connected 0
                         "lidar_2")) H lidar_2_unknown).
Defined.

Lemma size_list_to_set_le (l : list string) :
  (size (list_to_set l : gset string) <= length l)%nat.
Proof.
  induction l as [|x l IH]; cbn [list_to_set length].
  - rewrite size_empty. lia.
  - rewrite size_union_alt, size_singleton.
    assert (Hsub : (size (list_to_set l ∖ {[x]} : gset string)
                 <= size (list_to_set l : gset string))%nat)
      by (apply subseteq_size; intros y Hy;
          apply elem_of_difference in Hy as [Hy _]; exact Hy).
    lia.
Qed.

(** X23. The keys of the core's "sensors" dictionary are the listed
    sensors with an active stream; "count" is the number of keys, at
    most the number of listed sensors, and equals the number of
    listed streaming sensors when none is listed twice. *)
Theorem core_listing (mgr : lidar_manager) (now : Q) :
  let r := get_all_berthing_data_core mgr now in
  dom (all_sensors r) = list_to_set (Vocab.listed_streaming mgr) /\
  all_count r = size (dom (all_sensors r)) /\
  (all_count r <= length (berthing_mode_sensors mgr))%nat /\
  (NoDup (berthing_mode_sensors mgr) ->
   all_count r = length (Vocab.listed_streaming mgr)).
Proof.
  cbn zeta.
  assert (Hdom : dom (all_sensors (get_all_berthing_data_core mgr now))
                 = list_to_set (Vocab.listed_streaming mgr)).
  { apply set_eq. intros sid.
    rewrite elem_of_dom, elem_of_list_to_set.
    unfold Vocab.listed_streaming. rewrite list_elem_of_filter.
    unfold get_all_berthing_data_core. rewrite core_sensors_lookup.
    destruct (decide (sid ∈ berthing_mode_sensors mgr)) as [Hin|Hout].
    - rewrite (bool_decide_eq_true_2 _ Hin). cbn [andb].
      destruct (default false (stream_active mgr !! sid)) eqn:Hs.
      + apply default_false_Some_true in Hs. split; [|eauto].
        intros _. split; assumption.
      + split; [intros [? ?]; discriminate|].
        intros [Hs' _]. apply default_false_Some_true in Hs'. congruence.
    - rewrite (bool_decide_eq_false_2 _ Hout). cbn [andb].
      split; [intros [? ?]; discriminate|]. intros [_ ?]. contradiction. }
  assert (Hcount : all_count (get_all_berthing_data_core mgr now)
                   = size (dom (all_sensors (get_all_berthing_data_core mgr now)))).
  { rewrite size_dom. reflexivity. }
  split; [exact Hdom|]. split; [exact Hcount|]. split.
  - rewrite Hcount, Hdom.
    etrans; [apply size_list_to_set_le|].
    unfold Vocab.listed_streaming. apply length_filter.
  - intros Hnd. rewrite Hcount, Hdom. apply size_list_to_set.
    unfold Vocab.listed_streaming. apply NoDup_filter. exact Hnd.
Qed.

Lemma half_connected_NoDup : NoDup (berthing_mode_sensors Vocab.half_connected).
Proof.
  cbn. apply NoDup_cons. split.
  - intros H. apply list_elem_of_singleton in H. discriminate.
  - apply NoDup_singleton.
Qed.

Lemma core_listing_witness :
  NoDup (berthing_mode_sensors Vocab.half_connected) /\
  all_count (get_all_berthing_data_core Vocab.half_connected 0)
  = length (Vocab.listed_streaming Vocab.half_connected).
Proof.
  split; [exact half_connected_NoDup|].
  exact (proj2 (proj2 (proj2 (core_listing Vocab.half_connected 0)))
           half_connected_NoDup).
Defined.

(** X24. For a streaming sensor without synchronised data, or whose
    data has no centre statistics, the view reports distance 0,
    speed 0, not moving, direction "stationary", phase "unknown" and
    confidence 0 (and timestamp 0 when there is no data at all). *)
Theorem fetch_defaults (mgr : lidar_manager) (sensor_id : string) :
  sensor_id ∈ sensors mgr ->
  stream_active mgr !! sensor_id = Some true ->
  (sensor_sync_data mgr !! sensor_id = None \/
   exists sd, sensor_sync_data mgr !! sensor_id = Some sd
              /\ sd_center_stats sd = None) ->
  exists view,
    BerthingDataCore.fetch_berthing_data_for_sensor mgr sensor_id
    = BerthingDataCore.Active view /\
    BerthingDataCore.distance view = Fin 0 /\
    BerthingDataCore.speed view = Fin 0 /\
    BerthingDataCore.is_moving view = false /\
    BerthingDataCore.direction view = "stationary"%string /\
    BerthingDataCore.movement_phase view = "unknown"%string /\
    BerthingDataCore.confidence view = Fin 0 /\
    (sensor_sync_data mgr !! sensor_id = None ->
     BerthingDataCore.timestamp view = Fin 0).
Proof.
  intros Hin Hs Hmissing.
  unfold BerthingDataCore.fetch_berthing_data_for_sensor.
  rewrite (bool_decide_eq_true_2 _ Hin), Hs. cbn [negb default].
  eexists. split; [reflexivity|].
  destruct Hmissing as [Hnone|[sd [Hsd Hstats]]].
  - rewrite Hnone. cbn. repeat split.
  - rewrite Hsd. destruct sd as [ts cs]. cbn in Hstats. subst cs. cbn.
    repeat split. intros H. discriminate.
Qed.

Lemma fetch_defaults_witness :
  "lidar_1"%string ∈ sensors Vocab.half_connected /\
  stream_active Vocab.half_connected !! "lidar_1"%string = Some true /\
  sensor_sync_data Vocab.half_connected !! "lidar_1"%string = None /\
  exists view,
    fetch_berthing_data_for_sensor Vocab.half_connected "lidar_1"
    = Active view /\
    direction view = "stationary"%string.
Proof.
  assert (Hs : stream_active Vocab.half_connected !! "lidar_1"%string
               = Some true) by (vm_compute; reflexivity).
  split; [exact lidar_1_known|]. split; [exact Hs|].
  split; [reflexivity|].
  destruct (fetch_defaults Vocab.half_connected "lidar_1" lidar_1_known Hs
              (or_introl eq_refl))
    as [view (Hview & _ & _ & _ & Hdir & _)].
  exists view. split; assumption.
Defined.

End SensorViews.

(** ** Further properties of the connection endpoints *)

Section ConnectionEndpoints.


Lemma status_body_cases (call : result Connection.mode_result) :
  (exists r, Connection.berthing_mode_status call = Response r /\
             exists d, call = Returned d /\ Vocab.has_required_keys d /\
               Connection.active d = Some (Connection.r_berthing_mode_active r) /\
               Connection.sensor_ids d = Some (Connection.r_sensor_ids r) /\
               Connection.message d = Some (Connection.r_message r)) \/
  (Connection.berthing_mode_status call = NoResponse /\
   ((exists e, call = Raised e) \/
    (exists d, call = Returned d /\ ~ Vocab.has_required_keys d))).
Proof.
  unfold Connection.berthing_mode_status, Vocab.has_required_keys.
  destruct call as [d|e]; cbn [mbind result_bind];
    [|right; split; [reflexivity|left; eauto]].
  destruct (Connection.active d) as [a|] eqn:Ha; cbn;
    [|right; split; [reflexivity|right; exists d; split; [reflexivity|]];
      intros ([? ?] & _); congruence].
  destruct (Connection.sensor_ids d) as [ids|] eqn:Hi; cbn;
    [|right; split; [reflexivity|right; exists d; split; [reflexivity|]];
      intros (_ & [? ?] & _); congruence].
  destruct (Connection.connected_sensors d) as [cs|] eqn:Hc; cbn;
    [|right; split; [reflexivity|right; exists d; split; [reflexivity|]];
      intros (_ & _ & [? ?] & _); congruence].
  destruct (Connection.streaming_sensors d) as [ss|] eqn:Hs; cbn;
    [|right; split; [reflexivity|right; exists d; split; [reflexivity|]];
      intros (_ & _ & _ & [? ?] & _); congruence].
  destruct (Connection.message d) as [m|] eqn:Hm; cbn;
    [|right; split; [reflexivity|right; exists d; split; [reflexivity|]];
      intros (_ & _ & _ & _ & [? ?]); congruence].
  left. eexists. split; [reflexivity|]. exists d. cbn.
  rewrite Ha, Hi, Hc, Hs, Hm. repeat split; eauto.
Qed.

(** X25. [berthing_mode_status] never raises an HTTPException: it
    returns a response exactly when the manager call returned a
    dictionary holding the five required entries, and nothing
    otherwise. *)
Theorem berthing_mode_status_outcomes (call : result Connection.mode_result) :
  (forall status_code detail,
     Connection.berthing_mode_status call <> HTTPException status_code detail) /\
  ((exists r, Connection.berthing_mode_status call = Response r)
   <-> exists d, call = Returned d /\ Vocab.has_required_keys d) /\
  (Connection.berthing_mode_status call = NoResponse
   <-> (exists e, call = Raised e) \/
       (exists d, call = Returned d /\ ~ Vocab.has_required_keys d)).
Proof.
  destruct (status_body_cases call)
    as [[r [Hr [d [Hd [Hk _]]]]]|[Hn Hwhy]].
  - split; [intros c m; rewrite Hr; discriminate|]. split.
    + split; [intros _; exists d; split; assumption|intros _; eauto].
    + split; [rewrite Hr; discriminate|].
      intros [[e He]|[d' [Hd' Hnk]]]; [congruence|].
      exfalso. apply Hnk. congruence.
  - split; [intros c m; rewrite Hn; discriminate|]. split.
    + split; [intros [r Hr]; congruence|].
      intros [d [Hd Hk]]. exfalso.
      destruct Hwhy as [[e He]|[d' [Hd' Hnk]]]; [congruence|].
      apply Hnk. congruence.
    + split; [intros _; exact Hwhy|intros _; exact Hn].
Qed.

(** X26. A manager result lacking its "message" entry is a KeyError
    that [berthing_mode_on] and [berthing_mode_off] report as status
    500 with the key as detail, and that [berthing_mode_status]
    answers with nothing. *)
Theorem missing_key_reports (request : Connection.BerthingModeRequest)
    (d : Connection.mode_result) :
  is_Some (Connection.active d) ->
  is_Some (Connection.sensor_ids d) ->
  is_Some (Connection.connected_sensors d) ->
  is_Some (Connection.streaming_sensors d) ->
  Connection.message d = None ->
  Connection.berthing_mode_status (Returned d) = NoResponse /\
  Connection.berthing_mode_on request (Returned d)
  = HTTPException 500 "'message'" /\
  Connection.berthing_mode_off request (Returned d)
  = HTTPException 500 "'message'".
Proof.
  intros [a Ha] [ids Hi] [cs Hc] [ss Hs] Hm.
  unfold Connection.berthing_mode_status,
    Connection.berthing_mode_on, Connection.berthing_mode_off.
  cbn [mbind result_bind]. rewrite Ha, Hi, Hc, Hs, Hm. repeat split.
Qed.

Lemma missing_key_reports_witness :
  Connection.message Vocab.status_without_message = None /\
  Connection.berthing_mode_status (Returned Vocab.status_without_message)
  = NoResponse /\
  Connection.berthing_mode_off
    {| Connection.q_sensor_ids := ["lidar_1"%string];
       Connection.q_computer_ip := None |}
    (Returned Vocab.status_without_message)
  = HTTPException 500 "'message'".
Proof.
  split; [reflexivity|].
  destruct (missing_key_reports
              {| Connection.q_sensor_ids := ["lidar_1"%string];
                 Connection.q_computer_ip := None |}
              Vocab.status_without_message
              (ex_intro _ _ eq_refl) (ex_intro _ _ eq_refl)
              (ex_intro _ _ eq_refl) (ex_intro _ _ eq_refl) eq_refl)
    as (Hstatus & _ & Hoff).
  split; assumption.
Defined.

Lemma disconnect_loop_count (calls : list (string * result bool)) (n : Z) :
  Vocab.none_raised calls ->
  Connection.disconnect_loop calls n = Returned (n + Vocab.count_true calls).
Proof.
  revert n. induction calls as [|[sid o] calls IH]; intros n Hnone.
  - cbn. now rewrite Z.add_0_r.
  - cbn [Connection.disconnect_loop].
    apply Forall_cons_1 in Hnone as [[ok Hok] Hnone]. cbn in Hok. subst o.
    cbn [mbind result_bind]. rewrite IH by exact Hnone.
    cbn [Vocab.count_true Vocab.returned_true]. destruct ok; f_equal; lia.
Qed.

Lemma count_true_bounds (calls : list (string * result bool)) :
  0 <= Vocab.count_true calls <= Z.of_nat (length calls).
Proof.
  induction calls as [|[sid o] calls IH]; cbn [Vocab.count_true length]; [lia|].
  destruct (Vocab.returned_true o); lia.
Qed.

Lemma disconnect_loop_raises (before after : list (string * result bool))
    (sensor_id : string) (e : exn) (n : Z) :
  Vocab.none_raised before ->
  Connection.disconnect_loop (before ++ (sensor_id, Raised e) :: after) n
  = Raised e.
Proof.
  revert n. induction before as [|[sid o] before IH]; intros n Hnone.
  - reflexivity.
  - apply Forall_cons_1 in Hnone as [[ok Hok] Hnone]. cbn in Hok. subst o.
    cbn [app Connection.disconnect_loop mbind result_bind].
    apply IH. exact Hnone.
Qed.

(** X27. When no disconnect call raises, [disconnect_all_sensors]
    answers success with disconnected_count equal to the number of
    calls that returned True, between 0 and the number of sensors;
    the first call that raises turns the answer into status 500 with
    its message. *)
Theorem disconnect_all_counts (calls : list (string * result bool)) :
  (Vocab.none_raised calls ->
   exists r,
     Connection.disconnect_all_sensors calls = Response r /\
     Connection.success r = true /\
     Connection.data r
     = Some ("disconnected_count"%string, Vocab.count_true calls) /\
     0 <= Vocab.count_true calls <= Z.of_nat (length calls)) /\
  (forall before after sensor_id e,
     calls = before ++ (sensor_id, Raised e) :: after ->
     Vocab.none_raised before ->
     Connection.disconnect_all_sensors calls = HTTPException 500 (str e)).
Proof.
  split.
  - intros Hnone. unfold Connection.disconnect_all_sensors.
    rewrite (disconnect_loop_count _ 0 Hnone). rewrite Z.add_0_l.
    eexists. split; [reflexivity|]. split; [reflexivity|].
    split; [reflexivity|]. apply count_true_bounds.
  - intros before after sid e -> Hnone.
    unfold Connection.disconnect_all_sensors.
    now rewrite (disconnect_loop_raises _ _ _ _ _ Hnone).
Qed.

Lemma two_calls_none_raised : Vocab.none_raised Vocab.two_calls.
Proof.
  unfold Vocab.none_raised, Vocab.two_calls.
  repeat (apply Forall_cons_2; [eexists; reflexivity|]). apply Forall_nil_2.
Qed.

Lemma disconnect_all_counts_witness :
  Vocab.none_raised Vocab.two_calls /\
  exists r,
    Connection.disconnect_all_sensors Vocab.two_calls = Response r /\
    Connection.data r = Some ("disconnected_count"%string, 1).
Proof.
  split; [exact two_calls_none_raised|].
  destruct (proj1 (disconnect_all_counts Vocab.two_calls)
              two_calls_none_raised) as [r (Hresp & _ & Hdata & _)].
  exists r. split; [exact Hresp|exact Hdata].
Defined.

End ConnectionEndpoints.
